(** * MFA aligner diagnostics: a shallow embedding of [tools/analyze_textgrids.py],
    [tools/metrics.py] and [tools/analyze_oov.py].

    Conventions of the embedding.
    - A Python [str] is a Rocq [string]; each [ascii] is read as the code
      point of one character, so the model covers text in the range
      U+0000..U+00FF.  The character classes below are CPython's Unicode
      tables restricted to that range.  The pattern classifier is embedded
      a second time over an open repertoire of characters, [Repertoire],
      for what is stated of every word.
    - A Python [int] is a [Z].
    - A Python [float] is a binary64 value of [SpecFloat.spec_float].
    - A [dict] is an association list in insertion order (Python 3.7+
      iterates a dict in the order its keys were first inserted).
    - A caught exception is an [option] or a [result] that the caller
      matches on, as the [try]/[except] of the source does. *)

From Stdlib Require Import ZArith NArith Bool List Lia.
From Stdlib Require Import Ascii String.
From Stdlib Require Import Permutation Sorted.
From Stdlib Require Import SpecFloat.
Import ListNotations.

Open Scope string_scope.
Open Scope bool_scope.
Open Scope Z_scope.

(** ** Python strings *)

Module Py.

Definition code (c : ascii) : N := N_of_ascii c.

Definition in_range (lo hi : N) (c : ascii) : bool :=
  ((lo <=? code c) && (code c <=? hi))%N.

(** [c.isspace()], also the class [\s] of [re]. *)
Definition isspace (c : ascii) : bool :=
  in_range 9 13 c || in_range 28 32 c || in_range 133 133 c || in_range 160 160 c.

(** The line boundaries of [str.splitlines]. *)
Definition islinebreak (c : ascii) : bool :=
  in_range 10 13 c || in_range 28 30 c || in_range 133 133 c.

(** [c.isdigit()]: the decimal digits and the superscripts 1, 2, 3. *)
Definition isdigit (c : ascii) : bool :=
  in_range 48 57 c || in_range 178 179 c || in_range 185 185 c.

(** [c.isalnum()]. *)
Definition isalnum (c : ascii) : bool :=
  in_range 48 57 c || in_range 65 90 c || in_range 97 122 c
  || in_range 170 170 c || in_range 178 179 c || in_range 181 181 c
  || in_range 185 186 c || in_range 188 190 c || in_range 192 214 c
  || in_range 216 246 c || in_range 248 255 c.

(** Upper-case and lower-case characters ([c.isupper()], [c.islower()]). *)
Definition isupper_char (c : ascii) : bool :=
  in_range 65 90 c || in_range 192 214 c || in_range 216 222 c.

Definition islower_char (c : ascii) : bool :=
  in_range 97 122 c || in_range 170 170 c || in_range 181 181 c
  || in_range 186 186 c || in_range 223 246 c || in_range 248 255 c.

(** [c.lower()]. *)
Definition lower_char (c : ascii) : ascii :=
  if isupper_char c then ascii_of_N (code c + 32) else c.

(** The class [\w] of [re]: alphanumeric or underscore. *)
Definition isword (c : ascii) : bool := isalnum c || (c =? "_")%char.

Fixpoint str_exists (p : ascii -> bool) (s : string) : bool :=
  match s with
  | EmptyString => false
  | String c s' => p c || str_exists p s'
  end.

Fixpoint str_forall (p : ascii -> bool) (s : string) : bool :=
  match s with
  | EmptyString => true
  | String c s' => p c && str_forall p s'
  end.

Fixpoint str_map (f : ascii -> ascii) (s : string) : string :=
  match s with
  | EmptyString => EmptyString
  | String c s' => String (f c) (str_map f s')
  end.

Definition is_empty (s : string) : bool :=
  match s with EmptyString => true | _ => false end.

(** [len(s)]. *)
Definition len (s : string) : Z := Z.of_nat (String.length s).

(** [s.lower()]. *)
Definition lower (s : string) : string := str_map lower_char s.

(** [s.isupper()]: no lower-case character and at least one upper-case one. *)
Definition isupper (s : string) : bool :=
  negb (str_exists islower_char s) && str_exists isupper_char s.

(** [s.startswith(p)]. *)
Fixpoint startswith (p s : string) : bool :=
  match p, s with
  | EmptyString, _ => true
  | String a p', String b s' => (a =? b)%char && startswith p' s'
  | String _ _, EmptyString => false
  end.

(** [p in s]. *)
Fixpoint contains (p s : string) : bool :=
  startswith p s ||
  match s with
  | EmptyString => false
  | String _ s' => contains p s'
  end.

(** [c in s] for a single character. *)
Definition has_char (c : ascii) (s : string) : bool :=
  str_exists (Ascii.eqb c) s.

Fixpoint lstrip_by (p : ascii -> bool) (s : string) : string :=
  match s with
  | EmptyString => EmptyString
  | String c s' => if p c then lstrip_by p s' else s
  end.

Fixpoint rstrip_by (p : ascii -> bool) (s : string) : string :=
  match s with
  | EmptyString => EmptyString
  | String c s' =>
      let r := rstrip_by p s' in
      if is_empty r && p c then EmptyString else String c r
  end.

Definition strip_by (p : ascii -> bool) (s : string) : string :=
  rstrip_by p (lstrip_by p s).

(** [s.strip()]. *)
Definition strip (s : string) : string := strip_by isspace s.

(** [s.strip(c)] for a one-character argument. *)
Definition strip_char (c : ascii) (s : string) : string :=
  strip_by (Ascii.eqb c) s.

Definition cons_head (c : ascii) (parts : list string) : list string :=
  match parts with
  | h :: t => String c h :: t
  | [] => [String c EmptyString]
  end.

(** [s.split(sep)] for a one-character separator. *)
Fixpoint split (sep : ascii) (s : string) : list string :=
  match s with
  | EmptyString => [EmptyString]
  | String c s' =>
      if (c =? sep)%char then EmptyString :: split sep s'
      else cons_head c (split sep s')
  end.

(** [s.split(sep, 1)] for a one-character separator. *)
Fixpoint split1 (sep : ascii) (s : string) : list string :=
  match s with
  | EmptyString => [EmptyString]
  | String c s' =>
      if (c =? sep)%char then [EmptyString; s']
      else cons_head c (split1 sep s')
  end.

(** [s.split()]: the maximal runs of non-whitespace characters. *)
Fixpoint split_ws (s : string) : list string :=
  match s with
  | EmptyString => []
  | String c s' =>
      if isspace c then split_ws s'
      else match s' with
           | EmptyString => [String c EmptyString]
           | String d _ =>
               if isspace d then String c EmptyString :: split_ws s'
               else cons_head c (split_ws s')
           end
  end.

(** [s.splitlines()].  A carriage return directly before a line feed is
    part of the same terminator, so it is dropped and the line feed ends
    the line. *)
Definition cr_lf (c : ascii) (s' : string) : bool :=
  (c =? "013")%char && startswith (String "010" EmptyString) s'.

Fixpoint splitlines (s : string) : list string :=
  match s with
  | EmptyString => []
  | String c s' =>
      if islinebreak c then
        if cr_lf c s' then splitlines s' else EmptyString :: splitlines s'
      else cons_head c (splitlines s')
  end.

(** [xs[i]] on a list: [None] stands for [IndexError]. *)
Definition index {A : Type} (xs : list A) (i : nat) : option A := nth_error xs i.

End Py.

(** ** Python floats and exceptions *)

Module PyFloat.

Definition prec : Z := 53.
Definition emax : Z := 1024.

Definition float : Type := spec_float.

(** The literal [0.0]. *)
Definition zero : float := S754_zero false.

Inductive exn : Type :=
| ZeroDivisionError
| OverflowError.

Inductive result (A : Type) : Type :=
| Ok (a : A)
| Raise (e : exn).

Arguments Ok {A} a.
Arguments Raise {A} e.

(** An integer as an unrounded operand of the binary64 operations. *)
Definition exact (z : Z) : float :=
  match z with
  | Z0 => S754_zero false
  | Zpos p => S754_finite false p 0
  | Zneg p => S754_finite true p 0
  end.

(** [float(z)] for an integer: round to nearest, ties to even. *)
Definition of_int (z : Z) : float := binary_normalize prec emax z 0 false.

(** [a / b] on two integers: the correctly rounded quotient;
    [ZeroDivisionError] for a zero divisor and [OverflowError] when the
    quotient is too large for a float. *)
Definition int_truediv (a b : Z) : result float :=
  if b =? 0 then Raise ZeroDivisionError
  else match SFdiv prec emax (exact a) (exact b) with
       | S754_infinity _ => Raise OverflowError
       | q => Ok q
       end.

(** [x * y] on two floats. *)
Definition mul (x y : float) : float := SFmul prec emax x y.

(** *** [float(s)] on a string *)

Definition digit_val (c : ascii) : option Z :=
  if Py.in_range 48 57 c then Some (Z.of_N (Py.code c) - 48) else None.

(** The rest of a digit part: digits, each optionally preceded by one
    underscore.  Returns the value, the number of digits and the unread
    text. *)
Fixpoint digitpart_tail (acc n : Z) (s : string) : Z * Z * string :=
  match s with
  | String c s' =>
      match digit_val c with
      | Some d => digitpart_tail (10 * acc + d) (n + 1) s'
      | None =>
          if (c =? "_")%char then
            match s' with
            | String c' s'' =>
                match digit_val c' with
                | Some d => digitpart_tail (10 * acc + d) (n + 1) s''
                | None => (acc, n, s)
                end
            | EmptyString => (acc, n, s)
            end
          else (acc, n, s)
      end
  | EmptyString => (acc, n, s)
  end.

Definition digitpart (acc : Z) (s : string) : option (Z * Z * string) :=
  match s with
  | String c s' =>
      match digit_val c with
      | Some d => Some (digitpart_tail (10 * acc + d) 1 s')
      | None => None
      end
  | EmptyString => None
  end.

(** [number ::= [digitpart] "." digitpart | digitpart ["."]]: the digits
    read as one integer, the count of those after the point, the rest. *)
Definition number (s : string) : option (Z * Z * string) :=
  match digitpart 0 s with
  | Some (i, _, r) =>
      match r with
      | String "." r' =>
          match digitpart i r' with
          | Some f => Some f
          | None => Some (i, 0, r')
          end
      | _ => Some (i, 0, r)
      end
  | None =>
      match s with
      | String "." r' => digitpart 0 r'
      | _ => None
      end
  end.

Definition sign (s : string) : bool * string :=
  match s with
  | String "-" r => (true, r)
  | String "+" r => (false, r)
  | _ => (false, s)
  end.

(** [exponent ::= ("e" | "E") [sign] digitpart], or nothing. *)
Definition exponent (s : string) : option Z :=
  match s with
  | EmptyString => Some 0
  | String c r =>
      if (c =? "e")%char || (c =? "E")%char then
        let '(neg, r') := sign r in
        match digitpart 0 r' with
        | Some (v, _, EmptyString) => Some (if neg then - v else v)
        | _ => None
        end
      else None
  end.

(** The binary64 value nearest to [m * 10 ^ e10]. *)
Definition decimal (neg : bool) (m e10 : Z) : float :=
  match m with
  | Zpos p =>
      if 0 <=? e10
      then binary_normalize prec emax
             ((if neg then Zneg p else Zpos p) * 10 ^ e10) 0 false
      else SFdiv prec emax (S754_finite neg p 0) (exact (10 ^ (- e10)))
  | _ => S754_zero neg
  end.

(** The white space that [float] passes over at both ends of its
    argument. *)
Definition isspace_float (c : ascii) : bool :=
  Py.in_range 9 13 c || Py.in_range 32 32 c
  || Py.in_range 133 133 c || Py.in_range 160 160 c.

(** [float(s)]: [None] stands for [ValueError]. *)
Definition of_str (s : string) : option float :=
  let '(neg, body) := sign (Py.strip_by isspace_float s) in
  let low := Py.lower body in
  if ((low =? "inf") || (low =? "infinity"))%string then Some (S754_infinity neg)
  else if (low =? "nan")%string then Some S754_nan
  else
    match number body with
    | Some (m, nfrac, r) =>
        match exponent r with
        | Some e => Some (decimal neg m (e - nfrac))
        | None => None
        end
    | None => None
    end.

End PyFloat.

(** ** [tools/analyze_textgrids.py] *)

Module TextGrid.

(** The values [current_tier] takes: [None], ['words'], ['phones'],
    ['unknown']. *)
Inductive tier : Type :=
| NoTier
| Words
| Phones
| Unknown.

(** The [stats] dictionary of [read_textgrid]. *)
Record stats : Type := mk_stats {
  filename : string;
  total_duration : PyFloat.float;
  interval_count : Z;
  word_count : Z;
  phone_count : Z;
  empty_intervals : Z;
  has_errors : bool
}.

(** The double quote character and a text between two of them. *)
Definition dquote : ascii := "034"%char.
Definition quoted (s : string) : string :=
  String dquote (s ++ String dquote EmptyString).

(** [os.path.basename] on a POSIX path. *)
Definition basename (path : string) : string :=
  last (Py.split "/" path) EmptyString.

Definition initial_stats (filepath : string) : stats :=
  mk_stats (basename filepath) PyFloat.zero 0 0 0 0 false.

Definition set_total_duration (d : PyFloat.float) (st : stats) : stats :=
  mk_stats (filename st) d (interval_count st) (word_count st)
           (phone_count st) (empty_intervals st) (has_errors st).

Definition set_has_errors (st : stats) : stats :=
  mk_stats (filename st) (total_duration st) (interval_count st)
           (word_count st) (phone_count st) (empty_intervals st) true.

Definition incr_interval_count (st : stats) : stats :=
  mk_stats (filename st) (total_duration st) (interval_count st + 1)
           (word_count st) (phone_count st) (empty_intervals st) (has_errors st).

Definition incr_word_count (st : stats) : stats :=
  mk_stats (filename st) (total_duration st) (interval_count st)
           (word_count st + 1) (phone_count st) (empty_intervals st) (has_errors st).

Definition incr_phone_count (st : stats) : stats :=
  mk_stats (filename st) (total_duration st) (interval_count st)
           (word_count st) (phone_count st + 1) (empty_intervals st) (has_errors st).

Definition incr_empty_intervals (st : stats) : stats :=
  mk_stats (filename st) (total_duration st) (interval_count st)
           (word_count st) (phone_count st) (empty_intervals st + 1) (has_errors st).

(** The tier a line with ['name ='] names (lines 60-65). *)
Definition named_tier (line : string) : tier :=
  if Py.contains (quoted "words") line || Py.contains "'words'" line then Words
  else if Py.contains (quoted "phones") line || Py.contains "'phones'" line then Phones
  else Unknown.

(** Lines 59-65: the tier after a stripped line has been looked at. *)
Definition detect_tier (line : string) (current_tier : tier) : tier :=
  if Py.contains "name =" line then named_tier line else current_tier.

(** Line 70: the text after the first [=], stripped of white space, then
    of double quotes, then of white space again; [None] is the
    [IndexError] of the subscript. *)
Definition interval_text (line : string) : option string :=
  match Py.index (Py.split1 "=" line) 1 with
  | Some field => Some (Py.strip (Py.strip_char dquote (Py.strip field)))
  | None => None
  end.

(** Lines 68-83 on a stripped line. *)
Definition count_interval (line : string) (current_tier : tier) (st : stats) : stats :=
  if Py.contains "text =" line then
    match interval_text line with
    | Some text =>
        let st := incr_interval_count st in
        if Py.is_empty text then incr_empty_intervals st
        else match current_tier with
             | Words => incr_word_count st
             | Phones => incr_phone_count st
             | _ => st
             end
    | None => st
    end
  else st.

(** One turn of the loop of lines 55-83. *)
Definition scan_line (acc : tier * stats) (raw : string) : tier * stats :=
  let line := Py.strip raw in
  let current_tier := detect_tier line (fst acc) in
  (current_tier, count_interval line current_tier (snd acc)).

Definition scan (lines : list string) (st : stats) : tier * stats :=
  fold_left scan_line lines (NoTier, st).

Section Parser.

(** [float] on a string is the runtime's; [None] is its [ValueError].
    [PyFloat.of_str] is the instance used in the examples. *)
Variable float_of_str : string -> option PyFloat.float.

(** Lines 44-50: the loop that looks for the duration.  It ends at the
    first line whose field converts; a line that does not convert is
    passed over. *)
Fixpoint find_xmax (lines : list string) (total_duration : PyFloat.float)
  : PyFloat.float :=
  match lines with
  | [] => total_duration
  | line :: rest =>
      if Py.contains "xmax" line && Py.contains "=" line then
        match Py.index (Py.split "=" line) 1 with
        | Some field =>
            match float_of_str (Py.strip field) with
            | Some d => d
            | None => find_xmax rest total_duration
            end
        | None => find_xmax rest total_duration
        end
      else find_xmax rest total_duration
  end.

(** [read_textgrid].  [file] is what [open] and [f.read()] give: the text
    of the file, or [None] when either raises. *)
Definition read_textgrid (filepath : string) (file : option string) : stats :=
  let st := initial_stats filepath in
  match file with
  | None => set_has_errors st
  | Some content =>
      let lines := Py.splitlines content in
      let st := set_total_duration (find_xmax lines (total_duration st)) st in
      snd (scan lines st)
  end.

End Parser.

(** *** Words of the specification *)

(** A line that holds a [text =] field, and one that declares a tier name. *)
Definition is_interval_line (raw : string) : bool :=
  Py.contains "text =" (Py.strip raw).

Definition is_tier_declaration (raw : string) : bool :=
  Py.contains "name =" (Py.strip raw).

(** The tier in force after [seen]: the one named by the last declaration
    among those lines, none before the first declaration. *)
Definition tier_in_force (seen : list string) : tier :=
  match find is_tier_declaration (rev seen) with
  | Some raw => named_tier (Py.strip raw)
  | None => NoTier
  end.

(** The content of an interval line is empty. *)
Definition has_empty_text (raw : string) : bool :=
  match interval_text (Py.strip raw) with
  | Some text => Py.is_empty text
  | None => false
  end.

(** What a line counts as, given the lines before it. *)
Inductive line_kind : Type :=
| NotInterval
| EmptyInterval
| WordInterval
| PhoneInterval
| OtherInterval.

Definition kind_of (before : list string) (raw : string) : line_kind :=
  if is_interval_line raw then
    if has_empty_text raw then EmptyInterval
    else match tier_in_force (before ++ [raw]) with
         | Words => WordInterval
         | Phones => PhoneInterval
         | _ => OtherInterval
         end
  else NotInterval.

Fixpoint kinds (before rest : list string) : list line_kind :=
  match rest with
  | [] => []
  | raw :: rest' => kind_of before raw :: kinds (before ++ [raw]) rest'
  end.

Definition kind_eqb (a b : line_kind) : bool :=
  match a, b with
  | NotInterval, NotInterval
  | EmptyInterval, EmptyInterval
  | WordInterval, WordInterval
  | PhoneInterval, PhoneInterval
  | OtherInterval, OtherInterval => true
  | _, _ => false
  end.

Definition count_kind (k : line_kind) (ks : list line_kind) : Z :=
  Z.of_nat (List.length (filter (kind_eqb k) ks)).

(** The record of a scan that an exception ends after [lines] have been
    looked at: the counters as they stand, flagged with [has_errors]. *)
Definition aborted_after (filepath : string) (duration : PyFloat.float)
           (lines : list string) : stats :=
  set_has_errors (snd (scan lines (set_total_duration duration (initial_stats filepath)))).

(** The duration the first line with [xmax] and [=] alone would give. *)
Definition is_xmax_line (line : string) : bool :=
  Py.contains "xmax" line && Py.contains "=" line.

Definition xmax_field (line : string) : option string :=
  match Py.index (Py.split "=" line) 1 with
  | Some field => Some (Py.strip field)
  | None => None
  end.

(** The duration a line gives: it holds [xmax] and [=], and the text
    between its first and second [=] converts to a float. *)
Definition converted (float_of_str : string -> option PyFloat.float)
           (line : string) : option PyFloat.float :=
  if is_xmax_line line then
    match xmax_field line with
    | Some field => float_of_str field
    | None => None
    end
  else None.

(** The first duration that a line of [lines] gives. *)
Fixpoint first_converted (float_of_str : string -> option PyFloat.float)
         (lines : list string) : option PyFloat.float :=
  match lines with
  | [] => None
  | line :: rest =>
      match converted float_of_str line with
      | Some d => Some d
      | None => first_converted float_of_str rest
      end
  end.

(** The duration when the first line with [xmax] and [=] alone decided:
    its value when it converts, the default when it does not. *)
Definition first_xmax_only (float_of_str : string -> option PyFloat.float)
           (lines : list string) : PyFloat.float :=
  match find is_xmax_line lines with
  | Some line =>
      match converted float_of_str line with
      | Some d => d
      | None => PyFloat.zero
      end
  | None => PyFloat.zero
  end.

End TextGrid.

(** ** [tools/metrics.py] *)

Module Metrics.

(** A [set] of strings whose order is never looked at: a list without
    repetition. *)
Definition set_add (x : string) (s : list string) : list string :=
  if existsb (String.eqb x) s then s else s ++ [x].

(** The [stats] dictionary of [parse_validation_log]. *)
Record validation_stats : Type := mk_validation_stats {
  oov_count : Z;
  oov_words : list string;
  total_utterances : Z;
  error_count : Z
}.

Definition initial_validation_stats : validation_stats :=
  mk_validation_stats 0 [] 0 0.

(** The two phrase lists of lines 79-82 and 85-88. *)
Definition no_error_phrases : list string :=
  ["no error"; "there were no"; "0 error"; "without error";
   "error read"; "read error"; "no issues"].

Definition error_phrases : list string :=
  [" error:"; "error occurred"; "failed"; "exception"; "traceback"; "error -"].

(** [any(phrase in text for phrase in phrases)]. *)
Definition any_phrase_in (phrases : list string) (text : string) : bool :=
  existsb (fun phrase => Py.contains phrase text) phrases.

(** Lines 70-73: every word that stands directly before a [not]. *)
Fixpoint add_words_before_not (previous : option string) (parts : list string)
         (words : list string) : list string :=
  match parts with
  | [] => words
  | part :: rest =>
      let words' :=
        match previous with
        | Some w => if (Py.lower part =? "not")%string then set_add w words else words
        | None => words
        end in
      add_words_before_not (Some part) rest words'
  end.

(** Lines 64-65. *)
Definition count_oov (line : string) (st : validation_stats) : validation_stats :=
  if Py.contains "OOV" line || Py.contains "oov" (Py.lower line)
  then mk_validation_stats (oov_count st + 1) (oov_words st)
                           (total_utterances st) (error_count st)
  else st.

(** Lines 68-73. *)
Definition collect_oov_words (line : string) (st : validation_stats) : validation_stats :=
  if Py.contains "not found in dictionary" (Py.lower line)
  then mk_validation_stats (oov_count st)
         (add_words_before_not None (Py.split_ws line) (oov_words st))
         (total_utterances st) (error_count st)
  else st.

(** Lines 76-89.  The [continue] of line 83 ends the turn of the loop, and
    nothing follows the error count in it. *)
Definition count_error (line : string) (st : validation_stats) : validation_stats :=
  let line_lower := Py.lower line in
  if Py.contains "error" line_lower then
    if any_phrase_in no_error_phrases line_lower then st
    else if any_phrase_in error_phrases line_lower
         then mk_validation_stats (oov_count st) (oov_words st)
                                  (total_utterances st) (error_count st + 1)
         else st
  else st.

Definition scan_log_line (st : validation_stats) (line : string) : validation_stats :=
  count_error line (collect_oov_words line (count_oov line st)).

(** [parse_validation_log].  [file] is the text of the log, or [None]
    when the file does not exist or cannot be read: both leave the initial
    statistics. *)
Definition parse_validation_log (file : option string) : validation_stats :=
  match file with
  | None => initial_validation_stats
  | Some content => fold_left scan_log_line (Py.splitlines content) initial_validation_stats
  end.

(** [calculate_coverage]: [(textgrid_count / wav_count) * 100] with the
    true division of two integers and the product of a float and the
    integer 100. *)
Definition calculate_coverage (wav_count textgrid_count : Z)
  : PyFloat.result PyFloat.float :=
  if wav_count =? 0 then PyFloat.Ok PyFloat.zero
  else match PyFloat.int_truediv textgrid_count wav_count with
       | PyFloat.Ok q => PyFloat.Ok (PyFloat.mul q (PyFloat.of_int 100))
       | PyFloat.Raise e => PyFloat.Raise e
       end.

(** *** Words of the specification *)

(** A line that the error count takes. *)
Definition counts_as_error (line : string) : bool :=
  let low := Py.lower line in
  Py.contains "error" low
  && negb (existsb (fun phrase => Py.contains phrase low)
             ["no error"; "there were no"; "0 error"; "without error";
              "error read"; "read error"; "no issues"])
  && existsb (fun phrase => Py.contains phrase low)
       [" error:"; "error occurred"; "failed"; "exception"; "traceback"; "error -"].

(** The indicator and no-error phrases as the specification names them. *)
Definition claimed_error_phrases : list string :=
  ["error:"; "failed"; "exception"; "traceback"].

Definition claimed_no_error_phrases : list string :=
  ["no error"; "0 error"].

Definition claimed_as_error (line : string) : bool :=
  let low := Py.lower line in
  Py.contains "error" low
  && any_phrase_in claimed_error_phrases low
  && negb (any_phrase_in claimed_no_error_phrases low).

(** The floats [80.0] and [100.0]. *)
Definition float_80 : PyFloat.float := PyFloat.of_int 80.
Definition float_100 : PyFloat.float := PyFloat.of_int 100.

End Metrics.

(** ** [tools/analyze_oov.py] *)

Module OOV.

(** *** [re.findall(literal + r'\s*(\w+)', content, re.IGNORECASE)] *)

(** The literal part of a pattern at the head of [s], letters compared
    without case; the text after it. *)
Fixpoint match_literal (literal s : string) : option string :=
  match literal, s with
  | EmptyString, _ => Some s
  | String a literal', String b s' =>
      if (Py.lower_char a =? Py.lower_char b)%char
      then match_literal literal' s' else None
  | String _ _, EmptyString => None
  end.

Fixpoint take_while (p : ascii -> bool) (s : string) : string :=
  match s with
  | EmptyString => EmptyString
  | String c s' => if p c then String c (take_while p s') else EmptyString
  end.

(** One match attempt at the head of [s]: the literal, the longest run
    of white space, then the longest run of word characters, which must
    not be empty.  No character is both white space and a word
    character, so a shorter white-space run never helps.  Returns the
    group and the length of the whole match. *)
Definition match_here (literal s : string) : option (string * nat) :=
  match match_literal literal s with
  | None => None
  | Some after_literal =>
      let after_space := Py.lstrip_by Py.isspace after_literal in
      let word := take_while Py.isword after_space in
      if Py.is_empty word then None
      else Some (word,
                 (String.length literal
                  + (String.length after_literal - String.length after_space)
                  + String.length word)%nat)
  end.

(** The matches from left to right, none overlapping another: after a
    match of length [n] the next attempt starts [n] characters further,
    so [skip] counts the characters of the last match still to pass. *)
Fixpoint findall_from (literal : string) (skip : nat) (s : string) : list string :=
  match s with
  | EmptyString => []
  | String _ s' =>
      match skip with
      | S k => findall_from literal k s'
      | O =>
          match match_here literal s with
          | Some (word, n) => word :: findall_from literal (Nat.pred n) s'
          | None => findall_from literal 0 s'
          end
      end
  end.

Definition findall (literal content : string) : list string :=
  findall_from literal 0 content.

(** The literal parts of the four patterns of lines 39-44. *)
Definition patterns : list string :=
  ["OOV:"; "out of vocabulary:"; "not found in dictionary:"; "unknown word:"].

(** [extract_oov_words_from_log].  [file] is the text of the log, or
    [None] when it does not exist or cannot be read. *)
Definition extract_oov_words_from_log (file : option string) : list string :=
  match file with
  | None => []
  | Some content => flat_map (fun pattern => findall pattern content) patterns
  end.

(** *** [read_oov_files] *)

(** A [dict] from words to counts, in insertion order. *)
Definition dict : Type := list (string * Z).

Fixpoint dict_get (d : dict) (key : string) (default : Z) : Z :=
  match d with
  | [] => default
  | (k, v) :: d' => if (k =? key)%string then v else dict_get d' key default
  end.

(** [d[key] = value]: a present key keeps its place, a new one goes last. *)
Fixpoint dict_set (d : dict) (key : string) (value : Z) : dict :=
  match d with
  | [] => [(key, value)]
  | (k, v) :: d' =>
      if (k =? key)%string then (k, value) :: d' else (k, v) :: dict_set d' key value
  end.

(** Lines 74-77 for one line of [oovs_found.txt]. *)
Definition read_found_line (oov_words : list string) (line : string) : list string :=
  let word := Py.strip line in
  if Py.is_empty word then oov_words else oov_words ++ [word].

(** Lines 92-95 for one word of the payload. *)
Definition count_word (word_frequencies : dict) (word : string) : dict :=
  let word := Py.strip word in
  if Py.is_empty word then word_frequencies
  else dict_set word_frequencies word (dict_get word_frequencies word 0 + 1).

(** Lines 88-95 for one line of [utterance_oovs.txt]. *)
Definition read_utterance_line (word_frequencies : dict) (line : string) : dict :=
  if Py.contains ":" line then
    match Py.split1 ":" line with
    | [_; payload] => fold_left count_word (Py.split_ws (Py.strip payload)) word_frequencies
    | _ => word_frequencies
    end
  else word_frequencies.

(** [read_oov_files].  Each file is given by the lines its iteration
    yields, or [None] when it does not exist; an error while reading ends
    the loop with what was read, so the lines yielded until then describe
    that read too. *)
Definition read_oov_files (oovs_found utterance_oovs : option (list string))
  : list string * dict :=
  let oov_words :=
    match oovs_found with
    | Some lines => fold_left read_found_line lines []
    | None => []
    end in
  let word_frequencies :=
    match utterance_oovs with
    | Some lines => fold_left read_utterance_line lines []
    | None => []
    end in
  (oov_words, word_frequencies).

(** *** [analyze_oov_patterns] *)

Record pattern_lists : Type := mk_patterns {
  numbers : list string;
  hyphenated : list string;
  contractions : list string;
  uppercase : list string;
  special_chars : list string;
  short : list string;
  long : list string
}.

Definition append_if (b : bool) (xs : list string) (word : string) : list string :=
  if b then xs ++ [word] else xs.

Definition is_special_char (c : ascii) : bool :=
  negb (Py.isalnum c) && negb ((c =? "-")%char || (c =? "'")%char).

(** Lines 123-149 for one word. *)
Definition classify_word (p : pattern_lists) (word : string) : pattern_lists :=
  mk_patterns
    (append_if (Py.str_exists Py.isdigit word) (numbers p) word)
    (append_if (Py.contains "-" word) (hyphenated p) word)
    (append_if (Py.contains "'" word) (contractions p) word)
    (append_if (Py.isupper word && (1 <? Py.len word)) (uppercase p) word)
    (append_if (Py.str_exists is_special_char word) (special_chars p) word)
    (append_if (Py.len word <=? 2) (short p) word)
    (append_if (15 <=? Py.len word) (long p) word).

Definition analyze_oov_patterns (oov_words : list string) : pattern_lists :=
  fold_left classify_word oov_words (mk_patterns [] [] [] [] [] [] []).

(** *** [print_oov_report] *)

(** [sorted(items, key=lambda x: x[1], reverse=True)]: a stable sort, so
    items of equal count keep their order. *)
Fixpoint insert_by_count (x : string * Z) (sorted : list (string * Z))
  : list (string * Z) :=
  match sorted with
  | [] => [x]
  | y :: rest =>
      if snd x <? snd y then y :: insert_by_count x rest else x :: y :: rest
  end.

Definition sorted_by_count_desc (items : list (string * Z)) : list (string * Z) :=
  fold_right insert_by_count [] items.

(** Lines 184-186. *)
Definition sorted_freqs (word_frequencies : dict) : list (string * Z) :=
  firstn 20 (sorted_by_count_desc word_frequencies).

(** [sorted(oov_words)]: strings in the order of their code points. *)
Fixpoint insert_str (x : string) (sorted : list string) : list string :=
  match sorted with
  | [] => [x]
  | y :: rest => if String.leb x y then x :: y :: rest else y :: insert_str x rest
  end.

Definition sorted_str (words : list string) : list string :=
  fold_right insert_str [] words.

(** What the report prints from its arguments, one item per [print] whose
    text depends on them; the fixed headings and the recommendations are
    the same in every report and are left out. *)
Inductive report_item : Type :=
| NoOOVFiles
| NoOOVWords
| UniqueCount (n : Z)
| TotalOccurrences (n : option Z)
| FrequentWord (word : string) (count : Z)
| UniqueWord (i : Z) (word : string)
| AndMore (n : Z)
| PatternCount (label : string) (n : Z)
| PatternExamples (examples : list string).

(** Lines 196-200: the numbered words, at most 50 of them, then the count
    of the rest. *)
Fixpoint unique_listing (i : Z) (total : Z) (words : list string) : list report_item :=
  match words with
  | [] => []
  | word :: rest =>
      UniqueWord i word ::
      (if 50 <=? i then [AndMore (total - 50)] else unique_listing (i + 1) total rest)
  end.

(** Lines 210-224 for one category. *)
Definition pattern_items (label : string) (words : list string) : list report_item :=
  match words with
  | [] => []
  | _ => [PatternCount label (Z.of_nat (List.length words));
          PatternExamples (firstn 5 words)]
  end.

Definition sum_values (d : dict) : Z :=
  fold_left (fun acc kv => acc + snd kv) d 0.

Definition print_oov_report (oov_words : list string) (word_frequencies : dict)
  : list report_item :=
  match oov_words, word_frequencies with
  | [], [] => [NoOOVWords]
  | _, _ =>
      [UniqueCount (Z.of_nat (List.length oov_words));
       TotalOccurrences (match word_frequencies with
                         | [] => None
                         | _ => Some (sum_values word_frequencies)
                         end)]
      ++ map (fun wc => FrequentWord (fst wc) (snd wc)) (sorted_freqs word_frequencies)
      ++ unique_listing 1 (Z.of_nat (List.length oov_words)) (sorted_str oov_words)
      ++ match oov_words with
         | [] => []
         | _ =>
             let patterns := analyze_oov_patterns oov_words in
             pattern_items "Numbers/Digits" (numbers patterns)
             ++ pattern_items "Contractions" (contractions patterns)
             ++ pattern_items "Hyphenated words" (hyphenated patterns)
             ++ pattern_items "Potential acronyms" (uppercase patterns)
         end
  end.

(** *** [main] *)

Definition mem (x : string) (xs : list string) : bool := existsb (String.eqb x) xs.

Fixpoint no_repeat (xs : list string) : bool :=
  match xs with
  | [] => true
  | x :: rest => negb (mem x rest) && no_repeat rest
  end.

(** [list(set(words))] holds the words of [words], each once, in the
    order in which the set is iterated.  That order follows the hashes of
    the strings, which CPython salts anew in every process, so the
    inputs do not fix it: [listing] is the order one run met. *)
Definition is_listing_of_set (words listing : list string) : bool :=
  no_repeat listing
  && forallb (fun w => mem w listing) words
  && forallb (fun w => mem w words) listing.

(** The files a run reads: the two files of the corpus directory, and the
    validation log when one is named on the command line (the inner
    [None] is a log that does not exist). *)
Record inputs : Type := mk_inputs {
  oovs_found : option (list string);
  utterance_oovs : option (list string);
  validation_log : option (option string)
}.

(** [main] (lines 260-276).  [set_order] is the iteration order the run
    met when it removed the duplicates; [None] when [set_order] is no
    listing of that set, which no run produces. *)
Definition main (inp : inputs) (set_order : list string) : option (list report_item) :=
  let '(oov_words, word_frequencies) :=
    read_oov_files (oovs_found inp) (utterance_oovs inp) in
  let notice :=
    match oov_words, word_frequencies with
    | [], [] => [NoOOVFiles]
    | _, _ => []
    end in
  match validation_log inp with
  | Some log_file =>
      match extract_oov_words_from_log log_file with
      | [] => Some (notice ++ print_oov_report oov_words word_frequencies)%list
      | log_oovs =>
          if is_listing_of_set (oov_words ++ log_oovs) set_order
          then Some (notice ++ print_oov_report set_order word_frequencies)%list
          else None
      end
  | None => Some (notice ++ print_oov_report oov_words word_frequencies)%list
  end.

(** *** Words of the specification *)

(** The seven categories, and the list of [analyze_oov_patterns] that
    holds the words of each. *)
Inductive category : Type :=
| Numbers
| Hyphenated
| Contractions
| Uppercase
| SpecialChars
| Short
| Long.

Definition bucket (c : category) (p : pattern_lists) : list string :=
  match c with
  | Numbers => numbers p
  | Hyphenated => hyphenated p
  | Contractions => contractions p
  | Uppercase => uppercase p
  | SpecialChars => special_chars p
  | Short => short p
  | Long => long p
  end.

(** [classify word c]: the word carries the tag [c], that is, the
    analysis of that one word puts it in the list of [c]. *)
Definition classify (word : string) (c : category) : bool :=
  match bucket c (analyze_oov_patterns [word]) with
  | [] => false
  | _ => true
  end.

(** The rule of each category on single characters and lengths. *)
Definition rule (c : category) (word : string) : bool :=
  match c with
  | Numbers => Py.str_exists Py.isdigit word
  | Hyphenated => Py.has_char "-" word
  | Contractions => Py.has_char "'" word
  | Uppercase =>
      negb (Py.str_exists Py.islower_char word)
      && Py.str_exists Py.isupper_char word
      && (1 <? Py.len word)
  | SpecialChars =>
      Py.str_exists
        (fun ch => negb (Py.isalnum ch) && negb (ch =? "-")%char && negb (ch =? "'")%char)
        word
  | Short => Py.len word <=? 2
  | Long => 15 <=? Py.len word
  end.

(** The rule for [uppercase] as the specification words it: every
    character is an upper-case one, and there is more than one. *)
Definition every_char_uppercase (word : string) : bool :=
  Py.str_forall Py.isupper_char word && (1 <? Py.len word).

(** The text after the first [c] of [s]. *)
Fixpoint after_first (c : ascii) (s : string) : string :=
  match s with
  | EmptyString => EmptyString
  | String a s' => if (a =? c)%char then s' else after_first c s'
  end.

(** The words of the payload of a line of the per-utterance file. *)
Definition payload_words (line : string) : list string :=
  Py.split_ws (Py.strip (after_first ":" line)).

(** How often [word] stands in the payload of [line]. *)
Definition occurrences (word line : string) : Z :=
  if Py.contains ":" line
  then Z.of_nat (count_occ string_dec (payload_words line) word)
  else 0.

(** How often [word] stands in the payloads of [lines] together. *)
Definition total_occurrences (word : string) (lines : list string) : Z :=
  fold_right (fun line acc => occurrences word line + acc) 0 lines.

Definition has_count (n : Z) (item : string * Z) : bool := snd item =? n.

(** The keys of a dictionary in the order of their insertion. *)
Definition keys (d : dict) : list string := map fst d.

(** The words a run takes from the validation log: none when no log is
    named. *)
Definition log_oovs (inp : inputs) : list string :=
  match validation_log inp with
  | Some log_file => extract_oov_words_from_log log_file
  | None => []
  end.

(** A report with the example words of the pattern summary left blank. *)
Definition blank_examples (item : report_item) : report_item :=
  match item with
  | PatternExamples _ => PatternExamples []
  | other => other
  end.

End OOV.

(** ** [analyze_oov_patterns] over any repertoire of characters *)

(** The strings of [Py] hold the characters U+0000 to U+00FF.  The
    classifier asks a character only whether it is a digit, alphanumeric,
    upper-case, lower-case or title-case, and whether it is the hyphen or
    the apostrophe.  Here it is embedded once more with the characters and
    these tests left open, so that what is proved of it holds for the
    whole of Unicode, where there are title-case characters such as
    U+01C5; no character up to U+00FF is one. *)
Module Repertoire.

Record repertoire : Type := mk_repertoire {
  char : Type;
  (** [c == d]. *)
  char_eqb : char -> char -> bool;
  (** The characters [-] and [']. *)
  hyphen : char;
  apostrophe : char;
  (** [c.isdigit()] and [c.isalnum()]. *)
  isdigit : char -> bool;
  isalnum : char -> bool;
  (** The upper-case, lower-case and title-case characters. *)
  isupper_char : char -> bool;
  islower_char : char -> bool;
  istitle_char : char -> bool
}.

Section Classifier.

Variable R : repertoire.

(** A Python string over the repertoire. *)
Definition str : Type := list (char R).

(** [len(word)]. *)
Definition len (word : str) : Z := Z.of_nat (List.length word).

(** [c in word] for a single character. *)
Definition has_char (c : char R) (word : str) : bool :=
  existsb (char_eqb R c) word.

(** [word.isupper()]: a word of one character is upper-case when the
    character is; any other word when it has no lower-case and no
    title-case character and at least one upper-case one. *)
Definition isupper (word : str) : bool :=
  match word with
  | [ch] => isupper_char R ch
  | _ =>
      negb (existsb (fun ch => islower_char R ch || istitle_char R ch) word)
      && existsb (isupper_char R) word
  end.

Record pattern_lists : Type := mk_patterns {
  numbers : list str;
  hyphenated : list str;
  contractions : list str;
  uppercase : list str;
  special_chars : list str;
  short : list str;
  long : list str
}.

Definition append_if (b : bool) (xs : list str) (word : str) : list str :=
  if b then (xs ++ [word])%list else xs.

Definition is_special_char (c : char R) : bool :=
  negb (isalnum R c)
  && negb (char_eqb R c (hyphen R) || char_eqb R c (apostrophe R)).

(** Lines 123-149 for one word. *)
Definition classify_word (p : pattern_lists) (word : str) : pattern_lists :=
  mk_patterns
    (append_if (existsb (isdigit R) word) (numbers p) word)
    (append_if (has_char (hyphen R) word) (hyphenated p) word)
    (append_if (has_char (apostrophe R) word) (contractions p) word)
    (append_if (isupper word && (1 <? len word)) (uppercase p) word)
    (append_if (existsb is_special_char word) (special_chars p) word)
    (append_if (len word <=? 2) (short p) word)
    (append_if (15 <=? len word) (long p) word).

Definition analyze_oov_patterns (oov_words : list str) : pattern_lists :=
  fold_left classify_word oov_words (mk_patterns [] [] [] [] [] [] []).

(** *** Words of the specification *)

Definition bucket (c : OOV.category) (p : pattern_lists) : list str :=
  match c with
  | OOV.Numbers => numbers p
  | OOV.Hyphenated => hyphenated p
  | OOV.Contractions => contractions p
  | OOV.Uppercase => uppercase p
  | OOV.SpecialChars => special_chars p
  | OOV.Short => short p
  | OOV.Long => long p
  end.

(** [classify word c]: the word carries the tag [c], that is, the
    analysis of that one word puts it in the list of [c]. *)
Definition classify (word : str) (c : OOV.category) : bool :=
  match bucket c (analyze_oov_patterns [word]) with
  | [] => false
  | _ => true
  end.

(** The rule of each category on single characters and lengths. *)
Definition rule (c : OOV.category) (word : str) : bool :=
  match c with
  | OOV.Numbers => existsb (isdigit R) word
  | OOV.Hyphenated => existsb (char_eqb R (hyphen R)) word
  | OOV.Contractions => existsb (char_eqb R (apostrophe R)) word
  | OOV.Uppercase =>
      negb (existsb (islower_char R) word)
      && negb (existsb (istitle_char R) word)
      && existsb (isupper_char R) word
      && (1 <? len word)
  | OOV.SpecialChars =>
      existsb
        (fun ch => negb (isalnum R ch)
                   && negb (char_eqb R ch (hyphen R))
                   && negb (char_eqb R ch (apostrophe R)))
        word
  | OOV.Short => len word <=? 2
  | OOV.Long => 15 <=? len word
  end.

(** No upper-case character is lower-case or title-case as well. *)
Definition cases_apart : Prop :=
  forall ch, isupper_char R ch = true ->
             islower_char R ch = false /\ istitle_char R ch = false.

End Classifier.

(** The characters of [Py], none of which is title-case. *)
Definition latin1 : repertoire :=
  mk_repertoire ascii Ascii.eqb "-"%char "'"%char
                Py.isdigit Py.isalnum Py.isupper_char Py.islower_char
                (fun _ => false).

End Repertoire.

(** ** [analyze_directory] and [print_summary] of [tools/analyze_textgrids.py] *)

Module Summary.

(** [x / n] for a float and an integer: the integer is converted first,
    which raises [OverflowError] when it is too large for a float, and a
    zero divisor raises [ZeroDivisionError]. *)
Definition float_div_int (x : PyFloat.float) (n : Z) : PyFloat.result PyFloat.float :=
  match PyFloat.of_int n with
  | S754_infinity _ => PyFloat.Raise PyFloat.OverflowError
  | y =>
      if n =? 0 then PyFloat.Raise PyFloat.ZeroDivisionError
      else PyFloat.Ok (SFdiv PyFloat.prec PyFloat.emax x y)
  end.

(** [sum(f(s) for s in all_stats)] on integers. *)
Definition sum_of (f : TextGrid.stats -> Z) (all_stats : list TextGrid.stats) : Z :=
  fold_left (fun acc s => acc + f s) all_stats 0.

(** What [print_summary] prints from its argument, one item per [print]
    whose text depends on it. *)
Inductive summary_item : Type :=
| NoTextGrids
| TotalFiles (n : Z)
| TotalDuration (seconds minutes : PyFloat.float)
| AverageDuration (seconds : PyFloat.float)
| TotalIntervals (n : Z)
| TotalWords (n : Z)
| TotalPhones (n : Z)
| EmptyIntervals (n : Z)
| FilesWithErrors (n : Z)
| FileRow (filename : string) (duration : PyFloat.float) (words phones : Z).

Definition file_row (s : TextGrid.stats) : summary_item :=
  FileRow (TextGrid.filename s) (TextGrid.total_duration s)
          (TextGrid.word_count s) (TextGrid.phone_count s).

Section Analysis.

Variable float_of_str : string -> option PyFloat.float.

(** The file system as [read_textgrid] meets it: the text of the file at
    a path, or [None] when it cannot be opened or read. *)
Variable read : string -> option string.

(** [analyze_directory] (lines 102-117).  [textgrid_files] is the list
    that [glob.glob] returned for the directory. *)
Definition analyze_directory (textgrid_files : list string) : list TextGrid.stats :=
  match textgrid_files with
  | [] => []
  | _ =>
      map (fun filepath => TextGrid.read_textgrid float_of_str filepath (read filepath))
          (OOV.sorted_str textgrid_files)
  end.

End Analysis.

Section Printing.

(** [sum] over the durations is the runtime's sum of floats. *)
Variable float_sum : list PyFloat.float -> PyFloat.float.

(** [print_summary] (lines 127-169). *)
Definition print_summary (all_stats : list TextGrid.stats)
  : PyFloat.result (list summary_item) :=
  match all_stats with
  | [] => PyFloat.Ok [NoTextGrids]
  | _ =>
      let total_files := Z.of_nat (List.length all_stats) in
      let total_duration := float_sum (map TextGrid.total_duration all_stats) in
      let total_intervals := sum_of TextGrid.interval_count all_stats in
      let total_words := sum_of TextGrid.word_count all_stats in
      let total_phones := sum_of TextGrid.phone_count all_stats in
      let total_empty := sum_of TextGrid.empty_intervals all_stats in
      let files_with_errors :=
        sum_of (fun _ => 1) (filter TextGrid.has_errors all_stats) in
      match float_div_int total_duration 60 with
      | PyFloat.Raise e => PyFloat.Raise e
      | PyFloat.Ok minutes =>
          match float_div_int total_duration total_files with
          | PyFloat.Raise e => PyFloat.Raise e
          | PyFloat.Ok average =>
              PyFloat.Ok
                ([TotalFiles total_files;
                  TotalDuration total_duration minutes;
                  AverageDuration average;
                  TotalIntervals total_intervals;
                  TotalWords total_words;
                  TotalPhones total_phones;
                  EmptyIntervals total_empty]
                 ++ (if 0 <? files_with_errors
                     then [FilesWithErrors files_with_errors] else [])
                 ++ map file_row all_stats)%list
          end
      end
  end.

End Printing.

End Summary.

(** ** [print_metrics_report] of [tools/metrics.py] *)

Module Report.

(** The validation log as the report meets it: not there, there but not
    readable, or there with its text. *)
Inductive log_state : Type :=
| LogMissing
| LogUnreadable
| LogText (content : string).

(** [os.path.exists(validate_log)]. *)
Definition log_exists (log : log_state) : bool :=
  match log with
  | LogMissing => false
  | _ => true
  end.

(** What [parse_validation_log] gets to read. *)
Definition log_text (log : log_state) : option string :=
  match log with
  | LogText content => Some content
  | _ => None
  end.

(** [x >= n] for a float and an integer that a float holds exactly. *)
Definition float_ge_int (x : PyFloat.float) (n : Z) : bool :=
  match SFcompare x (PyFloat.of_int n) with
  | Some Gt | Some Eq => true
  | _ => false
  end.

(** What the report prints from its data, one item per [print] whose text
    depends on them. *)
Inductive metrics_item : Type :=
| WavFiles (n : Z)
| LabFiles (n : Z)
| CountMismatch
| TextGridFiles (n : Z)
| Coverage (percent : PyFloat.float)
| LogPath (path : string)
| OOVOccurrences (n : Z)
| UniqueOOVWords (n : Z)
| OOVWord (word : string)
| ErrorsFound (n : Z)
| LogNotFound (path : string)
| AlignmentCompleted (n : Z)
| AllAligned
| MostAligned
| SomeNotAligned
| NoTextGridGenerated.

(** Lines 183-197: the validation results. *)
Definition validation_items (validate_log : string) (log : log_state)
           (val_stats : Metrics.validation_stats) : list metrics_item :=
  if log_exists log then
    ([LogPath validate_log; OOVOccurrences (Metrics.oov_count val_stats)]
     ++ match Metrics.oov_words val_stats with
        | [] => []
        | words =>
            UniqueOOVWords (Z.of_nat (List.length words))
            :: (if Z.of_nat (List.length words) <=? 20
                then map OOVWord (OOV.sorted_str words) else [])
        end
     ++ (if 0 <? Metrics.error_count val_stats
         then [ErrorsFound (Metrics.error_count val_stats)] else []))%list
  else [LogNotFound validate_log].

(** Lines 205-216: the summary. *)
Definition summary_items (textgrid_count : Z) (coverage : PyFloat.float)
  : list metrics_item :=
  if 0 <? textgrid_count then
    [AlignmentCompleted textgrid_count;
     if float_ge_int coverage 100 then AllAligned
     else if float_ge_int coverage 90 then MostAligned
     else SomeNotAligned]
  else [NoTextGridGenerated].

(** [print_metrics_report].  [wav_count], [lab_count] and
    [textgrid_count] are what [count_files_by_extension] and
    [get_textgrid_stats] return for the two directories.  An exception
    of [calculate_coverage] is not caught and ends the report. *)
Definition print_metrics_report (wav_count lab_count textgrid_count : Z)
           (validate_log : string) (log : log_state)
  : PyFloat.result (list metrics_item) :=
  match Metrics.calculate_coverage wav_count textgrid_count with
  | PyFloat.Raise e => PyFloat.Raise e
  | PyFloat.Ok coverage =>
      let val_stats := Metrics.parse_validation_log (log_text log) in
      PyFloat.Ok
        ([WavFiles wav_count; LabFiles lab_count]
         ++ (if wav_count =? lab_count then [] else [CountMismatch])
         ++ [TextGridFiles textgrid_count; Coverage coverage]
         ++ validation_items validate_log log val_stats
         ++ summary_items textgrid_count coverage)%list
  end.

End Report.

(** ** Inputs of the examples *)

Module Examples.

Definition lf : string := String "010" EmptyString.

Definition unlines (lines : list string) : string := String.concat lf lines.

(** An annotation file with a words tier holding three intervals, the
    first of them empty, and a phones tier holding three. *)
Definition two_tier_lines : list string :=
  [ "File type = " ++ TextGrid.quoted "ooTextFile";
    "Object class = " ++ TextGrid.quoted "TextGrid";
    "";
    "xmin = 0";
    "xmax = 1.5";
    "tiers? <exists>";
    "size = 2";
    "item []:";
    "    item [1]:";
    "        class = " ++ TextGrid.quoted "IntervalTier";
    "        name = " ++ TextGrid.quoted "words";
    "        xmin = 0";
    "        xmax = 1.5";
    "        intervals: size = 3";
    "        intervals [1]:";
    "            xmin = 0";
    "            xmax = 0.5";
    "            text = " ++ TextGrid.quoted "";
    "        intervals [2]:";
    "            xmin = 0.5";
    "            xmax = 1.0";
    "            text = " ++ TextGrid.quoted "cat";
    "        intervals [3]:";
    "            xmin = 1.0";
    "            xmax = 1.5";
    "            text = " ++ TextGrid.quoted "dog";
    "    item [2]:";
    "        class = " ++ TextGrid.quoted "IntervalTier";
    "        name = " ++ TextGrid.quoted "phones";
    "        xmin = 0";
    "        xmax = 1.5";
    "        intervals: size = 3";
    "        intervals [1]:";
    "            xmin = 0";
    "            xmax = 0.5";
    "            text = " ++ TextGrid.quoted "k";
    "        intervals [2]:";
    "            xmin = 0.5";
    "            xmax = 1.0";
    "            text = " ++ TextGrid.quoted "ae";
    "        intervals [3]:";
    "            xmin = 1.0";
    "            xmax = 1.5";
    "            text = " ++ TextGrid.quoted "t" ].

Definition two_tier_content : string := unlines two_tier_lines.

(** An annotation file whose first duration line does not hold a number
    and whose second does. *)
Definition bad_then_good_xmax : string := unlines ["xmax = abc"; "xmax = 2.5"].

(** The float [2.5]. *)
Definition float_2_5 : PyFloat.float := PyFloat.decimal false 25 (-1).

(** The frequency map with cat, dog and bird inserted in that order. *)
Definition cat_dog_bird : OOV.dict :=
  OOV.dict_set (OOV.dict_set (OOV.dict_set [] "cat" 3) "dog" 3) "bird" 1.

(** A run that reads no corpus file and a log naming two words with a
    digit. *)
Definition two_log_words : OOV.inputs :=
  OOV.mk_inputs None None (Some (Some (unlines ["OOV: a1"; "OOV: b2"]))).

(** The reports of that run when the set is iterated as a1, b2 and as
    b2, a1. *)
Definition report_a1_b2 : list OOV.report_item :=
  [OOV.NoOOVFiles; OOV.UniqueCount 2; OOV.TotalOccurrences None;
   OOV.UniqueWord 1 "a1"; OOV.UniqueWord 2 "b2";
   OOV.PatternCount "Numbers/Digits" 2; OOV.PatternExamples ["a1"; "b2"]].

Definition report_b2_a1 : list OOV.report_item :=
  [OOV.NoOOVFiles; OOV.UniqueCount 2; OOV.TotalOccurrences None;
   OOV.UniqueWord 1 "a1"; OOV.UniqueWord 2 "b2";
   OOV.PatternCount "Numbers/Digits" 2; OOV.PatternExamples ["b2"; "a1"]].

End Examples.

(** ** Predicates of the proofs *)

Open Scope list_scope.

(** The counters of [st'] are those of [st] plus what [lines], of kinds
    [ks], add; the other fields are as in [st]. *)
Definition counts_from (st st' : TextGrid.stats) (lines : list string)
           (ks : list TextGrid.line_kind) : Prop :=
  TextGrid.interval_count st' =
    TextGrid.interval_count st
    + Z.of_nat (List.length (filter TextGrid.is_interval_line lines)) /\
  TextGrid.empty_intervals st' =
    TextGrid.empty_intervals st + TextGrid.count_kind TextGrid.EmptyInterval ks /\
  TextGrid.word_count st' =
    TextGrid.word_count st + TextGrid.count_kind TextGrid.WordInterval ks /\
  TextGrid.phone_count st' =
    TextGrid.phone_count st + TextGrid.count_kind TextGrid.PhoneInterval ks /\
  TextGrid.total_duration st' = TextGrid.total_duration st /\
  TextGrid.has_errors st' = TextGrid.has_errors st /\
  TextGrid.filename st' = TextGrid.filename st.

(** The invariant of the counters. *)
Definition within_counts (st : TextGrid.stats) : Prop :=
  0 <= TextGrid.interval_count st /\ 0 <= TextGrid.word_count st
  /\ 0 <= TextGrid.phone_count st /\ 0 <= TextGrid.empty_intervals st
  /\ TextGrid.word_count st + TextGrid.phone_count st + TextGrid.empty_intervals st
     <= TextGrid.interval_count st.

(** What one line adds to the error count. *)
Definition error_step (line : string) : Z :=
  if Metrics.counts_as_error line then 1 else 0.

(** [mrs'] is [mrs] shifted right by [n] binary digits. *)
Definition shifted (n : Z) (mrs mrs' : shr_record) : Prop :=
  0 <= shr_m mrs ->
  0 <= shr_m mrs' /\ Zdigits2 (shr_m mrs') = Z.max 0 (Zdigits2 (shr_m mrs) - n).

(** The order of the ranking. *)
Definition count_ge (a b : string * Z) : Prop := snd b <= snd a.

(** A word without white space, as [split] yields them. *)
Definition clean (w : string) : Prop :=
  Py.is_empty w = false /\ Py.str_exists Py.isspace w = false.

(** A word as the pattern group yields them. *)
Definition word_like (w : string) : Prop :=
  Py.is_empty w = false /\ Py.str_forall Py.isword w = true.

(** [mrs'] holds the digits of [mrs] above the lowest [n], and its round
    digit is the highest of those [n]. *)
Definition halved (n : Z) (mrs mrs' : shr_record) : Prop :=
  0 <= shr_m mrs ->
  shr_m mrs' = shr_m mrs / 2 ^ n /\ shr_r mrs' = Z.odd (shr_m mrs / 2 ^ (n - 1)).

(** The least quotient that is rounded beyond the largest float: half-way
    between the largest float, 2^1024 - 2^971, and 2^1024. *)
Definition overflow_quotient : Z := 2 ^ 1024 - 2 ^ 970.

(** A decimal digit, [0] to [9]. *)
Definition is_decimal_digit (c : ascii) : bool := Py.in_range 48 57 c.

(** The rule for [numbers] as the specification words it. *)
Definition has_decimal_digit (word : string) : bool :=
  Py.str_exists is_decimal_digit word.

(** The word [m] followed by the superscript two, U+00B2. *)
Definition square_metre : string :=
  String "m" (String (ascii_of_N 178) EmptyString).

(** The first character of a text is a word character. *)
Definition starts_with_word_char (s : string) : bool :=
  match s with
  | String c _ => Py.isword c
  | EmptyString => false
  end.

(** [word] stands in [content] after a colon and nothing but white space,
    and no word character follows it. *)
Definition follows_a_colon (word content : string) : Prop :=
  exists before spaces after : string,
    content = (before ++ ":" ++ spaces ++ word ++ after)%string
    /\ Py.str_forall Py.isspace spaces = true
    /\ starts_with_word_char after = false.

(** ** Words for the further properties *)

Module Words.

(** The lines of a log that is there, none for one that is not. *)
Definition log_lines (file : option string) : list string :=
  match file with
  | Some content => Py.splitlines content
  | None => []
  end.

(** A line that names the letters o, o, v in a row, in any case. *)
Definition mentions_oov (line : string) : bool :=
  Py.contains "oov" (Py.lower line).

(** A line that holds the phrase of a missing dictionary entry. *)
Definition reports_missing (line : string) : bool :=
  Py.contains "not found in dictionary" (Py.lower line).

(** [word] stands directly before a [not], in any case, among the
    white-space-separated parts of [line]. *)
Definition stands_before_not (word line : string) : Prop :=
  exists (before after : list string) (negation : string),
    Py.split_ws line = (before ++ word :: negation :: after)%list
    /\ Py.lower negation = "not".

(** A word that is not empty. *)
Definition nonempty (word : string) : bool := negb (Py.is_empty word).

(** The first, and the last, character of a text is white space. *)
Definition starts_with_space (s : string) : bool :=
  match s with
  | String c _ => Py.isspace c
  | EmptyString => false
  end.

Fixpoint ends_with_space (s : string) : bool :=
  match s with
  | EmptyString => false
  | String c EmptyString => Py.isspace c
  | String _ s' => ends_with_space s'
  end.

(** The number of words in the payload of a line, none for a line without
    a colon, and their number in all lines. *)
Definition payload_size (line : string) : Z :=
  if Py.contains ":" line
  then Z.of_nat (List.length (OOV.payload_words line))
  else 0.

Definition total_payload (lines : list string) : Z :=
  fold_right (fun line acc => payload_size line + acc) 0 lines.

(** The words, the numbers and the remainder counts that a report lists
    in its alphabetical section. *)
Definition listed_word (item : OOV.report_item) : list string :=
  match item with
  | OOV.UniqueWord _ word => [word]
  | _ => []
  end.

Definition listed_number (item : OOV.report_item) : list Z :=
  match item with
  | OOV.UniqueWord i _ => [i]
  | _ => []
  end.

Definition remainder (item : OOV.report_item) : list Z :=
  match item with
  | OOV.AndMore n => [n]
  | _ => []
  end.

(** The categories that the report prints, with their headings. *)
Definition printed_categories : list (OOV.category * string) :=
  [(OOV.Numbers, "Numbers/Digits"); (OOV.Contractions, "Contractions");
   (OOV.Hyphenated, "Hyphenated words"); (OOV.Uppercase, "Potential acronyms")].

(** The rows of a summary. *)
Definition row_of (item : Summary.summary_item) : list Summary.summary_item :=
  match item with
  | Summary.FileRow _ _ _ _ => [item]
  | _ => []
  end.

(** The items with which a metrics report judges the run. *)
Definition is_verdict (item : Report.metrics_item) : bool :=
  match item with
  | Report.AllAligned | Report.MostAligned | Report.SomeNotAligned
  | Report.NoTextGridGenerated => true
  | _ => false
  end.

Definition is_mismatch (item : Report.metrics_item) : bool :=
  match item with
  | Report.CountMismatch => true
  | _ => false
  end.

(** A path whose file cannot be read. *)
Definition unreadable (read : string -> option string) (filepath : string) : bool :=
  match read filepath with
  | Some _ => false
  | None => true
  end.

(** The order of [sorted] on strings. *)
Definition str_le (a b : string) : Prop := String.leb a b = true.

(** The invariant of the frequency map: every key once, every value at
    least 1, every key a word without white space. *)
Definition dict_good (d : OOV.dict) : Prop :=
  NoDup (OOV.keys d)
  /\ forall k v, In (k, v) d -> 1 <= v /\ clean k.

End Words.

(** The part that stands before a part, if there is one. *)
Definition previous_part (previous : option string) : list string :=
  match previous with
  | Some p => [p]
  | None => []
  end.

(** * Theorems *)

(** * Facts about the string operations *)

Section StringFacts.

Lemma startswith_exists (f : ascii -> bool) (p s : string) :
  Py.startswith p s = true -> Py.str_exists f p = true -> Py.str_exists f s = true.
Proof.
  revert s; induction p as [|a p IH]; intros s Hs Hp; [discriminate|].
  destruct s as [|b s]; [discriminate|].
  simpl in *. apply andb_true_iff in Hs as [Hab Hs].
  apply Ascii.eqb_eq in Hab; subst b.
  destruct (f a); [reflexivity|]. simpl in *. now apply IH.
Qed.

Lemma contains_exists (f : ascii -> bool) (p s : string) :
  Py.contains p s = true -> Py.str_exists f p = true -> Py.str_exists f s = true.
Proof.
  induction s as [|b s IH]; intros Hc Hp.
  - simpl in Hc. rewrite orb_false_r in Hc. now apply startswith_exists with (p := p).
  - simpl in Hc. apply orb_true_iff in Hc as [Hc|Hc].
    + now apply startswith_exists with (p := p).
    + simpl. rewrite (IH Hc Hp). apply orb_true_r.
Qed.

Lemma split1_at_first (c : ascii) (s : string) :
  Py.str_exists (fun a => (a =? c)%char) s = true ->
  exists before, Py.split1 c s = [before; OOV.after_first c s].
Proof.
  induction s as [|a s IH]; intros H; [discriminate|].
  simpl in *. destruct (a =? c)%char.
  - now exists EmptyString.
  - destruct (IH H) as [before ->]. now exists (String a before).
Qed.

End StringFacts.

(** * The annotation parser *)

Section TextGridFacts.

Lemma interval_text_defined (line : string) :
  Py.contains "text =" line = true ->
  exists text, TextGrid.interval_text line = Some text.
Proof.
  intros H. unfold TextGrid.interval_text.
  destruct (split1_at_first "=" line) as [before ->].
  - now apply contains_exists with (p := "text =").
  - simpl. eauto.
Qed.

Lemma tier_in_force_snoc (seen : list string) (raw : string) :
  TextGrid.tier_in_force (seen ++ [raw]) =
  TextGrid.detect_tier (Py.strip raw) (TextGrid.tier_in_force seen).
Proof.
  unfold TextGrid.tier_in_force, TextGrid.detect_tier.
  rewrite rev_app_distr. simpl rev. simpl app. cbn [find].
  unfold TextGrid.is_tier_declaration at 1.
  now destruct (Py.contains "name =" (Py.strip raw)).
Qed.

Lemma count_interval_kind (before : list string) (raw : string) (st : TextGrid.stats) :
  counts_from st
    (TextGrid.count_interval (Py.strip raw) (TextGrid.tier_in_force (before ++ [raw])) st)
    [raw] [TextGrid.kind_of before raw].
Proof.
  unfold counts_from, TextGrid.count_interval, TextGrid.kind_of,
    TextGrid.is_interval_line, TextGrid.has_empty_text, TextGrid.count_kind.
  cbn [filter]. unfold TextGrid.is_interval_line.
  destruct (Py.contains "text =" (Py.strip raw)) eqn:Htext.
  - destruct (interval_text_defined _ Htext) as [text ->].
    destruct (Py.is_empty text);
      [|destruct (TextGrid.tier_in_force (before ++ [raw]))];
      cbn; repeat split; lia.
  - cbn. repeat split; lia.
Qed.

Lemma scan_line_step (before : list string) (raw : string) (st : TextGrid.stats) :
  TextGrid.scan_line (TextGrid.tier_in_force before, st) raw =
  (TextGrid.tier_in_force (before ++ [raw]),
   TextGrid.count_interval (Py.strip raw) (TextGrid.tier_in_force (before ++ [raw])) st).
Proof.
  unfold TextGrid.scan_line. cbn [fst snd]. now rewrite tier_in_force_snoc.
Qed.

Lemma counts_from_trans (st1 st2 st3 : TextGrid.stats) (raw : string)
      (rest : list string) (k : TextGrid.line_kind) (ks : list TextGrid.line_kind) :
  counts_from st1 st2 [raw] [k] -> counts_from st2 st3 rest ks ->
  counts_from st1 st3 (raw :: rest) (k :: ks).
Proof.
  unfold counts_from, TextGrid.count_kind. cbn [filter].
  intros H1 H2.
  destruct (TextGrid.is_interval_line raw), k;
    cbn [TextGrid.kind_eqb List.length] in *;
    repeat split; try lia; intuition congruence.
Qed.

Lemma scan_counts (rest before : list string) (st : TextGrid.stats) :
  counts_from st
    (snd (fold_left TextGrid.scan_line rest (TextGrid.tier_in_force before, st)))
    rest (TextGrid.kinds before rest).
Proof.
  revert before st; induction rest as [|raw rest IH]; intros before st.
  - unfold counts_from, TextGrid.count_kind. cbn. repeat split; lia.
  - cbn [fold_left TextGrid.kinds]. rewrite scan_line_step.
    eapply counts_from_trans; [apply count_interval_kind | apply IH].
Qed.

End TextGridFacts.

(** C1.  The parser counts every line that holds [text =] as one interval;
    such a line adds one to the empty intervals when its content, stripped
    of quotes and white space, is empty, one to the words when the content
    is not empty and the tier in force is the words tier, and one to the
    phones when it is the phones tier.  The tier in force is the one named
    by the last declaration line up to and including the line itself: a
    declaration sets it and every other line leaves it as it was.  On the
    file with a words tier of three intervals, the first one empty, and a
    phones tier of three, the counts are 6 intervals, 2 words, 3 phones and
    1 empty interval. *)
Theorem read_textgrid_counts_intervals_by_tier :
  forall (float_of_str : string -> option PyFloat.float) (filepath content : string),
    TextGrid.interval_count (TextGrid.read_textgrid float_of_str filepath (Some content)) =
      Z.of_nat (List.length (filter TextGrid.is_interval_line (Py.splitlines content)))
    /\ TextGrid.empty_intervals (TextGrid.read_textgrid float_of_str filepath (Some content)) =
      TextGrid.count_kind TextGrid.EmptyInterval (TextGrid.kinds [] (Py.splitlines content))
    /\ TextGrid.word_count (TextGrid.read_textgrid float_of_str filepath (Some content)) =
      TextGrid.count_kind TextGrid.WordInterval (TextGrid.kinds [] (Py.splitlines content))
    /\ TextGrid.phone_count (TextGrid.read_textgrid float_of_str filepath (Some content)) =
      TextGrid.count_kind TextGrid.PhoneInterval (TextGrid.kinds [] (Py.splitlines content))
    /\ TextGrid.tier_in_force [] = TextGrid.NoTier
    /\ (forall seen raw, TextGrid.is_tier_declaration raw = true ->
          TextGrid.tier_in_force (seen ++ [raw]) = TextGrid.named_tier (Py.strip raw))
    /\ (forall seen raw, TextGrid.is_tier_declaration raw = false ->
          TextGrid.tier_in_force (seen ++ [raw]) = TextGrid.tier_in_force seen)
    /\ TextGrid.interval_count
         (TextGrid.read_textgrid float_of_str filepath (Some Examples.two_tier_content)) = 6
    /\ TextGrid.word_count
         (TextGrid.read_textgrid float_of_str filepath (Some Examples.two_tier_content)) = 2
    /\ TextGrid.phone_count
         (TextGrid.read_textgrid float_of_str filepath (Some Examples.two_tier_content)) = 3
    /\ TextGrid.empty_intervals
         (TextGrid.read_textgrid float_of_str filepath (Some Examples.two_tier_content)) = 1.
Proof.
  intros float_of_str filepath content.
  assert (Hgen : forall text,
    TextGrid.interval_count (TextGrid.read_textgrid float_of_str filepath (Some text)) =
      Z.of_nat (List.length (filter TextGrid.is_interval_line (Py.splitlines text)))
    /\ TextGrid.empty_intervals (TextGrid.read_textgrid float_of_str filepath (Some text)) =
      TextGrid.count_kind TextGrid.EmptyInterval (TextGrid.kinds [] (Py.splitlines text))
    /\ TextGrid.word_count (TextGrid.read_textgrid float_of_str filepath (Some text)) =
      TextGrid.count_kind TextGrid.WordInterval (TextGrid.kinds [] (Py.splitlines text))
    /\ TextGrid.phone_count (TextGrid.read_textgrid float_of_str filepath (Some text)) =
      TextGrid.count_kind TextGrid.PhoneInterval (TextGrid.kinds [] (Py.splitlines text))).
  { intros text. unfold TextGrid.read_textgrid, TextGrid.scan.
    change TextGrid.NoTier with (TextGrid.tier_in_force []).
    match goal with
    | |- context [fold_left _ ?ls (_, ?st0)] =>
        destruct (scan_counts ls [] st0) as (Hi & He & Hw & Hp & _)
    end.
    rewrite Hi, He, Hw, Hp. cbn. repeat split; lia. }
  destruct (Hgen content) as (Hi & He & Hw & Hp).
  destruct (Hgen Examples.two_tier_content) as (Xi & Xe & Xw & Xp).
  split; [exact Hi|]. split; [exact He|]. split; [exact Hw|]. split; [exact Hp|].
  split; [reflexivity|].
  split.
  { intros seen raw Hd. rewrite tier_in_force_snoc.
    unfold TextGrid.detect_tier. unfold TextGrid.is_tier_declaration in Hd. now rewrite Hd. }
  split.
  { intros seen raw Hd. rewrite tier_in_force_snoc.
    unfold TextGrid.detect_tier. unfold TextGrid.is_tier_declaration in Hd. now rewrite Hd. }
  rewrite Xi, Xw, Xp, Xe. vm_compute. auto.
Qed.

Lemma count_interval_within (line : string) (t : TextGrid.tier) (st : TextGrid.stats) :
  within_counts st -> within_counts (TextGrid.count_interval line t st).
Proof.
  unfold within_counts, TextGrid.count_interval. intros H.
  destruct (Py.contains "text =" line); [|exact H].
  destruct (TextGrid.interval_text line) as [text|]; [|exact H].
  destruct (Py.is_empty text); [|destruct t]; cbn; lia.
Qed.

Lemma scan_within (lines : list string) (acc : TextGrid.tier * TextGrid.stats) :
  within_counts (snd acc) ->
  within_counts (snd (fold_left TextGrid.scan_line lines acc)).
Proof.
  revert acc; induction lines as [|raw lines IH]; intros acc H; [exact H|].
  cbn [fold_left]. apply IH. unfold TextGrid.scan_line. cbn [snd].
  now apply count_interval_within.
Qed.

(** C9.  Whatever the file holds, and also when it cannot be read or the
    scan is ended after any number of lines and the record is flagged
    with [has_errors], the record that the parser returns has counters
    that are not negative, at most as many empty intervals as intervals,
    and at most as many words, phones and empty intervals together as
    intervals. *)
Theorem read_textgrid_counters_within_intervals :
  forall (float_of_str : string -> option PyFloat.float) (filepath : string)
         (file : option string),
    0 <= TextGrid.interval_count (TextGrid.read_textgrid float_of_str filepath file)
    /\ 0 <= TextGrid.word_count (TextGrid.read_textgrid float_of_str filepath file)
    /\ 0 <= TextGrid.phone_count (TextGrid.read_textgrid float_of_str filepath file)
    /\ 0 <= TextGrid.empty_intervals (TextGrid.read_textgrid float_of_str filepath file)
    /\ TextGrid.word_count (TextGrid.read_textgrid float_of_str filepath file)
       + TextGrid.phone_count (TextGrid.read_textgrid float_of_str filepath file)
       + TextGrid.empty_intervals (TextGrid.read_textgrid float_of_str filepath file)
       <= TextGrid.interval_count (TextGrid.read_textgrid float_of_str filepath file)
    /\ TextGrid.empty_intervals (TextGrid.read_textgrid float_of_str filepath file)
       <= TextGrid.interval_count (TextGrid.read_textgrid float_of_str filepath file)
    /\ TextGrid.has_errors (TextGrid.read_textgrid float_of_str filepath None) = true
    /\ (forall duration lines,
          TextGrid.has_errors (TextGrid.aborted_after filepath duration lines) = true
          /\ 0 <= TextGrid.word_count (TextGrid.aborted_after filepath duration lines)
          /\ 0 <= TextGrid.phone_count (TextGrid.aborted_after filepath duration lines)
          /\ 0 <= TextGrid.empty_intervals (TextGrid.aborted_after filepath duration lines)
          /\ TextGrid.word_count (TextGrid.aborted_after filepath duration lines)
             + TextGrid.phone_count (TextGrid.aborted_after filepath duration lines)
             + TextGrid.empty_intervals (TextGrid.aborted_after filepath duration lines)
             <= TextGrid.interval_count (TextGrid.aborted_after filepath duration lines)).
Proof.
  intros float_of_str filepath file.
  assert (A : forall duration lines,
             within_counts (TextGrid.aborted_after filepath duration lines)).
  { intros duration lines. unfold TextGrid.aborted_after, TextGrid.scan.
    assert (W : within_counts
                  (snd (fold_left TextGrid.scan_line lines
                          (TextGrid.NoTier,
                           TextGrid.set_total_duration duration
                             (TextGrid.initial_stats filepath))))).
    { apply scan_within. unfold within_counts. cbn. lia. }
    unfold within_counts in *. cbn. exact W. }
  assert (H : within_counts (TextGrid.read_textgrid float_of_str filepath file)).
  { destruct file as [content|].
    - unfold TextGrid.read_textgrid, TextGrid.scan. apply scan_within.
      unfold within_counts. cbn. lia.
    - unfold within_counts. cbn. lia. }
  unfold within_counts in H.
  split; [lia|]. split; [lia|]. split; [lia|]. split; [lia|].
  split; [lia|]. split; [lia|]. split; [reflexivity|].
  intros duration lines. specialize (A duration lines). unfold within_counts in A.
  split; [reflexivity|]. repeat split; lia.
Qed.

Lemma find_xmax_first_converted (float_of_str : string -> option PyFloat.float)
      (lines : list string) (d0 : PyFloat.float) :
  TextGrid.find_xmax float_of_str lines d0 =
  match TextGrid.first_converted float_of_str lines with
  | Some d => d
  | None => d0
  end.
Proof.
  induction lines as [|line lines IH]; [reflexivity|].
  cbn [TextGrid.find_xmax TextGrid.first_converted].
  unfold TextGrid.converted, TextGrid.is_xmax_line, TextGrid.xmax_field.
  destruct (Py.contains "xmax" line && Py.contains "=" line); [|exact IH].
  destruct (Py.index (Py.split "=" line) 1) as [field|]; [|exact IH].
  destruct (float_of_str (Py.strip field)); [reflexivity|exact IH].
Qed.

Lemma first_converted_none (float_of_str : string -> option PyFloat.float)
      (lines : list string) :
  (forall line, In line lines -> TextGrid.converted float_of_str line = None) ->
  TextGrid.first_converted float_of_str lines = None.
Proof.
  induction lines as [|line lines IH]; intros H; [reflexivity|].
  cbn. rewrite (H line (or_introl eq_refl)). apply IH.
  intros l Hl. apply H. now right.
Qed.

Lemma first_converted_app (float_of_str : string -> option PyFloat.float)
      (before after : list string) (line : string) (d : PyFloat.float) :
  (forall l, In l before -> TextGrid.converted float_of_str l = None) ->
  TextGrid.converted float_of_str line = Some d ->
  TextGrid.first_converted float_of_str (before ++ line :: after) = Some d.
Proof.
  induction before as [|b before IH]; intros Hb Hl.
  - cbn. now rewrite Hl.
  - cbn. rewrite (Hb b (or_introl eq_refl)). apply IH; [|exact Hl].
    intros l Hin. apply Hb. now right.
Qed.

Lemma read_textgrid_total_duration (float_of_str : string -> option PyFloat.float)
      (filepath content : string) :
  TextGrid.total_duration (TextGrid.read_textgrid float_of_str filepath (Some content)) =
  TextGrid.find_xmax float_of_str (Py.splitlines content) PyFloat.zero
  /\ TextGrid.has_errors (TextGrid.read_textgrid float_of_str filepath (Some content)) = false.
Proof.
  unfold TextGrid.read_textgrid, TextGrid.scan.
  change TextGrid.NoTier with (TextGrid.tier_in_force []).
  match goal with
  | |- context [fold_left _ ?ls (_, ?st0)] =>
      destruct (scan_counts ls [] st0) as (_ & _ & _ & _ & Hd & He & _)
  end.
  rewrite Hd, He. split; reflexivity.
Qed.

(** C3, as the code has it.  The scan for the duration never raises.  The
    duration is the value of the first line that holds [xmax] and [=] and
    whose field converts to a float: lines before it that do not convert
    are passed over, lines after it are not looked at, and when no line
    converts the duration stays at its default 0.0. *)
Theorem total_duration_is_first_converted_xmax :
  forall (float_of_str : string -> option PyFloat.float) (filepath content : string),
    TextGrid.has_errors (TextGrid.read_textgrid float_of_str filepath (Some content)) = false
    /\ TextGrid.total_duration (TextGrid.read_textgrid float_of_str filepath (Some content)) =
       match TextGrid.first_converted float_of_str (Py.splitlines content) with
       | Some d => d
       | None => PyFloat.zero
       end
    /\ ((forall line, In line (Py.splitlines content) ->
           TextGrid.converted float_of_str line = None) ->
        TextGrid.total_duration (TextGrid.read_textgrid float_of_str filepath (Some content))
        = PyFloat.zero)
    /\ (forall before line after d,
          Py.splitlines content = before ++ line :: after ->
          (forall l, In l before -> TextGrid.converted float_of_str l = None) ->
          TextGrid.converted float_of_str line = Some d ->
          TextGrid.total_duration (TextGrid.read_textgrid float_of_str filepath (Some content))
          = d).
Proof.
  intros float_of_str filepath content.
  destruct (read_textgrid_total_duration float_of_str filepath content) as [Hd He].
  rewrite Hd, find_xmax_first_converted.
  split; [exact He|]. split; [reflexivity|]. split.
  - intros Hnone. now rewrite first_converted_none.
  - intros before line after d Hsplit Hbefore Hline.
    now rewrite Hsplit, (first_converted_app _ _ _ _ _ Hbefore Hline).
Qed.

(** C3, as the specification has it, fails: in a file whose first [xmax]
    line holds no number and whose second holds 2.5, the duration is 2.5,
    where the first occurrence alone would leave 0.0. *)
Lemma malformed_first_xmax_does_not_leave_default :
  TextGrid.total_duration
    (TextGrid.read_textgrid PyFloat.of_str "utt001.TextGrid"
       (Some Examples.bad_then_good_xmax)) = Examples.float_2_5
  /\ TextGrid.first_xmax_only PyFloat.of_str
       (Py.splitlines Examples.bad_then_good_xmax) = PyFloat.zero
  /\ Examples.float_2_5 <> PyFloat.zero.
Proof.
  split; [now vm_compute|]. split; [now vm_compute|]. now vm_compute.
Qed.

(** * The validation log *)

Section MetricsFacts.

Lemma scan_log_line_error_count (st : Metrics.validation_stats) (line : string) :
  Metrics.error_count (Metrics.scan_log_line st line) =
  Metrics.error_count st + error_step line.
Proof.
  unfold Metrics.scan_log_line, Metrics.count_error, error_step, Metrics.counts_as_error.
  unfold Metrics.any_phrase_in, Metrics.no_error_phrases, Metrics.error_phrases.
  assert (Hkeep : Metrics.error_count
            (Metrics.collect_oov_words line (Metrics.count_oov line st)) =
          Metrics.error_count st).
  { unfold Metrics.collect_oov_words, Metrics.count_oov.
    destruct (Py.contains "not found in dictionary" (Py.lower line));
      destruct (Py.contains "OOV" line || Py.contains "oov" (Py.lower line));
      reflexivity. }
  destruct (Py.contains "error" (Py.lower line)); cbn [andb negb].
  - destruct (existsb _ _); cbn [andb negb].
    + rewrite Hkeep. lia.
    + destruct (existsb _ _); cbn [Metrics.error_count]; rewrite Hkeep; lia.
  - rewrite Hkeep. lia.
Qed.

Lemma fold_scan_log_error_count (lines : list string) (st : Metrics.validation_stats) :
  Metrics.error_count (fold_left Metrics.scan_log_line lines st) =
  Metrics.error_count st
  + Z.of_nat (List.length (filter Metrics.counts_as_error lines)).
Proof.
  revert st; induction lines as [|line lines IH]; intros st.
  - cbn. lia.
  - cbn [fold_left filter]. rewrite IH, scan_log_line_error_count.
    unfold error_step. destruct (Metrics.counts_as_error line); cbn [List.length]; lia.
Qed.

Lemma existsb_contains_true (phrase text : string) (phrases : list string) :
  In phrase phrases -> Py.contains phrase text = true ->
  existsb (fun p => Py.contains p text) phrases = true.
Proof.
  intros Hin Hc. apply existsb_exists. now exists phrase.
Qed.

(** C2, as the code has it.  The error count of a log is the number of its
    lines whose lower-cased text holds [error], holds none of the seven
    no-error phrases and holds one of the six indicator phrases, the
    first of which is [ error:] with a space before it; each such line
    adds exactly one and no other line adds anything.  A line that holds
    [no error] or [0 error] is never counted. *)
Theorem error_count_counts_indicated_lines :
  forall content : string,
    Metrics.error_count (Metrics.parse_validation_log (Some content)) =
      Z.of_nat (List.length (filter Metrics.counts_as_error (Py.splitlines content)))
    /\ (forall st line, Metrics.counts_as_error line = true ->
          Metrics.error_count (Metrics.scan_log_line st line) = Metrics.error_count st + 1)
    /\ (forall st line, Metrics.counts_as_error line = false ->
          Metrics.error_count (Metrics.scan_log_line st line) = Metrics.error_count st)
    /\ (forall line,
          Py.contains "no error" (Py.lower line) = true
          \/ Py.contains "0 error" (Py.lower line) = true ->
          Metrics.counts_as_error line = false)
    /\ Metrics.error_count (Metrics.parse_validation_log None) = 0.
Proof.
  intros content. split; [|split; [|split; [|split]]].
  - unfold Metrics.parse_validation_log. rewrite fold_scan_log_error_count. cbn. lia.
  - intros st line H. rewrite scan_log_line_error_count. unfold error_step. now rewrite H.
  - intros st line H. rewrite scan_log_line_error_count. unfold error_step. rewrite H. lia.
  - intros line H. unfold Metrics.counts_as_error.
    match goal with
    | |- context [negb (existsb ?f ?l)] =>
        assert (Hex : existsb f l = true)
    end.
    { destruct H as [H|H];
        [apply existsb_contains_true with (phrase := "no error")
        |apply existsb_contains_true with (phrase := "0 error")];
        try exact H; cbn; tauto. }
    rewrite Hex. cbn [negb]. now rewrite andb_false_r.
  - reflexivity.
Qed.

(** C2, as the specification has it, fails: the line [error: disk full]
    holds [error] together with the indicator [error:] and no no-error
    phrase, and the error count of a log made of that line is 0. *)
Lemma leading_error_colon_is_not_counted :
  Metrics.claimed_as_error "error: disk full" = true
  /\ Metrics.error_count (Metrics.parse_validation_log (Some "error: disk full")) = 0.
Proof.
  split; now vm_compute.
Qed.

End MetricsFacts.

(** * Binary64 rounding of a quotient *)

Section FloatFacts.

Lemma digits2_pos_lower (p : positive) : 2 ^ (Zpos (digits2_pos p) - 1) <= Zpos p.
Proof.
  induction p as [p IH|p IH|]; cbn [digits2_pos].
  - rewrite Pos2Z.inj_succ.
    replace (Z.succ (Zpos (digits2_pos p)) - 1) with (Z.succ (Zpos (digits2_pos p) - 1)) by lia.
    rewrite Z.pow_succ_r by lia. lia.
  - rewrite Pos2Z.inj_succ.
    replace (Z.succ (Zpos (digits2_pos p)) - 1) with (Z.succ (Zpos (digits2_pos p) - 1)) by lia.
    rewrite Z.pow_succ_r by lia. lia.
  - cbn. lia.
Qed.

Lemma Zdigits2_below (m k : Z) : 0 <= m -> 0 <= k -> m < 2 ^ k -> Zdigits2 m <= k.
Proof.
  intros Hm Hk Hlt. destruct m as [|p|p]; cbn [Zdigits2]; [lia| |lia].
  destruct (Z_le_gt_dec (Zpos (digits2_pos p)) k) as [|Hgt]; [assumption|].
  pose proof (digits2_pos_lower p) as Hlow.
  assert (2 ^ k <= 2 ^ (Zpos (digits2_pos p) - 1)) by (apply Z.pow_le_mono_r; lia).
  lia.
Qed.

Lemma digits2_pos_succ (p : positive) :
  Zpos (digits2_pos (Pos.succ p)) <= Zpos (digits2_pos p) + 1.
Proof.
  induction p as [p IH|p IH|]; cbn [Pos.succ digits2_pos]; rewrite ?Pos2Z.inj_succ; lia.
Qed.

Lemma Zdigits2_succ (m : Z) : 0 <= m -> Zdigits2 (m + 1) <= Zdigits2 m + 1.
Proof.
  intros Hm. destruct m as [|p|p]; [cbn; lia| |lia].
  replace (Zpos p + 1) with (Zpos (Pos.succ p)) by lia.
  cbn [Zdigits2]. apply digits2_pos_succ.
Qed.

Lemma Zdigits2_nonneg (m : Z) : 0 <= Zdigits2 m.
Proof. destruct m; cbn; lia. Qed.

Lemma shr_1_shifted (mrs : shr_record) : shifted 1 mrs (shr_1 mrs).
Proof.
  destruct mrs as [m r s]. unfold shifted. cbn [shr_m shr_1]. intros Hm.
  destruct m as [|[p|p|]|p]; cbn [shr_m Zdigits2 digits2_pos];
    rewrite ?Pos2Z.inj_succ; try lia.
Qed.

Lemma iter_shr_1_shifted (p : positive) (mrs : shr_record) :
  shifted (Zpos p) mrs (iter_pos shr_1 p mrs).
Proof.
  revert mrs; induction p as [p IH|p IH|]; intros mrs; cbn [iter_pos].
  - unfold shifted in *. intros Hm.
    destruct (shr_1_shifted mrs Hm) as [H1 D1].
    destruct (IH _ H1) as [H2 D2]. destruct (IH _ H2) as [H3 D3].
    split; [exact H3|]. rewrite D3, D2, D1. lia.
  - unfold shifted in *. intros Hm.
    destruct (IH _ Hm) as [H2 D2]. destruct (IH _ H2) as [H3 D3].
    split; [exact H3|]. rewrite D3, D2. lia.
  - apply shr_1_shifted.
Qed.

Lemma shr_spec (mrs : shr_record) (e n : Z) :
  0 <= shr_m mrs ->
  0 <= shr_m (fst (shr mrs e n))
  /\ snd (shr mrs e n) = e + Z.max 0 n
  /\ Zdigits2 (shr_m (fst (shr mrs e n))) = Z.max 0 (Zdigits2 (shr_m mrs) - Z.max 0 n).
Proof.
  intros Hm. pose proof (Zdigits2_nonneg (shr_m mrs)).
  destruct n as [|p|p]; cbn [shr fst snd].
  - repeat split; lia.
  - destruct (iter_shr_1_shifted p mrs Hm) as [H1 D1]. repeat split; lia.
  - repeat split; lia.
Qed.

Lemma shr_m_of_loc (m : Z) (l : location) : shr_m (shr_record_of_loc m l) = m.
Proof. destruct l as [|[]]; reflexivity. Qed.

Lemma round_nearest_even_cases (m : Z) (l : location) :
  round_nearest_even m l = m \/ round_nearest_even m l = m + 1.
Proof.
  destruct l as [|[]]; cbn; auto. destruct (Z.even m); auto.
Qed.

Lemma fexp_binary64 (x : Z) :
  fexp PyFloat.prec PyFloat.emax x = Z.max (x - 53) (-1074).
Proof. reflexivity. Qed.

Lemma binary_round_aux_finite (s : bool) (m e : Z) (l : location) :
  0 <= m -> e <= 971 -> Zdigits2 m + e <= 1023 ->
  forall s', binary_round_aux PyFloat.prec PyFloat.emax s m e l <> S754_infinity s'.
Proof.
  intros Hm He Hd s'. unfold binary_round_aux, shr_fexp.
  set (n1 := fexp PyFloat.prec PyFloat.emax (Zdigits2 m + e) - e).
  pose proof (shr_spec (shr_record_of_loc m l) e n1) as S1.
  rewrite shr_m_of_loc in S1. specialize (S1 Hm).
  destruct (shr (shr_record_of_loc m l) e n1) as [mrs1 e1].
  cbn [fst snd] in S1. destruct S1 as (M1 & E1 & D1).
  set (m1 := round_nearest_even (shr_m mrs1) (loc_of_shr_record mrs1)).
  assert (Hm1 : 0 <= m1 /\ Zdigits2 m1 <= Zdigits2 (shr_m mrs1) + 1).
  { unfold m1.
    destruct (round_nearest_even_cases (shr_m mrs1) (loc_of_shr_record mrs1)) as [->| ->].
    - split; lia.
    - split; [lia|]. now apply Zdigits2_succ. }
  destruct Hm1 as [M1' D1'].
  set (n2 := fexp PyFloat.prec PyFloat.emax (Zdigits2 m1 + e1) - e1).
  pose proof (shr_spec (shr_record_of_loc m1 loc_Exact) e1 n2) as S2.
  rewrite shr_m_of_loc in S2. specialize (S2 M1').
  destruct (shr (shr_record_of_loc m1 loc_Exact) e1 n2) as [mrs2 e2].
  cbn [fst snd] in S2. destruct S2 as (M2 & E2 & D2).
  assert (He2 : e2 <= 971).
  { subst n1 n2. rewrite fexp_binary64 in *.
    pose proof (Zdigits2_nonneg m). lia. }
  destruct (shr_m mrs2); try discriminate.
  replace (e2 <=? PyFloat.emax - PyFloat.prec) with true; [discriminate|].
  symmetry. apply Z.leb_le. unfold PyFloat.emax, PyFloat.prec. lia.
Qed.

End FloatFacts.

(** * Binary64 division overflows exactly from the half-way point on *)

Section OverflowFacts.

Lemma digits2_pos_upper (p : positive) : Zpos p < 2 ^ Zpos (digits2_pos p).
Proof.
  induction p as [p IH|p IH|]; cbn [digits2_pos]; [| |reflexivity];
    rewrite Pos2Z.inj_succ, Z.pow_succ_r by lia; lia.
Qed.

Lemma Zdigits2_above (m k : Z) : 0 <= k -> 2 ^ k <= m -> k + 1 <= Zdigits2 m.
Proof.
  intros Hk Hle. assert (0 < 2 ^ k) by (apply Z.pow_pos_nonneg; lia).
  destruct m as [|p|p]; try lia. cbn [Zdigits2].
  destruct (Z_lt_le_dec k (Zpos (digits2_pos p))) as [|Hge]; [lia|].
  pose proof (digits2_pos_upper p).
  assert (2 ^ Zpos (digits2_pos p) <= 2 ^ k) by (apply Z.pow_le_mono_r; lia).
  lia.
Qed.

Lemma shr_1_halved (mrs : shr_record) : halved 1 mrs (shr_1 mrs).
Proof.
  destruct mrs as [m r s]. unfold halved. cbn [shr_m]. intros Hm.
  change (2 ^ (1 - 1)) with 1. change (2 ^ 1) with 2. rewrite Z.div_1_r.
  destruct m as [|[p|p|]|p]; cbn [shr_1 shr_m shr_r]; try lia; split;
    try reflexivity.
  - apply (Z.div_unique (Zpos p~1) 2 (Zpos p) 1); lia.
  - apply (Z.div_unique (Zpos p~0) 2 (Zpos p) 0); lia.
Qed.

Lemma halved_trans (k1 k2 : Z) (a b c : shr_record) :
  1 <= k1 -> 1 <= k2 -> halved k1 a b -> halved k2 b c -> halved (k1 + k2) a c.
Proof.
  unfold halved. intros H1 H2 Hab Hbc Hm.
  destruct (Hab Hm) as [Mb Rb].
  assert (P1 : 0 < 2 ^ k1) by (apply Z.pow_pos_nonneg; lia).
  assert (P2 : 0 < 2 ^ k2) by (apply Z.pow_pos_nonneg; lia).
  assert (P3 : 0 < 2 ^ (k2 - 1)) by (apply Z.pow_pos_nonneg; lia).
  assert (Hb : 0 <= shr_m b) by (rewrite Mb; apply Z.div_pos; lia).
  destruct (Hbc Hb) as [Mc Rc].
  split.
  - rewrite Mc, Mb, Z.div_div, <- Z.pow_add_r by lia. reflexivity.
  - rewrite Rc, Mb, Z.div_div, <- Z.pow_add_r by lia.
    now replace (k1 + (k2 - 1)) with (k1 + k2 - 1) by lia.
Qed.

Lemma iter_shr_1_halved (p : positive) (mrs : shr_record) :
  halved (Zpos p) mrs (iter_pos shr_1 p mrs).
Proof.
  revert mrs; induction p as [p IH|p IH|]; intros mrs; cbn [iter_pos].
  - replace (Zpos p~1) with (1 + Zpos p + Zpos p) by lia.
    apply (halved_trans _ _ _ (iter_pos shr_1 p (shr_1 mrs))); try lia; [|apply IH].
    apply (halved_trans _ _ _ (shr_1 mrs)); try lia; [apply shr_1_halved|apply IH].
  - replace (Zpos p~0) with (Zpos p + Zpos p) by lia.
    apply (halved_trans _ _ _ (iter_pos shr_1 p mrs)); try lia; apply IH.
  - apply shr_1_halved.
Qed.

Lemma overflow_quotient_scaled (k : Z) :
  0 <= k -> overflow_quotient * 2 ^ k = (2 ^ 54 - 1) * 2 ^ (970 + k).
Proof.
  intros Hk. rewrite Z.pow_add_r by lia. unfold overflow_quotient.
  assert (E : 2 ^ 1024 - 2 ^ 970 = (2 ^ 54 - 1) * 2 ^ 970) by reflexivity.
  rewrite E. ring.
Qed.

Lemma digits_bounds (m d : Z) :
  0 < m -> Zdigits2 m = d -> 2 ^ (d - 1) <= m < 2 ^ d.
Proof.
  intros Hm <-. destruct m as [|p|p]; try lia. cbn [Zdigits2].
  split; [apply digits2_pos_lower|apply digits2_pos_upper].
Qed.

Lemma digits_between (m d : Z) :
  0 < d -> 2 ^ (d - 1) <= m < 2 ^ d -> Zdigits2 m = d.
Proof.
  intros Hd [Hlo Hhi].
  assert (0 < 2 ^ (d - 1)) by (apply Z.pow_pos_nonneg; lia).
  pose proof (Zdigits2_below m d ltac:(lia) ltac:(lia) Hhi).
  pose proof (Zdigits2_above m (d - 1) ltac:(lia) Hlo). lia.
Qed.

(** A quotient in the highest binade: it is rounded to infinity exactly
    from the half-way point between the largest float and 2^1024 on. *)
Lemma round_top_binade (s : bool) (m e : Z) (l : location) :
  0 < m -> e <= 0 -> Zdigits2 m + e = 1024 ->
  (overflow_quotient * 2 ^ (- e) <= m ->
   binary_round_aux PyFloat.prec PyFloat.emax s m e l = S754_infinity s)
  /\ (m < overflow_quotient * 2 ^ (- e) ->
      forall s', binary_round_aux PyFloat.prec PyFloat.emax s m e l <> S754_infinity s').
Proof.
  intros Hm He Hd.
  rewrite overflow_quotient_scaled by lia.
  destruct (971 - e) as [|p|p] eqn:Hn; try lia.
  replace (970 + - e) with (Zpos p - 1) by lia.
  assert (Hp : 971 <= Zpos p) by lia.
  destruct (digits_bounds m (Zpos p + 53) Hm ltac:(lia)) as [Hlo Hhi].
  assert (P : 0 < 2 ^ (Zpos p - 1)) by (apply Z.pow_pos_nonneg; lia).
  assert (E52 : 2 ^ (Zpos p + 53 - 1) = 2 ^ (Zpos p - 1) * 2 ^ 53).
  { rewrite <- Z.pow_add_r by lia. f_equal. lia. }
  assert (E53 : 2 ^ (Zpos p + 53) = 2 ^ (Zpos p - 1) * 2 ^ 54).
  { rewrite <- Z.pow_add_r by lia. f_equal. lia. }
  assert (Hhalf : m / 2 ^ Zpos p = m / 2 ^ (Zpos p - 1) / 2).
  { rewrite Z.div_div by lia. change 2 with (2 ^ 1) at 3.
    rewrite <- Z.pow_add_r by lia. do 2 f_equal. lia. }
  assert (H53 : 2 ^ 53 <= m / 2 ^ (Zpos p - 1)).
  { apply Z.div_le_lower_bound; lia. }
  assert (H54 : m / 2 ^ (Zpos p - 1) < 2 ^ 54).
  { apply Z.div_lt_upper_bound; lia. }
  assert (Hshr : shr_fexp PyFloat.prec PyFloat.emax m e l =
                 (iter_pos shr_1 p (shr_record_of_loc m l), 971)).
  { unfold shr_fexp. rewrite fexp_binary64, Hd.
    change (Z.max (1024 - 53) (-1074)) with 971. rewrite Hn. cbn [shr].
    f_equal. lia. }
  unfold binary_round_aux. rewrite Hshr.
  pose proof (iter_shr_1_halved p (shr_record_of_loc m l)) as Hh.
  unfold halved in Hh. rewrite shr_m_of_loc in Hh.
  destruct (Hh ltac:(lia)) as [HM HR]. clear Hh.
  destruct (iter_pos shr_1 p (shr_record_of_loc m l)) as [M r s0].
  cbn [shr_m shr_r] in HM, HR. cbn [shr_m].
  rewrite Hhalf in HM.
  set (H := m / 2 ^ (Zpos p - 1)) in *.
  pose proof (Z.div2_odd H) as Hodd. rewrite Z.div2_div, <- HM, <- HR in Hodd.
  split.
  - intros Htop.
    assert (H = 2 ^ 54 - 1).
    { assert (2 ^ 54 - 1 <= H) by (apply Z.div_le_lower_bound; lia). lia. }
    assert (r = true /\ M = 2 ^ 53 - 1) as [-> ->].
    { destruct r; cbn [Z.b2z] in Hodd; split; try reflexivity; lia. }
    destruct s0; reflexivity.
  - intros Hlt s'.
    assert (H < 2 ^ 54 - 1) by (apply Z.div_lt_upper_bound; lia).
    set (m1 := round_nearest_even M (loc_of_shr_record
                 {| shr_m := M; shr_r := r; shr_s := s0 |})).
    assert (Hm1 : 2 ^ (53 - 1) <= m1 < 2 ^ 53).
    { unfold m1. destruct r, s0; cbn [loc_of_shr_record round_nearest_even Z.b2z] in *;
        try destruct (Z.even M); lia. }
    unfold shr_fexp. rewrite (digits_between m1 53 ltac:(lia) Hm1).
    rewrite fexp_binary64. change (Z.max (53 + 971 - 53) (-1074) - 971) with 0.
    cbn [shr]. rewrite shr_m_of_loc.
    destruct m1 as [|q|q]; discriminate.
Qed.

(** A quotient beyond the highest binade is rounded to infinity. *)
Lemma round_beyond_top_binade (s : bool) (m e : Z) (l : location) :
  0 < m -> e <= 0 -> 1025 <= Zdigits2 m + e ->
  binary_round_aux PyFloat.prec PyFloat.emax s m e l = S754_infinity s.
Proof.
  intros Hm He Hd. unfold binary_round_aux, shr_fexp.
  set (d := Zdigits2 m) in *.
  set (n1 := fexp PyFloat.prec PyFloat.emax (d + e) - e).
  assert (Hn1 : n1 = d - 53).
  { unfold n1. rewrite fexp_binary64. clear n1. clearbody d. lia. }
  pose proof (shr_spec (shr_record_of_loc m l) e n1) as S1.
  rewrite shr_m_of_loc in S1. specialize (S1 ltac:(lia)). fold d in S1.
  destruct (shr (shr_record_of_loc m l) e n1) as [mrs1 e1].
  cbn [fst snd] in S1. destruct S1 as (M1 & E1 & D1).
  assert (D1' : Zdigits2 (shr_m mrs1) = 53) by lia.
  assert (HM1 : 0 < shr_m mrs1).
  { destruct (shr_m mrs1); [discriminate D1'|lia|lia]. }
  destruct (digits_bounds _ 53 HM1 D1') as [Hlo Hhi].
  set (m1 := round_nearest_even (shr_m mrs1) (loc_of_shr_record mrs1)).
  assert (Hm1 : 2 ^ (53 - 1) <= m1 <= 2 ^ 53).
  { unfold m1.
    destruct (round_nearest_even_cases (shr_m mrs1) (loc_of_shr_record mrs1)) as [->| ->];
      lia. }
  assert (Dm1 : 53 <= Zdigits2 m1 <= 54).
  { split.
    - apply (Zdigits2_above m1 52); lia.
    - apply Zdigits2_below; lia. }
  set (n2 := fexp PyFloat.prec PyFloat.emax (Zdigits2 m1 + e1) - e1).
  assert (Hn2 : n2 = Zdigits2 m1 - 53).
  { unfold n2. rewrite fexp_binary64. clear n2. clearbody m1 n1 d. lia. }
  pose proof (shr_spec (shr_record_of_loc m1 loc_Exact) e1 n2) as S2.
  rewrite shr_m_of_loc in S2. specialize (S2 ltac:(lia)).
  destruct (shr (shr_record_of_loc m1 loc_Exact) e1 n2) as [mrs2 e2].
  cbn [fst snd] in S2. destruct S2 as (M2 & E2 & D2).
  assert (D2' : Zdigits2 (shr_m mrs2) = 53) by lia.
  destruct (shr_m mrs2) as [|q|q]; [discriminate D2'| |lia].
  replace (e2 <=? PyFloat.emax - PyFloat.prec) with false; [reflexivity|].
  symmetry. apply Z.leb_gt. unfold PyFloat.emax, PyFloat.prec. lia.
Qed.

Lemma div_core_quotient (mx my : positive) (mz ez : Z) (lz : location) :
  SFdiv_core_binary PyFloat.prec PyFloat.emax (Zpos mx) 0 (Zpos my) 0 = (mz, ez, lz) ->
  ez <= 0 /\ mz = Zpos mx * 2 ^ (- ez) / Zpos my.
Proof.
  unfold SFdiv_core_binary.
  set (e' := Z.min (fexp PyFloat.prec PyFloat.emax
                      (Zdigits2 (Zpos mx) + 0 - (Zdigits2 (Zpos my) + 0))) (0 - 0)).
  assert (He' : e' <= 0) by (unfold e'; lia).
  set (sh := 0 - 0 - e').
  set (m' := match sh with Zpos _ => Z.shiftl (Zpos mx) sh | Z0 => Zpos mx | Zneg _ => 0 end).
  assert (Hm' : m' = Zpos mx * 2 ^ sh).
  { unfold m'. assert (0 <= sh) by (unfold sh; lia).
    destruct sh as [|p|p]; [cbn; lia| |lia].
    now rewrite Z.shiftl_mul_pow2 by lia. }
  pose proof (Z_div_mod m' (Zpos my) eq_refl) as Hdiv.
  destruct (Z.div_eucl m' (Zpos my)) as [q r]. destruct Hdiv as [Hq Hr].
  intros Heq. injection Heq as <- <- _.
  split; [exact He'|].
  replace (- e') with sh by (unfold sh; lia). rewrite <- Hm'.
  apply (Z.div_unique m' (Zpos my) q r); [left; lia|exact Hq].
Qed.

Lemma overflow_quotient_bounds : 2 ^ 1023 <= overflow_quotient < 2 ^ 1024.
Proof. split; [discriminate|reflexivity]. Qed.

(** The true division of two integers returns exactly when the quotient
    is below the half-way point, and raises [OverflowError] from there
    on. *)
Lemma int_truediv_overflow (a b : Z) :
  0 <= a -> 0 < b ->
  (a < overflow_quotient * b -> exists q, PyFloat.int_truediv a b = PyFloat.Ok q)
  /\ (overflow_quotient * b <= a ->
      PyFloat.int_truediv a b = PyFloat.Raise PyFloat.OverflowError).
Proof.
  intros Ha Hb. pose proof overflow_quotient_bounds as [Tlo Thi].
  unfold PyFloat.int_truediv.
  replace (b =? 0) with false by (symmetry; apply Z.eqb_neq; lia).
  destruct b as [|my|my]; try lia.
  destruct a as [|mx|mx]; try lia.
  - split; [cbn; eauto|]. intros H. exfalso.
    assert (0 < 2 ^ 1023) by reflexivity. nia.
  - cbn [PyFloat.exact SFdiv xorb].
    destruct (SFdiv_core_binary PyFloat.prec PyFloat.emax (Zpos mx) 0 (Zpos my) 0)
      as [[mz ez] lz] eqn:Hcore.
    destruct (div_core_quotient mx my mz ez lz Hcore) as [He Hmz].
    set (sh := - ez) in *. assert (Hsh : 0 <= sh) by (unfold sh; lia).
    assert (Hpow : 0 < 2 ^ sh) by (apply Z.pow_pos_nonneg; lia).
    assert (H0 : 0 <= mz) by (rewrite Hmz; apply Z.div_pos; lia).
    split.
    + intros Hlt.
      assert (Hq : mz < overflow_quotient * 2 ^ sh).
      { rewrite Hmz. apply Z.div_lt_upper_bound; [lia|]. nia. }
      assert (Hd : Zdigits2 mz <= 1024 + sh).
      { apply Zdigits2_below; [lia|lia|]. rewrite Z.pow_add_r by lia. nia. }
      assert (Hfin : forall s', binary_round_aux PyFloat.prec PyFloat.emax false mz ez lz
                                <> S754_infinity s').
      { destruct (Z_le_gt_dec (Zdigits2 mz + ez) 1023) as [Hsmall|Hbig].
        - apply binary_round_aux_finite; lia.
        - assert (Hpos : 0 < mz) by (destruct mz; [cbn in Hbig; lia|lia|lia]).
          apply (round_top_binade false mz ez lz Hpos He); [unfold sh in Hd; lia|exact Hq]. }
      destruct (binary_round_aux PyFloat.prec PyFloat.emax false mz ez lz) eqn:Hr; eauto.
      exfalso. now apply (Hfin s).
    + intros Hge.
      assert (Hq : overflow_quotient * 2 ^ sh <= mz).
      { rewrite Hmz. apply Z.div_le_lower_bound; [lia|]. nia. }
      assert (Hd : 1023 + sh + 1 <= Zdigits2 mz).
      { apply Zdigits2_above; [lia|]. rewrite Z.pow_add_r by lia. nia. }
      assert (Hpos : 0 < mz) by nia.
      assert (Hinf : binary_round_aux PyFloat.prec PyFloat.emax false mz ez lz
                     = S754_infinity false).
      { destruct (Z_le_gt_dec (Zdigits2 mz + ez) 1024) as [Htop|Hbig].
        - apply (round_top_binade false mz ez lz Hpos He); [unfold sh in Hd; lia|exact Hq].
        - apply round_beyond_top_binade; lia. }
      now rewrite Hinf.
Qed.

End OverflowFacts.

(** * Coverage *)

Section CoverageFacts.

(** C8, as the code has it.  For counts that are not negative,
    [calculate_coverage] returns 0.0 when there is no audio file and never
    divides by zero.  When there is an audio file, it returns the product
    of the rounded quotient of the two counts and 100 as long as the
    quotient is below 2^1024 - 2^970, the half-way point between the
    largest float and 2^1024; from that point on the quotient is rounded
    beyond the floats and the division raises [OverflowError].  For 10
    audio files and 8 annotation files the result is 80.0, and for none of
    either it is 0.0. *)
Theorem calculate_coverage_is_ratio_times_100 :
  forall wav_count textgrid_count : Z,
    0 <= wav_count -> 0 <= textgrid_count ->
    (wav_count = 0 ->
       Metrics.calculate_coverage wav_count textgrid_count = PyFloat.Ok PyFloat.zero)
    /\ Metrics.calculate_coverage wav_count textgrid_count
       <> PyFloat.Raise PyFloat.ZeroDivisionError
    /\ (0 < wav_count -> textgrid_count < overflow_quotient * wav_count ->
        exists q,
          PyFloat.int_truediv textgrid_count wav_count = PyFloat.Ok q
          /\ Metrics.calculate_coverage wav_count textgrid_count =
             PyFloat.Ok (PyFloat.mul q Metrics.float_100))
    /\ (0 < wav_count -> overflow_quotient * wav_count <= textgrid_count ->
        Metrics.calculate_coverage wav_count textgrid_count
        = PyFloat.Raise PyFloat.OverflowError)
    /\ Metrics.calculate_coverage 10 8 = PyFloat.Ok Metrics.float_80
    /\ Metrics.calculate_coverage 0 0 = PyFloat.Ok PyFloat.zero.
Proof.
  intros w t Hw Ht. split; [|split; [|split; [|split; [|split]]]].
  - intros ->. reflexivity.
  - unfold Metrics.calculate_coverage, PyFloat.int_truediv.
    destruct (w =? 0); [discriminate|].
    destruct (SFdiv PyFloat.prec PyFloat.emax (PyFloat.exact t) (PyFloat.exact w));
      discriminate.
  - intros Hpos Hlt.
    destruct (int_truediv_overflow t w Ht Hpos) as [Hret _].
    destruct (Hret Hlt) as [q Hq].
    exists q. split; [exact Hq|].
    unfold Metrics.calculate_coverage.
    replace (w =? 0) with false by (symmetry; apply Z.eqb_neq; lia).
    now rewrite Hq.
  - intros Hpos Hge.
    destruct (int_truediv_overflow t w Ht Hpos) as [_ Hraise].
    unfold Metrics.calculate_coverage.
    replace (w =? 0) with false by (symmetry; apply Z.eqb_neq; lia).
    now rewrite (Hraise Hge).
  - now vm_compute.
  - reflexivity.
Qed.

(** The hypotheses of the coverage theorem hold for 10 audio files and 8
    annotation files. *)
Lemma calculate_coverage_is_ratio_times_100_witness :
  (Metrics.calculate_coverage 10 8 <> PyFloat.Raise PyFloat.ZeroDivisionError)
  /\ exists q,
       PyFloat.int_truediv 8 10 = PyFloat.Ok q
       /\ Metrics.calculate_coverage 10 8 = PyFloat.Ok (PyFloat.mul q Metrics.float_100).
Proof.
  destruct (calculate_coverage_is_ratio_times_100 10 8 ltac:(lia) ltac:(lia))
    as (_ & Hz & Hq & _).
  split; [exact Hz|]. apply Hq; [lia|]. now vm_compute.
Defined.

(** C8, as the specification has it, fails: with one audio file and
    2^1024 annotation files the quotient is too large for a float and
    the division raises [OverflowError]. *)
Lemma calculate_coverage_overflows :
  Metrics.calculate_coverage 1 (2 ^ 1024) = PyFloat.Raise PyFloat.OverflowError.
Proof. now vm_compute. Qed.

End CoverageFacts.

(** * The pattern classifier *)

Section ClassifierFacts.

Lemma str_exists_ext (f g : ascii -> bool) (s : string) :
  (forall c, f c = g c) -> Py.str_exists f s = Py.str_exists g s.
Proof.
  intros H. induction s as [|c s IH]; [reflexivity|]. cbn. now rewrite H, IH.
Qed.

Lemma contains_char (c : ascii) (s : string) :
  Py.contains (String c EmptyString) s = Py.has_char c s.
Proof.
  unfold Py.has_char. induction s as [|a s IH]; [reflexivity|].
  cbn [Py.contains Py.startswith Py.str_exists]. rewrite IH.
  now rewrite andb_true_r.
Qed.

(** The test that lines 123-149 make for each category. *)
Lemma classify_word_bucket (c : OOV.category) (p : OOV.pattern_lists) (word : string) :
  OOV.bucket c (OOV.classify_word p word) =
  OOV.bucket c p ++ (if OOV.rule c word then [word] else []).
Proof.
  destruct c; cbn [OOV.bucket OOV.classify_word OOV.rule
                   OOV.numbers OOV.hyphenated OOV.contractions OOV.uppercase
                   OOV.special_chars OOV.short OOV.long]; unfold OOV.append_if.
  - destruct (Py.str_exists Py.isdigit word); now rewrite ?app_nil_r.
  - rewrite (contains_char "-"). destruct (Py.has_char "-" word); now rewrite ?app_nil_r.
  - rewrite (contains_char "'"). destruct (Py.has_char "'" word); now rewrite ?app_nil_r.
  - unfold Py.isupper.
    destruct (negb (Py.str_exists Py.islower_char word)
              && Py.str_exists Py.isupper_char word && (1 <? Py.len word));
      now rewrite ?app_nil_r.
  - rewrite (str_exists_ext OOV.is_special_char
               (fun ch => negb (Py.isalnum ch) && negb (ch =? "-")%char
                          && negb (ch =? "'")%char)).
    + destruct (Py.str_exists _ word); now rewrite ?app_nil_r.
    + intros ch. unfold OOV.is_special_char.
      now rewrite negb_orb, andb_assoc.
  - destruct (Py.len word <=? 2); now rewrite ?app_nil_r.
  - destruct (15 <=? Py.len word); now rewrite ?app_nil_r.
Qed.

Lemma fold_classify_bucket (c : OOV.category) (words : list string) (p : OOV.pattern_lists) :
  OOV.bucket c (fold_left OOV.classify_word words p) =
  OOV.bucket c p ++ filter (OOV.rule c) words.
Proof.
  revert p; induction words as [|w words IH]; intros p.
  - cbn. now rewrite app_nil_r.
  - cbn [fold_left filter]. rewrite IH, classify_word_bucket, <- app_assoc.
    now destruct (OOV.rule c w).
Qed.

Lemma analyze_bucket (c : OOV.category) (words : list string) :
  OOV.bucket c (OOV.analyze_oov_patterns words) = filter (OOV.rule c) words.
Proof.
  unfold OOV.analyze_oov_patterns. rewrite fold_classify_bucket. now destruct c.
Qed.

Lemma classify_rule (word : string) (c : OOV.category) :
  OOV.classify word c = OOV.rule c word.
Proof.
  unfold OOV.classify. rewrite analyze_bucket. cbn [filter].
  now destruct (OOV.rule c word).
Qed.

End ClassifierFacts.

(** * The pattern classifier over any repertoire of characters *)

Section RepertoireFacts.

Variable R : Repertoire.repertoire.

Lemma existsb_orb (A : Type) (f g : A -> bool) (l : list A) :
  existsb (fun a => f a || g a) l = existsb f l || existsb g l.
Proof.
  induction l as [|a l IH]; [reflexivity|]. cbn. rewrite IH.
  destruct (f a), (g a), (existsb f l); reflexivity.
Qed.

Lemma existsb_ext_bool (A : Type) (f g : A -> bool) (l : list A) :
  (forall a, f a = g a) -> existsb f l = existsb g l.
Proof.
  intros H. induction l as [|a l IH]; [reflexivity|]. cbn. now rewrite H, IH.
Qed.

(** [word.isupper() and len(word) > 1] on the characters of the word. *)
Lemma isupper_longer_than_one (word : Repertoire.str R) :
  Repertoire.isupper R word && (1 <? Repertoire.len R word)
  = negb (existsb (Repertoire.islower_char R) word)
    && negb (existsb (Repertoire.istitle_char R) word)
    && existsb (Repertoire.isupper_char R) word
    && (1 <? Repertoire.len R word).
Proof.
  destruct word as [|a [|b word]].
  - reflexivity.
  - cbn. now rewrite !andb_false_r.
  - unfold Repertoire.isupper. now rewrite existsb_orb, negb_orb.
Qed.

Lemma repertoire_classify_word_bucket (c : OOV.category)
      (p : Repertoire.pattern_lists R) (word : Repertoire.str R) :
  Repertoire.bucket R c (Repertoire.classify_word R p word) =
  Repertoire.bucket R c p ++ (if Repertoire.rule R c word then [word] else []).
Proof.
  destruct c; cbn [Repertoire.bucket Repertoire.classify_word Repertoire.rule
                   Repertoire.numbers Repertoire.hyphenated Repertoire.contractions
                   Repertoire.uppercase Repertoire.special_chars Repertoire.short
                   Repertoire.long]; unfold Repertoire.append_if, Repertoire.has_char.
  - destruct (existsb (Repertoire.isdigit R) word); now rewrite ?app_nil_r.
  - destruct (existsb _ word); now rewrite ?app_nil_r.
  - destruct (existsb _ word); now rewrite ?app_nil_r.
  - rewrite isupper_longer_than_one.
    destruct (negb (existsb (Repertoire.islower_char R) word)
              && negb (existsb (Repertoire.istitle_char R) word)
              && existsb (Repertoire.isupper_char R) word
              && (1 <? Repertoire.len R word));
      now rewrite ?app_nil_r.
  - rewrite (existsb_ext_bool _ (Repertoire.is_special_char R)
               (fun ch => negb (Repertoire.isalnum R ch)
                          && negb (Repertoire.char_eqb R ch (Repertoire.hyphen R))
                          && negb (Repertoire.char_eqb R ch (Repertoire.apostrophe R)))).
    + destruct (existsb _ word); now rewrite ?app_nil_r.
    + intros ch. unfold Repertoire.is_special_char.
      now rewrite negb_orb, andb_assoc.
  - destruct (Repertoire.len R word <=? 2); now rewrite ?app_nil_r.
  - destruct (15 <=? Repertoire.len R word); now rewrite ?app_nil_r.
Qed.

Lemma repertoire_fold_bucket (c : OOV.category) (words : list (Repertoire.str R))
      (p : Repertoire.pattern_lists R) :
  Repertoire.bucket R c (fold_left (Repertoire.classify_word R) words p) =
  Repertoire.bucket R c p ++ filter (Repertoire.rule R c) words.
Proof.
  revert p; induction words as [|w words IH]; intros p.
  - cbn. now rewrite app_nil_r.
  - cbn [fold_left filter]. rewrite IH, repertoire_classify_word_bucket, <- app_assoc.
    now destruct (Repertoire.rule R c w).
Qed.

Lemma repertoire_analyze_bucket (c : OOV.category) (words : list (Repertoire.str R)) :
  Repertoire.bucket R c (Repertoire.analyze_oov_patterns R words) =
  filter (Repertoire.rule R c) words.
Proof.
  unfold Repertoire.analyze_oov_patterns.
  rewrite repertoire_fold_bucket. now destruct c.
Qed.

Lemma repertoire_classify_rule (word : Repertoire.str R) (c : OOV.category) :
  Repertoire.classify R word c = Repertoire.rule R c word.
Proof.
  unfold Repertoire.classify.
  rewrite repertoire_analyze_bucket. cbn [filter].
  now destruct (Repertoire.rule R c word).
Qed.

Lemma all_upper_not_lower_or_title (word : Repertoire.str R) :
  Repertoire.cases_apart R ->
  forallb (Repertoire.isupper_char R) word = true ->
  existsb (Repertoire.islower_char R) word = false
  /\ existsb (Repertoire.istitle_char R) word = false.
Proof.
  intros Hdis. induction word as [|ch word IH]; [now split|]. cbn.
  intros H. apply andb_true_iff in H as [Hc Hw].
  destruct (Hdis ch Hc) as [-> ->]. now apply IH.
Qed.

End RepertoireFacts.

Section Latin1Facts.

Lemma str_exists_existsb (p : ascii -> bool) (s : string) :
  Py.str_exists p s = existsb p (list_ascii_of_string s).
Proof. induction s as [|c s IH]; [reflexivity|]. cbn. now rewrite IH. Qed.

Lemma len_list_ascii (s : string) :
  Py.len s = Repertoire.len Repertoire.latin1 (list_ascii_of_string s).
Proof.
  unfold Py.len, Repertoire.len. f_equal.
  induction s as [|c s IH]; [reflexivity|]. cbn. now rewrite IH.
Qed.

Lemma existsb_never (A : Type) (l : list A) : existsb (fun _ => false) l = false.
Proof. induction l as [|a l IH]; [reflexivity|exact IH]. Qed.

(** On the characters of [Py] the classifier over a repertoire is the
    classifier of the strings. *)
Lemma latin1_rule (word : string) (c : OOV.category) :
  OOV.rule c word =
  Repertoire.rule Repertoire.latin1 c (list_ascii_of_string word).
Proof.
  destruct c; cbn [OOV.rule Repertoire.rule]; unfold Py.has_char;
    rewrite ?str_exists_existsb, <- ?len_list_ascii; try reflexivity.
  cbn [Repertoire.istitle_char Repertoire.latin1].
  rewrite existsb_never. cbn [negb]. now rewrite andb_true_r.
Qed.

Lemma latin1_cases_apart : Repertoire.cases_apart Repertoire.latin1.
Proof.
  intros ch. cbn [Repertoire.isupper_char Repertoire.islower_char
                  Repertoire.istitle_char Repertoire.latin1].
  destruct ch as [[] [] [] [] [] [] [] []]; vm_compute; intros H;
    first [now split | discriminate H].
Qed.

Lemma latin1_filter (c : OOV.category) (words : list string) :
  filter (OOV.rule c) words =
  map string_of_list_ascii
      (filter (Repertoire.rule Repertoire.latin1 c) (map list_ascii_of_string words)).
Proof.
  induction words as [|w words IH]; [reflexivity|].
  cbn [map filter]. rewrite <- latin1_rule.
  destruct (OOV.rule c w); cbn [map]; rewrite <- IH;
    now rewrite ?string_of_list_ascii_of_string.
Qed.

(** C4, as the code has it, for the characters of any repertoire and so
    for the whole of Unicode.  Each list of the analysis holds, in their
    order, the words that meet the rule of its category; the seven rules
    are looked at independently.  The rule for [numbers] asks for a
    character that [isdigit] accepts.  A word carries the tag [uppercase]
    exactly when it has no lower-case and no title-case character, has an
    upper-case one and is longer than one character, so digits and signs
    beside the capitals do not take the tag away; where no upper-case
    character is lower-case or title-case as well, a word longer than one
    character whose every character is upper-case carries it.  The
    classifier of the strings of [Py] is the one over the repertoire of
    their characters, and the example words of the specification are
    tagged as it says. *)
Theorem classify_follows_seven_rules :
  forall (R : Repertoire.repertoire) (oov_words : list (Repertoire.str R))
         (word : Repertoire.str R) (c : OOV.category),
    Repertoire.bucket R c (Repertoire.analyze_oov_patterns R oov_words)
    = filter (Repertoire.rule R c) oov_words
    /\ Repertoire.classify R word c = Repertoire.rule R c word
    /\ (Repertoire.classify R word OOV.Uppercase = true <->
          existsb (Repertoire.islower_char R) word = false
          /\ existsb (Repertoire.istitle_char R) word = false
          /\ existsb (Repertoire.isupper_char R) word = true
          /\ 1 < Repertoire.len R word)
    /\ (Repertoire.cases_apart R ->
        forallb (Repertoire.isupper_char R) word = true ->
        1 < Repertoire.len R word ->
        Repertoire.classify R word OOV.Uppercase = true)
    /\ (forall words : list string,
          OOV.bucket c (OOV.analyze_oov_patterns words) =
          map string_of_list_ascii
              (Repertoire.bucket Repertoire.latin1 c
                 (Repertoire.analyze_oov_patterns Repertoire.latin1
                    (map list_ascii_of_string words))))
    /\ (forall w : string,
          OOV.classify w c =
          Repertoire.classify Repertoire.latin1 (list_ascii_of_string w) c)
    /\ Repertoire.cases_apart Repertoire.latin1
    /\ OOV.classify "NASA" OOV.Uppercase = true
    /\ OOV.classify "I" OOV.Uppercase = false
    /\ OOV.classify "co2" OOV.Numbers = true
    /\ OOV.classify "don't" OOV.Contractions = true
    /\ OOV.classify "ab" OOV.Short = true
    /\ OOV.classify "counterproductive" OOV.Long = true
    /\ OOV.classify "vocabulary" OOV.Long = false.
Proof.
  intros R oov_words word c.
  split; [apply repertoire_analyze_bucket|].
  split; [apply repertoire_classify_rule|]. split.
  { rewrite repertoire_classify_rule. cbn [Repertoire.rule].
    rewrite !andb_true_iff, !negb_true_iff, Z.ltb_lt. tauto. }
  split.
  { intros Hdis Hall Hlen. rewrite repertoire_classify_rule. cbn [Repertoire.rule].
    destruct (all_upper_not_lower_or_title R word Hdis Hall) as [-> ->].
    cbn [negb andb]. apply andb_true_iff. split; [|now apply Z.ltb_lt].
    destruct word as [|ch word]; [discriminate Hlen|].
    cbn in Hall |- *. apply andb_true_iff in Hall as [-> _]. reflexivity. }
  split.
  { intros words. rewrite analyze_bucket, repertoire_analyze_bucket.
    apply latin1_filter. }
  split.
  { intros w. rewrite classify_rule, repertoire_classify_rule. apply latin1_rule. }
  split; [exact latin1_cases_apart|].
  repeat split; now vm_compute.
Qed.

(** C4, as the specification has it, fails twice.  [CO2] carries the tag
    [uppercase] and its last character is not an upper-case one; and the
    word of [m] and the superscript two carries the tag [numbers] and
    holds no decimal digit. *)
Lemma tags_beyond_the_written_rules :
  OOV.classify "CO2" OOV.Uppercase = true
  /\ OOV.every_char_uppercase "CO2" = false
  /\ OOV.classify square_metre OOV.Numbers = true
  /\ has_decimal_digit square_metre = false.
Proof. repeat split; now vm_compute. Qed.

End Latin1Facts.

(** * The frequency ranking *)

Section RankingFacts.

Lemma insert_by_count_perm (x : string * Z) (l : list (string * Z)) :
  Permutation (OOV.insert_by_count x l) (x :: l).
Proof.
  induction l as [|y l IH]; [reflexivity|]. cbn.
  destruct (snd x <? snd y); [|reflexivity].
  rewrite IH. apply perm_swap.
Qed.

Lemma sorted_by_count_perm (l : list (string * Z)) :
  Permutation (OOV.sorted_by_count_desc l) l.
Proof.
  induction l as [|x l IH]; [reflexivity|].
  cbn. rewrite insert_by_count_perm. now constructor.
Qed.

Lemma insert_by_count_sorted (x : string * Z) (l : list (string * Z)) :
  StronglySorted count_ge l -> StronglySorted count_ge (OOV.insert_by_count x l).
Proof.
  induction l as [|y l IH]; intros Hs.
  - repeat constructor.
  - cbn. inversion Hs as [|? ? Hl Hy]; subst.
    destruct (snd x <? snd y) eqn:Hxy.
    + apply Z.ltb_lt in Hxy. constructor; [now apply IH|].
      apply Forall_forall. intros z Hz.
      apply (Permutation_in _ (insert_by_count_perm x l)) in Hz.
      destruct Hz as [<-|Hz]; [unfold count_ge; lia|].
      rewrite Forall_forall in Hy. now apply Hy.
    + apply Z.ltb_ge in Hxy. constructor; [exact Hs|].
      constructor; [unfold count_ge; lia|].
      rewrite Forall_forall in Hy |- *. intros z Hz.
      specialize (Hy z Hz). unfold count_ge in *. lia.
Qed.

Lemma sorted_by_count_sorted (l : list (string * Z)) :
  StronglySorted count_ge (OOV.sorted_by_count_desc l).
Proof.
  induction l as [|x l IH]; [constructor|]. cbn. now apply insert_by_count_sorted.
Qed.

Lemma insert_by_count_stable (n : Z) (x : string * Z) (l : list (string * Z)) :
  filter (OOV.has_count n) (OOV.insert_by_count x l) =
  filter (OOV.has_count n) (x :: l).
Proof.
  induction l as [|y l IH]; [reflexivity|].
  cbn [OOV.insert_by_count]. destruct (snd x <? snd y) eqn:Hxy; [|reflexivity].
  apply Z.ltb_lt in Hxy. cbn [filter] in *. rewrite IH.
  unfold OOV.has_count.
  destruct (snd x =? n) eqn:Hx, (snd y =? n) eqn:Hy; try reflexivity.
  apply Z.eqb_eq in Hx, Hy. lia.
Qed.

Lemma sorted_by_count_stable (n : Z) (l : list (string * Z)) :
  filter (OOV.has_count n) (OOV.sorted_by_count_desc l) = filter (OOV.has_count n) l.
Proof.
  induction l as [|x l IH]; [reflexivity|].
  cbn [OOV.sorted_by_count_desc fold_right].
  rewrite insert_by_count_stable. cbn [filter].
  change (fold_right OOV.insert_by_count [] l) with (OOV.sorted_by_count_desc l).
  now rewrite IH.
Qed.

Lemma dict_set_keys (d : OOV.dict) (key : string) (value : Z) :
  OOV.keys (OOV.dict_set d key value) =
  if OOV.mem key (OOV.keys d) then OOV.keys d else OOV.keys d ++ [key].
Proof.
  unfold OOV.keys, OOV.mem. induction d as [|[k v] d IH]; [reflexivity|].
  cbn [OOV.dict_set map fst existsb]. rewrite (String.eqb_sym key k).
  destruct (k =? key)%string; [reflexivity|]. cbn [map fst orb]. rewrite IH.
  now destruct (existsb (String.eqb key) (map fst d)).
Qed.

(** C6.  The ranking of the frequency map is its items sorted by falling
    count and cut after the first 20.  The sort keeps every item, and
    items of equal count stay in the order they have in the map, which is
    the order in which their words were first inserted: an assignment to a
    word already present leaves the order of the keys as it is and a new
    word goes last.  The map with cat 3, dog 3 and bird 1 inserted in
    that order is ranked cat, dog, bird. *)
Theorem sorted_freqs_is_stable_descending_top_20 :
  forall (word_frequencies : OOV.dict) (n : Z) (key : string) (value : Z),
    OOV.sorted_freqs word_frequencies =
      firstn 20 (OOV.sorted_by_count_desc word_frequencies)
    /\ (List.length (OOV.sorted_freqs word_frequencies) <= 20)%nat
    /\ Permutation (OOV.sorted_by_count_desc word_frequencies) word_frequencies
    /\ StronglySorted (fun a b => snd b <= snd a)
         (OOV.sorted_by_count_desc word_frequencies)
    /\ filter (OOV.has_count n) (OOV.sorted_by_count_desc word_frequencies) =
       filter (OOV.has_count n) word_frequencies
    /\ OOV.keys (OOV.dict_set word_frequencies key value) =
       (if OOV.mem key (OOV.keys word_frequencies)
        then OOV.keys word_frequencies
        else OOV.keys word_frequencies ++ [key])
    /\ Examples.cat_dog_bird = [("cat", 3); ("dog", 3); ("bird", 1)]
    /\ map fst (OOV.sorted_freqs Examples.cat_dog_bird) = ["cat"; "dog"; "bird"].
Proof.
  intros d n key value.
  split; [reflexivity|]. split; [apply firstn_le_length|].
  split; [apply sorted_by_count_perm|].
  split; [apply sorted_by_count_sorted|].
  split; [apply sorted_by_count_stable|].
  split; [apply dict_set_keys|].
  split; reflexivity.
Qed.

End RankingFacts.

(** * The per-utterance file *)

Section FrequencyFacts.

Lemma dict_get_set (d : OOV.dict) (key key' : string) (value default : Z) :
  OOV.dict_get (OOV.dict_set d key value) key' default =
  if (key =? key')%string then value else OOV.dict_get d key' default.
Proof.
  induction d as [|[k v] d IH].
  - cbn. reflexivity.
  - cbn [OOV.dict_set]. destruct (k =? key)%string eqn:Hk.
    + apply String.eqb_eq in Hk; subst k. cbn [OOV.dict_get].
      now destruct (key =? key')%string.
    + cbn [OOV.dict_get]. rewrite IH.
      destruct (k =? key')%string eqn:Hk'; [|reflexivity].
      apply String.eqb_eq in Hk'; subst k. now rewrite String.eqb_sym, Hk.
Qed.

Lemma split_ws_clean (s w : string) : In w (Py.split_ws s) -> clean w.
Proof.
  revert w; induction s as [|c s IH]; intros w Hin; [destruct Hin|].
  cbn [Py.split_ws] in Hin. destruct (Py.isspace c) eqn:Hc; [now apply IH|].
  destruct s as [|d s'].
  - destruct Hin as [<-|[]]. unfold clean. cbn. now rewrite Hc.
  - destruct (Py.isspace d) eqn:Hd.
    + destruct Hin as [<-|Hin]; [|now apply IH].
      unfold clean. cbn. now rewrite Hc.
    + destruct (Py.split_ws (String d s')) as [|h t] eqn:Hs.
      * destruct Hin as [<-|[]]. unfold clean. cbn. now rewrite Hc.
      * destruct Hin as [<-|Hin]; [|apply IH; now right].
        destruct (IH h (or_introl eq_refl)) as [_ Hh].
        unfold clean. cbn. now rewrite Hc, Hh.
Qed.

Lemma lstrip_clean (p : ascii -> bool) (w : string) :
  Py.str_exists p w = false -> Py.lstrip_by p w = w.
Proof.
  destruct w as [|c w]; [reflexivity|]. cbn. intros H.
  apply orb_false_iff in H as [-> _]. reflexivity.
Qed.

Lemma rstrip_clean (p : ascii -> bool) (w : string) :
  Py.str_exists p w = false -> Py.rstrip_by p w = w.
Proof.
  induction w as [|c w IH]; [reflexivity|]. cbn. intros H.
  apply orb_false_iff in H as [Hc Hw]. rewrite (IH Hw), Hc.
  now rewrite andb_false_r.
Qed.

Lemma strip_clean (w : string) : clean w -> Py.strip w = w.
Proof.
  intros [_ H]. unfold Py.strip, Py.strip_by.
  now rewrite (lstrip_clean _ _ H), (rstrip_clean _ _ H).
Qed.

Lemma count_word_get (d : OOV.dict) (w word : string) :
  clean w ->
  OOV.dict_get (OOV.count_word d w) word 0 =
  OOV.dict_get d word 0 + (if string_dec w word then 1 else 0).
Proof.
  intros Hw. unfold OOV.count_word. rewrite (strip_clean w Hw).
  destruct Hw as [-> _]. rewrite dict_get_set.
  destruct (string_dec w word) as [->|Hne].
  - rewrite String.eqb_refl. reflexivity.
  - apply String.eqb_neq in Hne. rewrite Hne. lia.
Qed.

Lemma fold_count_word_get (ws : list string) (d : OOV.dict) (word : string) :
  (forall w, In w ws -> clean w) ->
  OOV.dict_get (fold_left OOV.count_word ws d) word 0 =
  OOV.dict_get d word 0 + Z.of_nat (count_occ string_dec ws word).
Proof.
  revert d; induction ws as [|w ws IH]; intros d Hclean.
  - cbn. lia.
  - cbn [fold_left count_occ]. rewrite IH by (intros; apply Hclean; now right).
    rewrite count_word_get by (apply Hclean; now left).
    destruct (string_dec w word); lia.
Qed.

Lemma contains_colon (line : string) :
  Py.contains ":" line = true ->
  exists before, Py.split1 ":" line = [before; OOV.after_first ":" line].
Proof.
  intros H. apply split1_at_first.
  now apply contains_exists with (p := ":").
Qed.

Lemma read_utterance_line_payload (d : OOV.dict) (line : string) :
  Py.contains ":" line = true ->
  OOV.read_utterance_line d line = fold_left OOV.count_word (OOV.payload_words line) d.
Proof.
  intros H. unfold OOV.read_utterance_line. rewrite H.
  destruct (contains_colon line H) as [before ->]. reflexivity.
Qed.

Lemma read_utterance_line_get (d : OOV.dict) (line word : string) :
  OOV.dict_get (OOV.read_utterance_line d line) word 0 =
  OOV.dict_get d word 0 + OOV.occurrences word line.
Proof.
  unfold OOV.occurrences. destruct (Py.contains ":" line) eqn:H.
  - rewrite (read_utterance_line_payload d line H).
    apply fold_count_word_get. intros w Hw. unfold OOV.payload_words in Hw.
    now apply split_ws_clean in Hw.
  - unfold OOV.read_utterance_line. rewrite H. lia.
Qed.

Lemma fold_read_utterance_get (lines : list string) (d : OOV.dict) (word : string) :
  OOV.dict_get (fold_left OOV.read_utterance_line lines d) word 0 =
  OOV.dict_get d word 0 + OOV.total_occurrences word lines.
Proof.
  revert d; induction lines as [|line lines IH]; intros d.
  - cbn. lia.
  - cbn [fold_left OOV.total_occurrences fold_right].
    rewrite IH, read_utterance_line_get.
    change (fold_right (fun line acc => OOV.occurrences word line + acc) 0 lines)
      with (OOV.total_occurrences word lines). lia.
Qed.

Lemma after_first_app (c : ascii) (ident payload : string) :
  Py.has_char c ident = false ->
  OOV.after_first c (ident ++ String c payload)%string = payload.
Proof.
  unfold Py.has_char. induction ident as [|a ident IH]; intros H.
  - cbn. now rewrite Ascii.eqb_refl.
  - cbn in H |- *. apply orb_false_iff in H as [Ha Hi].
    rewrite Ascii.eqb_sym, Ha. now apply IH.
Qed.

Lemma contains_char_app (c : ascii) (ident payload : string) :
  Py.contains (String c EmptyString) (ident ++ String c payload)%string = true.
Proof.
  rewrite contains_char. unfold Py.has_char.
  induction ident as [|a ident IH]; cbn.
  - now rewrite Ascii.eqb_refl.
  - rewrite IH. apply orb_true_r.
Qed.

(** C7.  A line of the per-utterance file with a colon is split at its
    first colon only: the payload is all the text after it, further
    colons included.  Every occurrence of a word among the
    white-space-separated words of the payload adds one to the count of
    that word, so the count after the file is the number of occurrences
    in all payloads; a line without a colon changes nothing.  The line
    [utt001.wav: cat cat dog] adds 2 to the count of cat and 1 to that of
    dog. *)
Theorem read_oov_files_counts_payload_words :
  forall (oovs_found : option (list string)) (lines : list string)
         (word_frequencies : OOV.dict) (line ident payload word : string),
    OOV.dict_get (snd (OOV.read_oov_files oovs_found (Some lines))) word 0 =
      OOV.total_occurrences word lines
    /\ OOV.dict_get (OOV.read_utterance_line word_frequencies line) word 0 =
       OOV.dict_get word_frequencies word 0 + OOV.occurrences word line
    /\ (Py.contains ":" line = false ->
        OOV.read_utterance_line word_frequencies line = word_frequencies)
    /\ (Py.has_char ":" ident = false ->
        OOV.read_utterance_line word_frequencies (ident ++ String ":" payload)%string =
        fold_left OOV.count_word (Py.split_ws (Py.strip payload)) word_frequencies)
    /\ snd (OOV.read_oov_files oovs_found None) = []
    /\ OOV.dict_get
         (OOV.read_utterance_line word_frequencies "utt001.wav: cat cat dog") "cat" 0 =
       OOV.dict_get word_frequencies "cat" 0 + 2
    /\ OOV.dict_get
         (OOV.read_utterance_line word_frequencies "utt001.wav: cat cat dog") "dog" 0 =
       OOV.dict_get word_frequencies "dog" 0 + 1
    /\ snd (OOV.read_oov_files oovs_found
              (Some ["utt001.wav: cat cat dog" ++ Examples.lf])%string) =
       [("cat", 2); ("dog", 1)].
Proof.
  intros oovs_found lines d line ident payload word.
  split.
  { unfold OOV.read_oov_files. cbn [snd].
    rewrite fold_read_utterance_get. cbn. lia. }
  split; [apply read_utterance_line_get|].
  split.
  { intros H. unfold OOV.read_utterance_line. now rewrite H. }
  split.
  { intros H. rewrite read_utterance_line_payload by apply contains_char_app.
    unfold OOV.payload_words. now rewrite after_first_app. }
  split; [reflexivity|].
  split; [rewrite read_utterance_line_get; reflexivity|].
  split; [rewrite read_utterance_line_get; reflexivity|].
  reflexivity.
Qed.

End FrequencyFacts.

(** * Words taken from the log *)

Section ExtractionFacts.

Lemma take_while_all (p : ascii -> bool) (s : string) :
  Py.str_forall p (OOV.take_while p s) = true.
Proof.
  induction s as [|c s IH]; [reflexivity|]. cbn.
  destruct (p c) eqn:Hc; [|reflexivity]. cbn. now rewrite Hc.
Qed.

Lemma match_here_word (literal s w : string) (n : nat) :
  OOV.match_here literal s = Some (w, n) -> word_like w.
Proof.
  unfold OOV.match_here. destruct (OOV.match_literal literal s) as [r|]; [|discriminate].
  destruct (Py.is_empty (OOV.take_while Py.isword (Py.lstrip_by Py.isspace r))) eqn:He;
    [discriminate|].
  intros H; injection H as <- _. split; [exact He|apply take_while_all].
Qed.

Lemma findall_from_words (literal s : string) (skip : nat) (w : string) :
  In w (OOV.findall_from literal skip s) -> word_like w.
Proof.
  revert skip; induction s as [|c s IH]; intros skip Hin; [destruct Hin|].
  cbn [OOV.findall_from] in Hin. destruct skip as [|k]; [|now apply IH in Hin].
  destruct (OOV.match_here literal (String c s)) as [[w' n]|] eqn:Hm.
  - destruct Hin as [<-|Hin]; [now apply match_here_word in Hm|now apply IH in Hin].
  - now apply IH in Hin.
Qed.

Lemma extracted_words (file : option string) (w : string) :
  In w (OOV.extract_oov_words_from_log file) -> word_like w.
Proof.
  destruct file as [content|]; [|intros []].
  unfold OOV.extract_oov_words_from_log. rewrite in_flat_map.
  intros (pattern & _ & Hin). now apply findall_from_words in Hin.
Qed.

Lemma isword_char (ch : ascii) :
  Py.isword ch = true ->
  (ch =? "-")%char = false /\ (ch =? "'")%char = false /\ Py.isspace ch = false
  /\ (negb (Py.isalnum ch) && negb (ch =? "-")%char && negb (ch =? "'")%char)
     = (ch =? "_")%char.
Proof.
  destruct ch as [[] [] [] [] [] [] [] []]; vm_compute; intros H;
    first [discriminate H | repeat split].
Qed.

Lemma word_chars (w : string) :
  Py.str_forall Py.isword w = true ->
  Py.has_char "-" w = false /\ Py.has_char "'" w = false
  /\ Py.str_exists Py.isspace w = false
  /\ OOV.rule OOV.SpecialChars w = Py.has_char "_" w.
Proof.
  unfold Py.has_char. cbn [OOV.rule].
  induction w as [|ch w IH]; [repeat split|].
  cbn [Py.str_exists Py.str_forall]. intros H. apply andb_true_iff in H as [Hc Hw].
  destruct (isword_char ch Hc) as (H1 & H2 & H3 & H4).
  destruct (IH Hw) as (I1 & I2 & I3 & I4).
  rewrite (Ascii.eqb_sym "-" ch), (Ascii.eqb_sym "'" ch), (Ascii.eqb_sym "_" ch).
  rewrite H4, H1, H2, H3, I1, I2, I3, I4. repeat split.
Qed.

(** C10, as the code has it.  A word taken from the log is not empty and
    consists of word characters only, so it holds no hyphen, no
    apostrophe and no white space, and it is never tagged [hyphenated] or
    [contractions]; it is tagged [special_chars] exactly when it holds an
    underscore.  An entry written [don't] in the log is taken as [don]. *)
Theorem extracted_words_are_word_characters :
  forall (file : option string) (word : string),
    In word (OOV.extract_oov_words_from_log file) ->
    word <> EmptyString
    /\ Py.str_forall Py.isword word = true
    /\ Py.has_char "-" word = false
    /\ Py.has_char "'" word = false
    /\ Py.str_exists Py.isspace word = false
    /\ OOV.classify word OOV.Hyphenated = false
    /\ OOV.classify word OOV.Contractions = false
    /\ OOV.classify word OOV.SpecialChars = Py.has_char "_" word
    /\ OOV.extract_oov_words_from_log (Some "OOV: don't") = ["don"].
Proof.
  intros file word Hin.
  destruct (extracted_words file word Hin) as [Hne Hall].
  destruct (word_chars word Hall) as (H1 & H2 & H3 & H4).
  rewrite !classify_rule. cbn [OOV.rule] in *.
  split; [now destruct word|].
  repeat split; assumption || reflexivity.
Qed.

(** The word [don] is taken from a log that writes the entry [don't]. *)
Lemma extracted_words_are_word_characters_witness :
  "don" <> EmptyString
  /\ Py.str_forall Py.isword "don" = true
  /\ Py.has_char "-" "don" = false
  /\ Py.has_char "'" "don" = false
  /\ Py.str_exists Py.isspace "don" = false
  /\ OOV.classify "don" OOV.Hyphenated = false
  /\ OOV.classify "don" OOV.Contractions = false
  /\ OOV.classify "don" OOV.SpecialChars = Py.has_char "_" "don"
  /\ OOV.extract_oov_words_from_log (Some "OOV: don't") = ["don"].
Proof.
  apply (extracted_words_are_word_characters (Some "OOV: don't") "don").
  vm_compute. left. reflexivity.
Defined.

(** C10, as the specification has it, fails: the log entry [foo_bar] is
    taken whole, and the underscore earns it the tag [special_chars]. *)
Lemma underscore_word_is_special :
  OOV.extract_oov_words_from_log (Some "OOV: foo_bar") = ["foo_bar"]
  /\ OOV.classify "foo_bar" OOV.SpecialChars = true.
Proof. split; now vm_compute. Qed.

End ExtractionFacts.

(** * Two runs over the same files *)

Section RunFacts.

Lemma ascii_leb_trans (a b c : ascii) :
  Ascii.leb a b = true -> Ascii.leb b c = true -> Ascii.leb a c = true.
Proof.
  unfold Ascii.leb, Ascii.compare.
  destruct (N.compare_spec (N_of_ascii a) (N_of_ascii b));
  destruct (N.compare_spec (N_of_ascii b) (N_of_ascii c));
  destruct (N.compare_spec (N_of_ascii a) (N_of_ascii c));
  intros; try reflexivity; try discriminate; lia.
Qed.

Lemma string_leb_trans (a b c : string) :
  String.leb a b = true -> String.leb b c = true -> String.leb a c = true.
Proof.
  unfold String.leb. revert b c; induction a as [|x a IH]; intros [|y b] [|z c];
    cbn; try discriminate; try reflexivity.
  unfold Ascii.compare.
  destruct (N.compare_spec (N_of_ascii x) (N_of_ascii y)) as [Hxy|Hxy|Hxy];
  destruct (N.compare_spec (N_of_ascii y) (N_of_ascii z)) as [Hyz|Hyz|Hyz];
  destruct (N.compare_spec (N_of_ascii x) (N_of_ascii z)) as [Hxz|Hxz|Hxz];
  try discriminate; try reflexivity; try lia.
  intros H1 H2. apply (IH b c H1 H2).
Qed.

Lemma insert_str_comm (x y : string) (l : list string) :
  OOV.insert_str x (OOV.insert_str y l) = OOV.insert_str y (OOV.insert_str x l).
Proof.
  induction l as [|z l IH].
  - cbn. destruct (String.leb x y) eqn:Hxy, (String.leb y x) eqn:Hyx; try reflexivity.
    + now rewrite (String.leb_antisym x y Hxy Hyx).
    + destruct (String.leb_total x y); congruence.
  - cbn [OOV.insert_str].
    destruct (String.leb y z) eqn:Hyz, (String.leb x z) eqn:Hxz; cbn [OOV.insert_str].
    + rewrite Hyz, Hxz.
      destruct (String.leb x y) eqn:Hxy, (String.leb y x) eqn:Hyx; try reflexivity.
      * now rewrite (String.leb_antisym x y Hxy Hyx).
      * destruct (String.leb_total x y); congruence.
    + rewrite Hyz, Hxz.
      destruct (String.leb x y) eqn:Hxy; [|reflexivity].
      rewrite (string_leb_trans x y z Hxy Hyz) in Hxz. discriminate.
    + rewrite Hyz, Hxz.
      destruct (String.leb y x) eqn:Hyx; [|reflexivity].
      rewrite (string_leb_trans y x z Hyx Hxz) in Hyz. discriminate.
    + rewrite Hyz, Hxz. now rewrite IH.
Qed.

Lemma sorted_str_perm (l1 l2 : list string) :
  Permutation l1 l2 -> OOV.sorted_str l1 = OOV.sorted_str l2.
Proof.
  induction 1 as [|x l1 l2 _ IH|x y l|l1 l2 l3 _ IH1 _ IH2].
  - reflexivity.
  - cbn. unfold OOV.sorted_str in IH. now rewrite IH.
  - cbn. apply insert_str_comm.
  - congruence.
Qed.

Lemma mem_In (x : string) (l : list string) : OOV.mem x l = true <-> In x l.
Proof.
  unfold OOV.mem. rewrite existsb_exists. split.
  - intros (y & Hy & He). apply String.eqb_eq in He. now subst.
  - intros H. exists x. split; [exact H|apply String.eqb_refl].
Qed.

Lemma no_repeat_NoDup (l : list string) : OOV.no_repeat l = true -> NoDup l.
Proof.
  induction l as [|x l IH]; [constructor|].
  cbn. intros H. apply andb_true_iff in H as [Hx Hl].
  constructor; [|now apply IH].
  intros Hin. apply mem_In in Hin. rewrite Hin in Hx. discriminate.
Qed.

Lemma listings_perm (words l1 l2 : list string) :
  OOV.is_listing_of_set words l1 = true ->
  OOV.is_listing_of_set words l2 = true ->
  Permutation l1 l2.
Proof.
  unfold OOV.is_listing_of_set. intros H1 H2.
  apply andb_true_iff in H1 as [H1 B1]. apply andb_true_iff in H1 as [N1 A1].
  apply andb_true_iff in H2 as [H2 B2]. apply andb_true_iff in H2 as [N2 A2].
  rewrite forallb_forall in A1, B1, A2, B2.
  apply NoDup_Permutation; [now apply no_repeat_NoDup|now apply no_repeat_NoDup|].
  intros x. split; intros Hx.
  - apply mem_In, A2, mem_In, B1, Hx.
  - apply mem_In, A1, mem_In, B2, Hx.
Qed.

Lemma filter_perm_length (f : string -> bool) (l1 l2 : list string) :
  Permutation l1 l2 -> List.length (filter f l1) = List.length (filter f l2).
Proof.
  intros H. apply Permutation_length.
  induction H as [|x l1 l2 _ IH|x y l|l1 l2 l3 _ IH1 _ IH2].
  - constructor.
  - cbn. destruct (f x); [now constructor|exact IH].
  - cbn. destruct (f x), (f y); try reflexivity. apply perm_swap.
  - now rewrite IH1.
Qed.

Lemma pattern_items_blank (label : string) (ws1 ws2 : list string) :
  List.length ws1 = List.length ws2 ->
  map OOV.blank_examples (OOV.pattern_items label ws1) =
  map OOV.blank_examples (OOV.pattern_items label ws2).
Proof.
  destruct ws1, ws2; cbn; intros H; try discriminate; [reflexivity|].
  injection H as ->. reflexivity.
Qed.

Lemma print_oov_report_perm (l1 l2 : list string) (d : OOV.dict) :
  Permutation l1 l2 ->
  map OOV.blank_examples (OOV.print_oov_report l1 d) =
  map OOV.blank_examples (OOV.print_oov_report l2 d).
Proof.
  intros Hp.
  pose proof (Permutation_length Hp) as Hlen.
  pose proof (sorted_str_perm l1 l2 Hp) as Hsort.
  assert (Hpat : forall c,
    List.length (OOV.bucket c (OOV.analyze_oov_patterns l1)) =
    List.length (OOV.bucket c (OOV.analyze_oov_patterns l2))).
  { intros c. rewrite !analyze_bucket. now apply filter_perm_length. }
  destruct l1 as [|x1 l1], l2 as [|x2 l2]; try discriminate Hlen.
  - reflexivity.
  - unfold OOV.print_oov_report.
    rewrite Hsort, Hlen. rewrite !map_app. do 3 f_equal.
    apply (f_equal2 (@app _)); [apply (pattern_items_blank _ _ _ (Hpat OOV.Numbers))|].
    apply (f_equal2 (@app _)); [apply (pattern_items_blank _ _ _ (Hpat OOV.Contractions))|].
    apply (f_equal2 (@app _)); [apply (pattern_items_blank _ _ _ (Hpat OOV.Hyphenated))|].
    apply (pattern_items_blank _ _ _ (Hpat OOV.Uppercase)).
Qed.

(** C5, as the code has it.  Two runs over the same files report the same
    values except, at most, the example words of the pattern summary:
    those follow the order in which the set that removes the duplicates
    is iterated, which the files do not fix.  When the log gives no word
    no set is built and the two reports are the same throughout, and so
    are the reports of two runs that met the same order. *)
Theorem main_reports_agree_up_to_examples :
  forall (inp : OOV.inputs) (order1 order2 : list string)
         (report1 report2 : list OOV.report_item),
    OOV.main inp order1 = Some report1 ->
    OOV.main inp order2 = Some report2 ->
    map OOV.blank_examples report1 = map OOV.blank_examples report2
    /\ (OOV.log_oovs inp = [] -> report1 = report2)
    /\ (order1 = order2 -> report1 = report2).
Proof.
  intros inp order1 order2 report1 report2 H1 H2.
  split; [|split].
  - unfold OOV.main in H1, H2.
    destruct (OOV.read_oov_files (OOV.oovs_found inp) (OOV.utterance_oovs inp))
      as [oov_words word_frequencies].
    destruct (OOV.validation_log inp) as [log_file|]; [|congruence].
    destruct (OOV.extract_oov_words_from_log log_file) as [|w ws]; [congruence|].
    destruct (OOV.is_listing_of_set (oov_words ++ w :: ws) order1) eqn:L1; [|discriminate].
    destruct (OOV.is_listing_of_set (oov_words ++ w :: ws) order2) eqn:L2; [|discriminate].
    injection H1 as <-. injection H2 as <-.
    rewrite !map_app. f_equal.
    apply print_oov_report_perm. now apply (listings_perm _ _ _ L1 L2).
  - unfold OOV.log_oovs, OOV.main in *. intros Hlog.
    destruct (OOV.read_oov_files (OOV.oovs_found inp) (OOV.utterance_oovs inp))
      as [oov_words word_frequencies].
    destruct (OOV.validation_log inp) as [log_file|]; [|congruence].
    rewrite Hlog in H1, H2. congruence.
  - intros ->. congruence.
Qed.

(** The two runs over the log with a1 and b2 are runs of [main]. *)
Lemma main_reports_agree_up_to_examples_witness :
  map OOV.blank_examples Examples.report_a1_b2 =
  map OOV.blank_examples Examples.report_b2_a1
  /\ (OOV.log_oovs Examples.two_log_words = [] ->
      Examples.report_a1_b2 = Examples.report_b2_a1)
  /\ (["a1"; "b2"] = ["b2"; "a1"] -> Examples.report_a1_b2 = Examples.report_b2_a1).
Proof.
  apply (main_reports_agree_up_to_examples Examples.two_log_words
           ["a1"; "b2"] ["b2"; "a1"]); reflexivity.
Defined.

(** C5, as the specification has it, fails: a run that takes the words a1
    and b2 from the log reports the examples a1, b2 when the set is
    iterated in that order and b2, a1 when it is iterated in the other,
    over the same files. *)
Lemma set_order_changes_pattern_examples :
  OOV.main Examples.two_log_words ["a1"; "b2"] = Some Examples.report_a1_b2
  /\ OOV.main Examples.two_log_words ["b2"; "a1"] = Some Examples.report_b2_a1
  /\ Examples.report_a1_b2 <> Examples.report_b2_a1.
Proof.
  split; [reflexivity|]. split; [reflexivity|]. discriminate.
Qed.

End RunFacts.

(** * Further facts about the validation log *)

Section ValidationLogFacts.

Lemma startswith_map (f : ascii -> ascii) (p s : string) :
  Py.startswith p s = true -> Py.startswith (Py.str_map f p) (Py.str_map f s) = true.
Proof.
  revert s; induction p as [|a p IH]; intros [|b s]; cbn; try easy.
  intros H. apply andb_true_iff in H as [Hab Hs].
  apply Ascii.eqb_eq in Hab; subst b. now rewrite Ascii.eqb_refl, IH.
Qed.

Lemma contains_map (f : ascii -> ascii) (p s : string) :
  Py.contains p s = true -> Py.contains (Py.str_map f p) (Py.str_map f s) = true.
Proof.
  induction s as [|b s IH]; intros H.
  - cbn in H. rewrite orb_false_r in H.
    apply (startswith_map f) in H. cbn in *. now rewrite H.
  - cbn [Py.contains] in H. apply orb_true_iff in H as [H|H].
    + apply (startswith_map f) in H. cbn [Py.str_map Py.contains] in *. now rewrite H.
    + cbn [Py.str_map Py.contains]. rewrite (IH H). apply orb_true_r.
Qed.

Lemma count_oov_test (line : string) :
  Py.contains "OOV" line || Py.contains "oov" (Py.lower line) = Words.mentions_oov line.
Proof.
  unfold Words.mentions_oov.
  destruct (Py.contains "OOV" line) eqn:H; [|reflexivity].
  apply (contains_map Py.lower_char) in H. cbn [orb]. symmetry. exact H.
Qed.

Lemma scan_log_line_oov_count (st : Metrics.validation_stats) (line : string) :
  Metrics.oov_count (Metrics.scan_log_line st line) =
  Metrics.oov_count st + (if Words.mentions_oov line then 1 else 0).
Proof.
  unfold Metrics.scan_log_line, Metrics.count_error, Metrics.collect_oov_words,
    Metrics.count_oov.
  rewrite count_oov_test.
  destruct (Py.contains "error" (Py.lower line));
    [destruct (Metrics.any_phrase_in Metrics.no_error_phrases (Py.lower line));
     [|destruct (Metrics.any_phrase_in Metrics.error_phrases (Py.lower line))]|];
  destruct (Py.contains "not found in dictionary" (Py.lower line));
  destruct (Words.mentions_oov line); cbn; lia.
Qed.

Lemma scan_log_line_total_utterances (st : Metrics.validation_stats) (line : string) :
  Metrics.total_utterances (Metrics.scan_log_line st line) = Metrics.total_utterances st.
Proof.
  unfold Metrics.scan_log_line, Metrics.count_error, Metrics.collect_oov_words,
    Metrics.count_oov.
  destruct (Py.contains "error" (Py.lower line));
    [destruct (Metrics.any_phrase_in Metrics.no_error_phrases (Py.lower line));
     [|destruct (Metrics.any_phrase_in Metrics.error_phrases (Py.lower line))]|];
  destruct (Py.contains "not found in dictionary" (Py.lower line));
  destruct (Py.contains "OOV" line || Py.contains "oov" (Py.lower line)); reflexivity.
Qed.

Lemma fold_scan_log_oov_count (lines : list string) (st : Metrics.validation_stats) :
  Metrics.oov_count (fold_left Metrics.scan_log_line lines st) =
  Metrics.oov_count st + Z.of_nat (List.length (filter Words.mentions_oov lines))
  /\ Metrics.total_utterances (fold_left Metrics.scan_log_line lines st) =
     Metrics.total_utterances st.
Proof.
  revert st; induction lines as [|line lines IH]; intros st.
  - cbn. split; lia.
  - cbn [fold_left filter]. destruct (IH (Metrics.scan_log_line st line)) as [-> ->].
    rewrite scan_log_line_oov_count, scan_log_line_total_utterances.
    destruct (Words.mentions_oov line); cbn [List.length]; split; lia.
Qed.

Lemma filter_length_le {A : Type} (f : A -> bool) (l : list A) :
  (List.length (filter f l) <= List.length l)%nat.
Proof.
  induction l as [|x l IH]; [apply le_n|]. cbn. destruct (f x); cbn; lia.
Qed.

(** A log is scanned line by line.  Its OOV count is the number of lines
    that hold the letters oov in any case (the test for the capital form
    adds nothing to the lower-case one); neither that count nor the error
    count exceeds the number of lines; the count of utterances is never
    set and stays 0; and a log that is not there gives counts of 0 and
    no word. *)
Theorem validation_counts_are_line_counts :
  forall file : option string,
    Metrics.oov_count (Metrics.parse_validation_log file) =
      Z.of_nat (List.length (filter Words.mentions_oov (Words.log_lines file)))
    /\ Metrics.oov_count (Metrics.parse_validation_log file)
       <= Z.of_nat (List.length (Words.log_lines file))
    /\ 0 <= Metrics.error_count (Metrics.parse_validation_log file)
         <= Z.of_nat (List.length (Words.log_lines file))
    /\ Metrics.total_utterances (Metrics.parse_validation_log file) = 0
    /\ Metrics.parse_validation_log None = Metrics.mk_validation_stats 0 [] 0 0.
Proof.
  intros file. destruct file as [content|].
  - unfold Metrics.parse_validation_log, Words.log_lines.
    destruct (fold_scan_log_oov_count (Py.splitlines content)
                Metrics.initial_validation_stats) as [Ho Hu].
    rewrite Ho, Hu, fold_scan_log_error_count. cbn [Metrics.oov_count
      Metrics.total_utterances Metrics.error_count Metrics.initial_validation_stats].
    pose proof (filter_length_le Words.mentions_oov (Py.splitlines content)).
    pose proof (filter_length_le Metrics.counts_as_error (Py.splitlines content)).
    repeat split; lia.
  - cbn. repeat split; lia.
Qed.

End ValidationLogFacts.

Section MissingWordFacts.

Lemma set_add_In (x w : string) (s : list string) :
  In w (Metrics.set_add x s) <-> w = x \/ In w s.
Proof.
  unfold Metrics.set_add. destruct (existsb (String.eqb x) s) eqn:H.
  - split; [tauto|]. intros [->|Hw]; [|exact Hw].
    apply existsb_exists in H as (y & Hy & He).
    apply String.eqb_eq in He. now subst.
  - rewrite in_app_iff. cbn. split; intros [?|?]; auto; try tauto.
    destruct H0 as [<-|[]]. now left.
Qed.

Lemma set_add_NoDup (x : string) (s : list string) :
  NoDup s -> NoDup (Metrics.set_add x s).
Proof.
  intros Hs. unfold Metrics.set_add. destruct (existsb (String.eqb x) s) eqn:H; [exact Hs|].
  apply NoDup_app; [exact Hs|repeat constructor; intros []|].
  intros y Hy [Hxy|[]]. subst y.
  assert (existsb (String.eqb x) s = true); [|congruence].
  apply existsb_exists. exists x. split; [exact Hy|apply String.eqb_refl].
Qed.

Lemma add_words_before_not_In (parts : list string) (previous : option string)
      (words : list string) (w : string) :
  In w (Metrics.add_words_before_not previous parts words) <->
  In w words
  \/ exists before after negation,
       previous_part previous ++ parts = before ++ w :: negation :: after
       /\ Py.lower negation = "not".
Proof.
  revert previous words; induction parts as [|part rest IH]; intros previous words.
  - cbn [Metrics.add_words_before_not]. split; [tauto|].
    intros [H|(before & after & negation & Heq & _)]; [exact H|].
    exfalso. apply (f_equal (@List.length string)) in Heq.
    rewrite app_nil_r, length_app in Heq. cbn in Heq.
    destruct previous; cbn in Heq; lia.
  - cbn [Metrics.add_words_before_not]. rewrite IH. clear IH.
    destruct previous as [p|]; cbn [previous_part app].
    + split.
      * intros [Hin|(before & after & negation & Heq & Hnot)].
        -- destruct (Py.lower part =? "not")%string eqn:Hp.
           ++ apply set_add_In in Hin as [->|Hin]; [|now left].
              right. exists [], rest, part. split; [reflexivity|].
              now apply String.eqb_eq.
           ++ now left.
        -- right. exists (p :: before), after, negation. cbn. now rewrite Heq.
      * intros [Hin|(before & after & negation & Heq & Hnot)].
        -- left. destruct (Py.lower part =? "not")%string; [|exact Hin].
           apply set_add_In. now right.
        -- destruct before as [|b before]; cbn in Heq.
           ++ injection Heq as <- <- <-. left.
              apply String.eqb_eq in Hnot. rewrite Hnot. apply set_add_In. now left.
           ++ injection Heq as <- Heq. right. now exists before, after, negation.
    + reflexivity.
Qed.

Lemma add_words_before_not_NoDup (parts : list string) (previous : option string)
      (words : list string) :
  NoDup words -> NoDup (Metrics.add_words_before_not previous parts words).
Proof.
  revert previous words; induction parts as [|part rest IH]; intros previous words H.
  - exact H.
  - cbn [Metrics.add_words_before_not]. apply IH.
    destruct previous as [p|]; [|exact H].
    destruct (Py.lower part =? "not")%string; [now apply set_add_NoDup|exact H].
Qed.

Lemma scan_log_line_oov_words (st : Metrics.validation_stats) (line : string) :
  Metrics.oov_words (Metrics.scan_log_line st line) =
  if Words.reports_missing line
  then Metrics.add_words_before_not None (Py.split_ws line) (Metrics.oov_words st)
  else Metrics.oov_words st.
Proof.
  unfold Metrics.scan_log_line, Metrics.count_error, Metrics.collect_oov_words,
    Metrics.count_oov, Words.reports_missing.
  destruct (Py.contains "error" (Py.lower line));
    [destruct (Metrics.any_phrase_in Metrics.no_error_phrases (Py.lower line));
     [|destruct (Metrics.any_phrase_in Metrics.error_phrases (Py.lower line))]|];
  destruct (Py.contains "not found in dictionary" (Py.lower line));
  destruct (Py.contains "OOV" line || Py.contains "oov" (Py.lower line)); reflexivity.
Qed.

Lemma fold_scan_log_oov_words (lines : list string) (st : Metrics.validation_stats)
      (w : string) :
  (NoDup (Metrics.oov_words st) ->
   NoDup (Metrics.oov_words (fold_left Metrics.scan_log_line lines st)))
  /\ (In w (Metrics.oov_words (fold_left Metrics.scan_log_line lines st)) <->
      In w (Metrics.oov_words st)
      \/ exists line, In line lines /\ Words.reports_missing line = true
                      /\ Words.stands_before_not w line).
Proof.
  revert st; induction lines as [|line lines IH]; intros st.
  - cbn. split; [tauto|]. split; [tauto|]. intros [H|(l & [] & _)]. exact H.
  - cbn [fold_left]. destruct (IH (Metrics.scan_log_line st line)) as [IHn IHi].
    rewrite scan_log_line_oov_words in IHn, IHi. split.
    + intros Hn. apply IHn.
      destruct (Words.reports_missing line); [now apply add_words_before_not_NoDup|exact Hn].
    + rewrite IHi. clear IHn IHi. destruct (Words.reports_missing line) eqn:Hm.
      * rewrite add_words_before_not_In. cbn [previous_part app]. split.
        -- intros [[H|H]|(l & Hl & Hr & Hs)].
           ++ now left.
           ++ right. exists line. split; [now left|]. split; [exact Hm|exact H].
           ++ right. exists l. split; [now right|]. now split.
        -- intros [H|(l & [<-|Hl] & Hr & Hs)].
           ++ left. now left.
           ++ left. right. exact Hs.
           ++ right. exists l. now repeat split.
      * split.
        -- intros [H|(l & Hl & Hr & Hs)]; [now left|].
           right. exists l. split; [now right|]. now split.
        -- intros [H|(l & [<-|Hl] & Hr & Hs)]; [now left|congruence|].
           right. exists l. now repeat split.
Qed.

(** The words that the log scan collects are exactly the parts that stand
    directly before a [not] on a line holding [not found in dictionary],
    both compared without case; each is collected once, is not empty and
    holds no white space. *)
Theorem oov_words_stand_before_not :
  forall (file : option string) (word : string),
    NoDup (Metrics.oov_words (Metrics.parse_validation_log file))
    /\ (In word (Metrics.oov_words (Metrics.parse_validation_log file)) <->
        exists line,
          In line (Words.log_lines file)
          /\ Words.reports_missing line = true
          /\ Words.stands_before_not word line)
    /\ (In word (Metrics.oov_words (Metrics.parse_validation_log file)) ->
        Py.is_empty word = false /\ Py.str_exists Py.isspace word = false).
Proof.
  intros file word.
  assert (H : NoDup (Metrics.oov_words (Metrics.parse_validation_log file))
    /\ (In word (Metrics.oov_words (Metrics.parse_validation_log file)) <->
        exists line,
          In line (Words.log_lines file)
          /\ Words.reports_missing line = true
          /\ Words.stands_before_not word line)).
  { destruct file as [content|].
    - unfold Metrics.parse_validation_log, Words.log_lines.
      destruct (fold_scan_log_oov_words (Py.splitlines content)
                  Metrics.initial_validation_stats word) as [Hn Hi].
      split; [apply Hn; constructor|]. rewrite Hi. cbn. tauto.
    - cbn. split; [constructor|]. split; [tauto|]. intros (l & [] & _). }
  destruct H as [Hn Hi]. split; [exact Hn|]. split; [exact Hi|].
  intros Hin. apply Hi in Hin as (line & _ & _ & before & after & negation & Hs & _).
  apply (split_ws_clean line). rewrite Hs. apply in_elt.
Qed.

End MissingWordFacts.

(** * Full and empty coverage *)

Section FullCoverageFacts.

Lemma div_eucl_exact (p : positive) (k : Z) :
  0 <= k -> Z.div_eucl (Z.shiftl (Zpos p) k) (Zpos p) = (2 ^ k, 0).
Proof.
  intros Hk. rewrite Z.shiftl_mul_pow2 by exact Hk.
  pose proof (Z.div_mul (2 ^ k) (Zpos p) ltac:(lia)) as Hq.
  pose proof (Z.mod_mul (2 ^ k) (Zpos p) ltac:(lia)) as Hr.
  rewrite (Z.mul_comm (Zpos p)).
  unfold Z.div, Z.modulo in Hq, Hr.
  destruct (Z.div_eucl (2 ^ k * Zpos p) (Zpos p)) as [q r]. cbn in Hq, Hr. now subst.
Qed.

Lemma new_location_exact (n : Z) : new_location n 0 = loc_Exact.
Proof. unfold new_location. now destruct (Z.even n). Qed.

Lemma truediv_same (p : positive) :
  PyFloat.int_truediv (Zpos p) (Zpos p) = PyFloat.Ok (PyFloat.of_int 1).
Proof.
  unfold PyFloat.int_truediv. cbn [Z.eqb PyFloat.exact SFdiv xorb].
  unfold SFdiv_core_binary.
  replace (Zdigits2 (Zpos p) + 0 - (Zdigits2 (Zpos p) + 0)) with 0 by lia.
  change (Z.min (fexp PyFloat.prec PyFloat.emax 0) (0 - 0)) with (-53).
  change (0 - 0 - -53) with 53.
  cbv iota.
  change (IntDef.Z.div_eucl (IntDef.Z.shiftl (Zpos p) 53) (Zpos p))
    with (Z.div_eucl (Z.shiftl (Zpos p) 53) (Zpos p)).
  rewrite (div_eucl_exact p 53) by lia. rewrite new_location_exact.
  reflexivity.
Qed.

(** When every audio file has its annotation file and there is at least
    one, the coverage is exactly 100.0, whatever the count; when there is
    an audio file and no annotation file, it is exactly 0.0. *)
Theorem full_coverage_is_exactly_100 :
  forall wav_count : Z,
    0 < wav_count ->
    Metrics.calculate_coverage wav_count wav_count = PyFloat.Ok Metrics.float_100
    /\ Metrics.calculate_coverage wav_count 0 = PyFloat.Ok PyFloat.zero.
Proof.
  intros w Hw. destruct w as [|p|p]; try lia.
  unfold Metrics.calculate_coverage. cbn [Z.eqb]. split.
  - rewrite truediv_same. reflexivity.
  - reflexivity.
Qed.

(** The hypothesis holds for three audio files. *)
Lemma full_coverage_is_exactly_100_witness :
  Metrics.calculate_coverage 3 3 = PyFloat.Ok Metrics.float_100
  /\ Metrics.calculate_coverage 3 0 = PyFloat.Ok PyFloat.zero.
Proof.
  apply (full_coverage_is_exactly_100 3). lia.
Defined.

End FullCoverageFacts.

(** * Further facts about the words taken from the log *)

Section LogWordFacts.

Lemma startswith_contains (p s : string) :
  Py.startswith p s = true -> Py.contains p s = true.
Proof. intros H. destruct s; cbn [Py.contains]; now rewrite H. Qed.

Lemma contains_tail (p : string) (c : ascii) (s : string) :
  Py.contains p s = true -> Py.contains p (String c s) = true.
Proof. intros H. cbn [Py.contains]. rewrite H. apply orb_true_r. Qed.

Lemma lower_char_colon (b : ascii) :
  (Py.lower_char ":" =? Py.lower_char b)%char = true -> b = ":"%char.
Proof.
  destruct b as [[] [] [] [] [] [] [] []]; vm_compute; intros H;
    first [reflexivity | discriminate H].
Qed.

Lemma match_literal_colon (literal s r : string) :
  OOV.match_literal (literal ++ ":")%string s = Some r ->
  exists before, s = (before ++ ":" ++ r)%string.
Proof.
  revert s; induction literal as [|a literal IH]; intros [|b s];
    cbn [OOV.match_literal String.append]; try discriminate.
  - destruct (Py.lower_char ":" =? Py.lower_char b)%char eqn:E; [|discriminate].
    apply lower_char_colon in E. subst b.
    intros H; injection H as <-. now exists EmptyString.
  - destruct (Py.lower_char a =? Py.lower_char b)%char; [|discriminate].
    intros H. destruct (IH s H) as [before ->]. now exists (String b before).
Qed.

Lemma patterns_end_with_colon (pattern : string) :
  In pattern OOV.patterns -> exists literal, pattern = (literal ++ ":")%string.
Proof.
  intros [<-|[<-|[<-|[<-|[]]]]].
  - now exists "OOV".
  - now exists "out of vocabulary".
  - now exists "not found in dictionary".
  - now exists "unknown word".
Qed.

Lemma lstrip_spaces (s : string) :
  exists spaces,
    s = (spaces ++ Py.lstrip_by Py.isspace s)%string
    /\ Py.str_forall Py.isspace spaces = true.
Proof.
  induction s as [|c s IH]; [now exists EmptyString|].
  cbn. destruct (Py.isspace c) eqn:E; [|now exists EmptyString].
  destruct IH as (spaces & IH & Hsp). exists (String c spaces). cbn.
  rewrite <- IH, E, Hsp. now split.
Qed.

Lemma take_while_longest (p : ascii -> bool) (s : string) :
  exists after,
    s = (OOV.take_while p s ++ after)%string
    /\ match after with String c _ => p c | EmptyString => false end = false.
Proof.
  induction s as [|c s IH]; [now exists EmptyString|].
  cbn. destruct (p c) eqn:E.
  - destruct IH as (after & IH & Ha). exists after. cbn. now rewrite <- IH.
  - exists (String c s). now split.
Qed.

Lemma match_here_follows_a_colon (literal s w : string) (n : nat) :
  OOV.match_here (literal ++ ":")%string s = Some (w, n) -> follows_a_colon w s.
Proof.
  unfold OOV.match_here.
  destruct (OOV.match_literal _ s) as [r|] eqn:Hm; [|discriminate].
  destruct (Py.is_empty _); [discriminate|]. intros H; injection H as <- _.
  destruct (match_literal_colon _ _ _ Hm) as [before ->].
  destruct (lstrip_spaces r) as (spaces & Hr & Hsp).
  destruct (take_while_longest Py.isword (Py.lstrip_by Py.isspace r)) as (after & Hw & Ha).
  exists before, spaces, after. split; [|now split].
  now rewrite <- Hw, <- Hr.
Qed.

Lemma follows_a_colon_later (w s : string) (c : ascii) :
  follows_a_colon w s -> follows_a_colon w (String c s).
Proof.
  intros (before & spaces & after & -> & H). now exists (String c before), spaces, after.
Qed.

Lemma findall_from_follows_a_colon (literal s : string) (skip : nat) (w : string) :
  In w (OOV.findall_from (literal ++ ":")%string skip s) -> follows_a_colon w s.
Proof.
  revert skip; induction s as [|c s IH]; intros skip Hin; [destruct Hin|].
  cbn [OOV.findall_from] in Hin.
  destruct skip as [|k]; [|now apply follows_a_colon_later, (IH k)].
  destruct (OOV.match_here (literal ++ ":")%string (String c s)) as [[w' n]|] eqn:Hm.
  - destruct Hin as [<-|Hin]; [now apply match_here_follows_a_colon in Hm|].
    now apply follows_a_colon_later, (IH (Nat.pred n)).
  - now apply follows_a_colon_later, (IH 0%nat).
Qed.

Lemma has_char_append (c : ascii) (a b : string) :
  Py.has_char c (a ++ b)%string = Py.has_char c a || Py.has_char c b.
Proof.
  unfold Py.has_char. induction a as [|x a IH]; [reflexivity|].
  cbn. now rewrite IH, orb_assoc.
Qed.

Lemma extracted_follows_a_colon (content word : string) :
  In word (OOV.extract_oov_words_from_log (Some content)) ->
  follows_a_colon word content.
Proof.
  unfold OOV.extract_oov_words_from_log.
  rewrite in_flat_map. intros (pattern & Hp & Hin).
  destruct (patterns_end_with_colon pattern Hp) as [literal ->].
  now apply findall_from_follows_a_colon in Hin.
Qed.

(** Every word taken from the log stands there after a colon, with
    nothing but white space between the two, and is followed by no word
    character: the four patterns end in a colon, and the group takes the
    longest run of word characters.  So a log without a colon yields no
    word, and neither does a log that is not there. *)
Theorem extracted_word_follows_a_colon :
  forall (content word : string),
    (In word (OOV.extract_oov_words_from_log (Some content)) ->
     follows_a_colon word content)
    /\ (Py.has_char ":" content = false ->
        OOV.extract_oov_words_from_log (Some content) = [])
    /\ OOV.extract_oov_words_from_log None = [].
Proof.
  intros content word. split; [apply extracted_follows_a_colon|].
  split; [|reflexivity].
  intros Hno.
  destruct (OOV.extract_oov_words_from_log (Some content)) as [|w ws] eqn:E;
    [reflexivity|].
  assert (Hin : In w (OOV.extract_oov_words_from_log (Some content)))
    by (rewrite E; now left).
  destruct (extracted_follows_a_colon content w Hin) as (before & spaces & after & -> & _).
  rewrite has_char_append in Hno. cbn in Hno.
  rewrite orb_true_r in Hno. discriminate Hno.
Qed.

Lemma match_literal_suffix (literal s r : string) :
  OOV.match_literal literal s = Some r -> exists before, s = (before ++ r)%string.
Proof.
  revert s; induction literal as [|a literal IH]; intros s H.
  - cbn in H. injection H as <-. now exists EmptyString.
  - destruct s as [|b s]; [discriminate|]. cbn in H.
    destruct (Py.lower_char a =? Py.lower_char b)%char; [|discriminate].
    destruct (IH s H) as [before ->]. now exists (String b before).
Qed.

Lemma lstrip_suffix (p : ascii -> bool) (s : string) :
  exists before, s = (before ++ Py.lstrip_by p s)%string.
Proof.
  induction s as [|c s IH]; [now exists EmptyString|].
  cbn. destruct (p c); [|now exists EmptyString].
  destruct IH as [before IH]. exists (String c before). cbn. now rewrite <- IH.
Qed.

Lemma take_while_prefix (p : ascii -> bool) (s : string) :
  Py.startswith (OOV.take_while p s) s = true.
Proof.
  induction s as [|c s IH]; [reflexivity|]. cbn.
  destruct (p c); [|reflexivity]. cbn. now rewrite Ascii.eqb_refl.
Qed.

Lemma contains_after (p before s : string) :
  Py.contains p s = true -> Py.contains p (before ++ s)%string = true.
Proof.
  induction before as [|c before IH]; intros H; [exact H|].
  cbn [String.append]. now apply contains_tail, IH.
Qed.

Lemma match_here_contains (literal s w : string) (n : nat) :
  OOV.match_here literal s = Some (w, n) -> Py.contains w s = true.
Proof.
  unfold OOV.match_here.
  destruct (OOV.match_literal literal s) as [r|] eqn:Hm; [|discriminate].
  destruct (Py.is_empty _); [discriminate|]. intros H; injection H as <- _.
  destruct (match_literal_suffix _ _ _ Hm) as [b1 ->].
  destruct (lstrip_suffix Py.isspace r) as [b2 Hr].
  rewrite Hr at 2. apply contains_after, contains_after, startswith_contains.
  apply take_while_prefix.
Qed.

Lemma findall_from_contains (literal s : string) (skip : nat) (w : string) :
  In w (OOV.findall_from literal skip s) -> Py.contains w s = true.
Proof.
  revert skip; induction s as [|c s IH]; intros skip Hin; [destruct Hin|].
  cbn [OOV.findall_from] in Hin.
  destruct skip as [|k]; [|now apply contains_tail, (IH k)].
  destruct (OOV.match_here literal (String c s)) as [[w' n]|] eqn:Hm.
  - destruct Hin as [<-|Hin]; [now apply match_here_contains in Hm|].
    now apply contains_tail, (IH (Nat.pred n)).
  - now apply contains_tail, (IH 0%nat).
Qed.

(** Every word taken from the log stands in the log as it is: the
    extraction copies text and never builds a word of its own. *)
Theorem extracted_word_stands_in_log :
  forall (content word : string),
    In word (OOV.extract_oov_words_from_log (Some content)) ->
    Py.contains word content = true.
Proof.
  intros content word. unfold OOV.extract_oov_words_from_log.
  rewrite in_flat_map. intros (pattern & _ & Hin).
  now apply findall_from_contains in Hin.
Qed.

(** The hypothesis holds for the word of a log with one entry. *)
Lemma extracted_word_stands_in_log_witness :
  Py.contains "zyzzyva" "unknown word: zyzzyva" = true.
Proof.
  apply (extracted_word_stands_in_log "unknown word: zyzzyva" "zyzzyva").
  vm_compute. left. reflexivity.
Defined.

End LogWordFacts.

(** * Further facts about the files of the corpus directory *)

Section FoundWordFacts.

Lemma fold_read_found_line (lines acc : list string) :
  fold_left OOV.read_found_line lines acc =
  acc ++ filter Words.nonempty (map Py.strip lines).
Proof.
  revert acc; induction lines as [|line lines IH]; intros acc.
  - cbn. now rewrite app_nil_r.
  - cbn [fold_left map filter]. rewrite IH. unfold OOV.read_found_line, Words.nonempty.
    destruct (Py.is_empty (Py.strip line)); cbn [negb]; [reflexivity|].
    now rewrite <- app_assoc.
Qed.

Lemma lstrip_head (p : ascii -> bool) (s : string) :
  match Py.lstrip_by p s with String c _ => p c = false | EmptyString => True end.
Proof.
  induction s as [|c s IH]; [exact I|]. cbn. destruct (p c) eqn:Hc; [exact IH|exact Hc].
Qed.

Lemma rstrip_head (p : ascii -> bool) (s : string) :
  match s with String c _ => p c = false | EmptyString => True end ->
  match Py.rstrip_by p s with String c _ => p c = false | EmptyString => True end.
Proof.
  destruct s as [|c s]; [intros _; exact I|]. cbn. intros Hc.
  rewrite Hc, andb_false_r. exact Hc.
Qed.

Lemma rstrip_last (s : string) :
  Words.ends_with_space (Py.rstrip_by Py.isspace s) = false.
Proof.
  induction s as [|c s IH]; [reflexivity|]. cbn [Py.rstrip_by].
  destruct (Py.rstrip_by Py.isspace s) as [|d r] eqn:Hr.
  - cbn [Py.is_empty andb]. destruct (Py.isspace c) eqn:Hc; [reflexivity|].
    cbn. exact Hc.
  - cbn [Py.is_empty andb]. exact IH.
Qed.

Lemma strip_ends (s : string) :
  Words.starts_with_space (Py.strip s) = false
  /\ Words.ends_with_space (Py.strip s) = false.
Proof.
  unfold Py.strip, Py.strip_by. split; [|apply rstrip_last].
  pose proof (rstrip_head Py.isspace _ (lstrip_head Py.isspace s)) as H.
  unfold Words.starts_with_space.
  now destruct (Py.rstrip_by Py.isspace (Py.lstrip_by Py.isspace s)).
Qed.

(** The word list read from the words file holds one entry for every line
    that is not blank, in the order of the file and with repeated words
    kept: each entry is its line without the white space around it, so it
    is not empty and neither starts nor ends with white space.  The list is
    empty when the file is not there, and neither file has a part in what
    is read from the other. *)
Theorem found_words_are_stripped_lines :
  forall (oovs_found utterance_oovs : option (list string)) (word : string),
    fst (OOV.read_oov_files oovs_found utterance_oovs) =
      match oovs_found with
      | Some lines => filter Words.nonempty (map Py.strip lines)
      | None => []
      end
    /\ (In word (fst (OOV.read_oov_files oovs_found utterance_oovs)) ->
        Py.is_empty word = false
        /\ Words.starts_with_space word = false
        /\ Words.ends_with_space word = false)
    /\ fst (OOV.read_oov_files oovs_found utterance_oovs) =
       fst (OOV.read_oov_files oovs_found None)
    /\ snd (OOV.read_oov_files oovs_found utterance_oovs) =
       snd (OOV.read_oov_files None utterance_oovs).
Proof.
  intros found utterance word.
  assert (H : fst (OOV.read_oov_files found utterance) =
              match found with
              | Some lines => filter Words.nonempty (map Py.strip lines)
              | None => []
              end).
  { unfold OOV.read_oov_files. cbn [fst].
    destruct found as [lines|]; [|reflexivity]. now rewrite fold_read_found_line. }
  split; [exact H|]. split; [|split; reflexivity].
  rewrite H. destruct found as [lines|]; [|intros []].
  rewrite filter_In, in_map_iff. intros [(line & <- & _) Hne].
  unfold Words.nonempty in Hne. apply negb_true_iff in Hne.
  split; [exact Hne|apply strip_ends].
Qed.

End FoundWordFacts.

Section FrequencyMapFacts.

Lemma dict_set_In (d : OOV.dict) (key k : string) (value v : Z) :
  In (k, v) (OOV.dict_set d key value) -> (k = key /\ v = value) \/ In (k, v) d.
Proof.
  induction d as [|[k0 v0] d IH]; cbn [OOV.dict_set].
  - intros [H|[]]. injection H as <- <-. now left.
  - destruct (k0 =? key)%string eqn:Hk.
    + apply String.eqb_eq in Hk. subst k0. intros [H|H].
      * injection H as <- <-. now left.
      * right. now right.
    + intros [H|H]; [right; now left|].
      destruct (IH H) as [?|?]; [now left|right; now right].
Qed.

Lemma dict_get_In (d : OOV.dict) (k : string) (v : Z) :
  NoDup (OOV.keys d) -> In (k, v) d -> OOV.dict_get d k 0 = v.
Proof.
  unfold OOV.keys. induction d as [|[k0 v0] d IH]; intros Hn Hin; [destruct Hin|].
  cbn in Hn. inversion Hn as [|? ? Hnot Hn']; subst. cbn [OOV.dict_get].
  destruct Hin as [H|H].
  - injection H as -> ->. now rewrite String.eqb_refl.
  - destruct (k0 =? k)%string eqn:Hk; [|now apply IH].
    apply String.eqb_eq in Hk. subst k0. exfalso. apply Hnot.
    apply in_map_iff. now exists (k, v).
Qed.

Lemma dict_get_absent (d : OOV.dict) (k : string) :
  ~ In k (OOV.keys d) -> OOV.dict_get d k 0 = 0.
Proof.
  unfold OOV.keys. induction d as [|[k0 v0] d IH]; intros H; [reflexivity|].
  cbn in H |- *. destruct (k0 =? k)%string eqn:Hk.
  - apply String.eqb_eq in Hk. tauto.
  - apply IH. tauto.
Qed.

Lemma dict_get_present (d : OOV.dict) (k : string) :
  In k (OOV.keys d) -> In (k, OOV.dict_get d k 0) d.
Proof.
  unfold OOV.keys. induction d as [|[k0 v0] d IH]; intros H; [destruct H|].
  cbn [OOV.dict_get]. destruct (k0 =? k)%string eqn:Hk.
  - apply String.eqb_eq in Hk. subst. now left.
  - right. apply IH. destruct H as [H|H]; [|exact H].
    cbn in H. subst. now rewrite String.eqb_refl in Hk.
Qed.

Lemma dict_set_NoDup (d : OOV.dict) (key : string) (value : Z) :
  NoDup (OOV.keys d) -> NoDup (OOV.keys (OOV.dict_set d key value)).
Proof.
  intros H. rewrite dict_set_keys. destruct (OOV.mem key (OOV.keys d)) eqn:Hm; [exact H|].
  apply NoDup_app; [exact H|repeat constructor; intros []|].
  intros y Hy [Hxy|[]]. subst y. apply mem_In in Hy. congruence.
Qed.

Lemma count_word_good (d : OOV.dict) (w : string) :
  clean w -> Words.dict_good d -> Words.dict_good (OOV.count_word d w).
Proof.
  intros Hw [Hn Hv]. unfold OOV.count_word. rewrite (strip_clean w Hw).
  destruct Hw as [Hne Hsp]. rewrite Hne. split; [now apply dict_set_NoDup|].
  intros k v Hin. apply dict_set_In in Hin as [[-> ->]|Hin]; [|now apply Hv].
  split; [|now split].
  destruct (in_dec string_dec w (OOV.keys d)) as [Hk|Hk].
  - apply dict_get_present in Hk. apply Hv in Hk. lia.
  - rewrite (dict_get_absent d w Hk). lia.
Qed.

Lemma fold_count_word_good (ws : list string) (d : OOV.dict) :
  (forall w, In w ws -> clean w) -> Words.dict_good d ->
  Words.dict_good (fold_left OOV.count_word ws d).
Proof.
  revert d; induction ws as [|w ws IH]; intros d Hc Hd; [exact Hd|].
  cbn [fold_left]. apply IH; [intros; apply Hc; now right|].
  apply count_word_good; [apply Hc; now left|exact Hd].
Qed.

Lemma read_utterance_line_good (d : OOV.dict) (line : string) :
  Words.dict_good d -> Words.dict_good (OOV.read_utterance_line d line).
Proof.
  intros Hd. destruct (Py.contains ":" line) eqn:H.
  - rewrite (read_utterance_line_payload d line H).
    apply fold_count_word_good; [|exact Hd].
    intros w Hw. unfold OOV.payload_words in Hw. now apply split_ws_clean in Hw.
  - unfold OOV.read_utterance_line. now rewrite H.
Qed.

Lemma fold_read_utterance_good (lines : list string) (d : OOV.dict) :
  Words.dict_good d -> Words.dict_good (fold_left OOV.read_utterance_line lines d).
Proof.
  revert d; induction lines as [|line lines IH]; intros d Hd; [exact Hd|].
  cbn [fold_left]. now apply IH, read_utterance_line_good.
Qed.

(** The frequency map read from the per-utterance file has every word
    once as a key; a word is a key exactly when it occurs in a payload,
    and its value is then the number of its occurrences, so no value is
    below 1.  Every key is a word without white space. *)
Theorem frequency_map_holds_occurring_words :
  forall (oovs_found : option (list string)) (lines : list string)
         (word : string) (count : Z),
    NoDup (OOV.keys (snd (OOV.read_oov_files oovs_found (Some lines))))
    /\ (In (word, count) (snd (OOV.read_oov_files oovs_found (Some lines))) <->
        count = OOV.total_occurrences word lines /\ 1 <= count)
    /\ (In word (OOV.keys (snd (OOV.read_oov_files oovs_found (Some lines)))) <->
        1 <= OOV.total_occurrences word lines)
    /\ (In word (OOV.keys (snd (OOV.read_oov_files oovs_found (Some lines)))) ->
        Py.is_empty word = false /\ Py.str_exists Py.isspace word = false).
Proof.
  intros found lines word count. unfold OOV.read_oov_files. cbn [snd].
  assert (Hg : Words.dict_good (fold_left OOV.read_utterance_line lines [])).
  { apply fold_read_utterance_good. split; [constructor|intros k v []]. }
  pose proof (fold_read_utterance_get lines [] word) as Hget. cbn [OOV.dict_get] in Hget.
  destruct Hg as [Hn Hv].
  set (d := fold_left OOV.read_utterance_line lines []) in *.
  assert (Hkey : In word (OOV.keys d) <-> 1 <= OOV.total_occurrences word lines).
  { split.
    - intros Hk. apply dict_get_present in Hk. apply Hv in Hk as [Hk _]. lia.
    - intros Hocc. destruct (in_dec string_dec word (OOV.keys d)) as [Hk|Hk]; [exact Hk|].
      rewrite (dict_get_absent d word Hk) in Hget. lia. }
  split; [exact Hn|]. split; [|split; [exact Hkey|]].
  - split.
    + intros Hin. pose proof (dict_get_In d word count Hn Hin).
      apply Hv in Hin as [Hin _]. lia.
    + intros [-> Hc]. apply Hkey in Hc. apply dict_get_present in Hc.
      now replace (OOV.total_occurrences word lines) with (OOV.dict_get d word 0) by lia.
  - intros Hk. apply dict_get_present in Hk. now apply Hv in Hk.
Qed.

Lemma sum_values_from (d : OOV.dict) (start : Z) :
  fold_left (fun acc kv => acc + snd kv) d start = start + OOV.sum_values d.
Proof.
  unfold OOV.sum_values. revert start; induction d as [|kv d IH]; intros start.
  - cbn. lia.
  - cbn [fold_left]. rewrite IH, (IH (0 + snd kv)). lia.
Qed.

Lemma sum_values_cons (kv : string * Z) (d : OOV.dict) :
  OOV.sum_values (kv :: d) = snd kv + OOV.sum_values d.
Proof. unfold OOV.sum_values at 1. cbn [fold_left]. rewrite sum_values_from. lia. Qed.

Lemma sum_values_incr (d : OOV.dict) (k : string) :
  OOV.sum_values (OOV.dict_set d k (OOV.dict_get d k 0 + 1)) = OOV.sum_values d + 1.
Proof.
  induction d as [|[k0 v0] d IH]; [reflexivity|].
  cbn [OOV.dict_set OOV.dict_get]. destruct (k0 =? k)%string.
  - rewrite !sum_values_cons. cbn [snd]. lia.
  - rewrite !sum_values_cons, IH. lia.
Qed.

Lemma fold_count_word_sum (ws : list string) (d : OOV.dict) :
  (forall w, In w ws -> clean w) ->
  OOV.sum_values (fold_left OOV.count_word ws d) =
  OOV.sum_values d + Z.of_nat (List.length ws).
Proof.
  revert d; induction ws as [|w ws IH]; intros d Hc.
  - cbn [fold_left List.length]. lia.
  - cbn [fold_left List.length]. rewrite IH by (intros; apply Hc; now right).
    assert (Hw : clean w) by (apply Hc; now left).
    unfold OOV.count_word. rewrite (strip_clean w Hw). destruct Hw as [-> _].
    rewrite sum_values_incr. lia.
Qed.

Lemma fold_read_utterance_sum (lines : list string) (d : OOV.dict) :
  OOV.sum_values (fold_left OOV.read_utterance_line lines d) =
  OOV.sum_values d + Words.total_payload lines.
Proof.
  revert d; induction lines as [|line lines IH]; intros d.
  - cbn [fold_left Words.total_payload fold_right]. lia.
  - cbn [fold_left Words.total_payload fold_right]. rewrite IH.
    change (fold_right (fun line acc => Words.payload_size line + acc) 0 lines)
      with (Words.total_payload lines).
    unfold Words.payload_size. destruct (Py.contains ":" line) eqn:H.
    + rewrite (read_utterance_line_payload d line H), fold_count_word_sum; [lia|].
      intros w Hw. unfold OOV.payload_words in Hw. now apply split_ws_clean in Hw.
    + unfold OOV.read_utterance_line. rewrite H. lia.
Qed.

(** The total of the frequency map, which the report prints as the number
    of OOV occurrences, is the number of words in the payloads of all
    lines of the per-utterance file; it is 0 for a file without a line
    that holds a colon. *)
Theorem frequency_total_is_payload_size :
  forall (oovs_found : option (list string)) (lines : list string),
    OOV.sum_values (snd (OOV.read_oov_files oovs_found (Some lines))) =
      Words.total_payload lines
    /\ 0 <= OOV.sum_values (snd (OOV.read_oov_files oovs_found (Some lines)))
    /\ ((forall line, In line lines -> Py.contains ":" line = false) ->
        snd (OOV.read_oov_files oovs_found (Some lines)) = []).
Proof.
  intros found lines. unfold OOV.read_oov_files. cbn [snd].
  rewrite fold_read_utterance_sum. change (OOV.sum_values []) with 0.
  split; [lia|]. split.
  - assert (H : 0 <= Words.total_payload lines); [|lia].
    induction lines as [|line lines IH]; [cbn; lia|].
    cbn [Words.total_payload fold_right].
    change (fold_right (fun line acc => Words.payload_size line + acc) 0 lines)
      with (Words.total_payload lines).
    unfold Words.payload_size. destruct (Py.contains ":" line); lia.
  - intros Hno. induction lines as [|line lines IH]; [reflexivity|].
    cbn [fold_left]. unfold OOV.read_utterance_line at 2.
    rewrite (Hno line (or_introl eq_refl)). apply IH.
    intros l Hl. apply Hno. now right.
Qed.

End FrequencyMapFacts.

(** * Further facts about the pattern lists and the report *)

Section PatternListFacts.

Lemma count_occ_filter (f : string -> bool) (l : list string) (w : string) :
  count_occ string_dec (filter f l) w =
  if f w then count_occ string_dec l w else 0%nat.
Proof.
  induction l as [|x l IH]; [now destruct (f w)|].
  cbn [filter]. destruct (f x) eqn:Hx.
  - cbn [count_occ]. destruct (string_dec x w) as [->|Hne].
    + rewrite IH, Hx. reflexivity.
    + rewrite IH. reflexivity.
  - rewrite IH. cbn [count_occ]. destruct (string_dec x w) as [->|Hne]; [|reflexivity].
    now rewrite Hx.
Qed.

(** Each list of the analysis holds a word as often as the words given
    hold it when the word meets the rule of the category, and not at all
    otherwise, so repeated words are analysed each time; no list is
    longer than the words given; and no word is tagged both short and
    long. *)
Theorem pattern_lists_keep_repeats :
  forall (oov_words : list string) (word : string) (c : OOV.category),
    count_occ string_dec (OOV.bucket c (OOV.analyze_oov_patterns oov_words)) word =
      (if OOV.classify word c then count_occ string_dec oov_words word else 0%nat)
    /\ (List.length (OOV.bucket c (OOV.analyze_oov_patterns oov_words))
        <= List.length oov_words)%nat
    /\ (OOV.classify word OOV.Short = true -> OOV.classify word OOV.Long = false).
Proof.
  intros ws word c. rewrite analyze_bucket, !classify_rule.
  split; [apply count_occ_filter|]. split.
  - induction ws as [|x ws IH]; [apply le_n|].
    cbn [filter]. destruct (OOV.rule c x); cbn [List.length]; lia.
  - cbn [OOV.rule]. rewrite Z.leb_le, Z.leb_gt. lia.
Qed.

End PatternListFacts.

Section ReportFacts.

Lemma insert_str_perm (x : string) (l : list string) :
  Permutation (OOV.insert_str x l) (x :: l).
Proof.
  induction l as [|y l IH]; [reflexivity|]. cbn.
  destruct (String.leb x y); [reflexivity|].
  rewrite IH. apply perm_swap.
Qed.

Lemma sorted_str_is_perm (l : list string) : Permutation (OOV.sorted_str l) l.
Proof.
  induction l as [|x l IH]; [reflexivity|].
  cbn. rewrite insert_str_perm. now constructor.
Qed.

Lemma insert_str_sorted (x : string) (l : list string) :
  StronglySorted Words.str_le l -> StronglySorted Words.str_le (OOV.insert_str x l).
Proof.
  induction l as [|y l IH]; intros Hs; [repeat constructor|].
  cbn. inversion Hs as [|? ? Hl Hy]; subst.
  destruct (String.leb x y) eqn:Hxy.
  - constructor; [exact Hs|]. constructor; [exact Hxy|].
    rewrite Forall_forall in Hy |- *. intros z Hz.
    exact (string_leb_trans x y z Hxy (Hy z Hz)).
  - assert (Hyx : String.leb y x = true).
    { destruct (String.leb_total x y); congruence. }
    constructor; [now apply IH|].
    apply Forall_forall. intros z Hz.
    apply (Permutation_in _ (insert_str_perm x l)) in Hz.
    destruct Hz as [<-|Hz]; [exact Hyx|].
    rewrite Forall_forall in Hy. now apply Hy.
Qed.

Lemma sorted_str_sorted (l : list string) : StronglySorted Words.str_le (OOV.sorted_str l).
Proof.
  induction l as [|x l IH]; [constructor|]. cbn. now apply insert_str_sorted.
Qed.

Lemma unique_listing_items (l : list string) (i total : Z) :
  1 <= i <= 50 ->
  flat_map Words.listed_word (OOV.unique_listing i total l) =
    firstn (Z.to_nat (51 - i)) l
  /\ flat_map Words.listed_number (OOV.unique_listing i total l) =
     map Z.of_nat (seq (Z.to_nat i) (Nat.min (List.length l) (Z.to_nat (51 - i))))
  /\ flat_map Words.remainder (OOV.unique_listing i total l) =
     (if 51 - i <=? Z.of_nat (List.length l) then [total - 50] else []).
Proof.
  revert i; induction l as [|w l IH]; intros i Hi.
  - cbn [OOV.unique_listing flat_map List.length Nat.min seq map].
    rewrite firstn_nil.
    replace (51 - i <=? Z.of_nat 0) with false by (symmetry; apply Z.leb_gt; lia).
    auto.
  - cbn [OOV.unique_listing flat_map Words.listed_word Words.listed_number
         Words.remainder app List.length].
    replace (Z.to_nat (51 - i)) with (S (Z.to_nat (50 - i))) by lia.
    cbn [firstn Nat.min seq map].
    replace (Z.of_nat (Z.to_nat i)) with i by lia.
    replace (51 - i <=? Z.of_nat (S (List.length l))) with
      (50 - i <=? Z.of_nat (List.length l))
      by (destruct (Z.leb_spec (50 - i) (Z.of_nat (List.length l)));
          symmetry; [apply Z.leb_le|apply Z.leb_gt]; lia).
    destruct (Z.leb_spec 50 i) as [Hge|Hlt].
    + assert (i = 50) by lia. subst i.
      change (Z.to_nat (50 - 50)) with 0%nat. change (50 - 50) with 0.
      rewrite Nat.min_0_r.
      replace (0 <=? Z.of_nat (List.length l)) with true
        by (symmetry; apply Z.leb_le; lia).
      cbn. auto.
    + destruct (IH (i + 1) ltac:(lia)) as (H1 & H2 & H3).
      rewrite H1, H2, H3.
      replace (51 - (i + 1)) with (50 - i) by lia.
      replace (Z.to_nat (i + 1)) with (S (Z.to_nat i)) by lia.
      auto.
Qed.

Lemma flat_map_frequent {B : Type} (f : OOV.report_item -> list B) (l : list (string * Z)) :
  (forall w n, f (OOV.FrequentWord w n) = []) ->
  flat_map f (map (fun wc => OOV.FrequentWord (fst wc) (snd wc)) l) = [].
Proof.
  intros Hf. induction l as [|x l IH]; [reflexivity|]. cbn. now rewrite Hf, IH.
Qed.

Lemma flat_map_pattern_items {B : Type} (f : OOV.report_item -> list B)
      (label : string) (ws : list string) :
  (forall l n, f (OOV.PatternCount l n) = []) ->
  (forall ex, f (OOV.PatternExamples ex) = []) ->
  flat_map f (OOV.pattern_items label ws) = [].
Proof.
  intros H1 H2. destruct ws; cbn; [reflexivity|]. now rewrite H1, H2.
Qed.

Lemma report_section {B : Type} (f : OOV.report_item -> list B)
      (oov_words : list string) (d : OOV.dict) :
  f OOV.NoOOVWords = [] ->
  (forall n, f (OOV.UniqueCount n) = []) ->
  (forall n, f (OOV.TotalOccurrences n) = []) ->
  (forall w n, f (OOV.FrequentWord w n) = []) ->
  (forall l n, f (OOV.PatternCount l n) = []) ->
  (forall ex, f (OOV.PatternExamples ex) = []) ->
  flat_map f (OOV.print_oov_report oov_words d) =
  flat_map f (OOV.unique_listing 1 (Z.of_nat (List.length oov_words))
                (OOV.sorted_str oov_words)).
Proof.
  intros H0 H1 H2 H3 H4 H5. unfold OOV.print_oov_report. cbv zeta.
  destruct oov_words as [|w ws], d as [|kv d].
  - cbn. now rewrite H0.
  - rewrite !flat_map_app, flat_map_frequent by assumption.
    cbn. now rewrite H1, H2.
  - rewrite !flat_map_app, flat_map_frequent, !flat_map_pattern_items by assumption.
    cbn [flat_map]. rewrite H1, H2. cbn [app]. now rewrite app_nil_r.
  - rewrite !flat_map_app, flat_map_frequent, !flat_map_pattern_items by assumption.
    cbn [flat_map]. rewrite H1, H2. cbn [app]. now rewrite app_nil_r.
Qed.

(** The alphabetical section of the report lists the first 50 of the
    words in the order of their code points, numbered from 1, and closes
    with the count of the rest exactly when there are 50 words or more:
    with exactly 50 words it still prints a remainder of 0. *)
Theorem report_lists_first_50_sorted_words :
  forall (oov_words : list string) (word_frequencies : OOV.dict),
    flat_map Words.listed_word (OOV.print_oov_report oov_words word_frequencies) =
      firstn 50 (OOV.sorted_str oov_words)
    /\ flat_map Words.listed_number (OOV.print_oov_report oov_words word_frequencies) =
       map Z.of_nat (seq 1 (Nat.min (List.length oov_words) 50))
    /\ flat_map Words.remainder (OOV.print_oov_report oov_words word_frequencies) =
       (if 50 <=? Z.of_nat (List.length oov_words)
        then [Z.of_nat (List.length oov_words) - 50] else [])
    /\ Permutation (OOV.sorted_str oov_words) oov_words
    /\ StronglySorted (fun a b => String.leb a b = true) (OOV.sorted_str oov_words).
Proof.
  intros ws d.
  destruct (unique_listing_items (OOV.sorted_str ws) 1 (Z.of_nat (List.length ws))
              ltac:(lia)) as (H1 & H2 & H3).
  rewrite (Permutation_length (sorted_str_is_perm ws)) in H2, H3.
  rewrite !report_section by reflexivity.
  split; [exact H1|]. split; [exact H2|]. split; [exact H3|].
  split; [apply sorted_str_is_perm|apply sorted_str_sorted].
Qed.

Lemma In_firstn {A : Type} (n : nat) (l : list A) (x : A) :
  In x (firstn n l) -> In x l.
Proof.
  revert l; induction n as [|n IH]; intros [|y l]; cbn; try tauto.
  intros [H|H]; [now left|right; now apply IH].
Qed.

Lemma pattern_items_In (label : string) (ws : list string) (item : OOV.report_item) :
  In item (OOV.pattern_items label ws) ->
  ws <> []
  /\ (item = OOV.PatternCount label (Z.of_nat (List.length ws))
      \/ item = OOV.PatternExamples (firstn 5 ws)).
Proof.
  destruct ws as [|w ws]; [intros []|].
  intros [<-|[<-|[]]]; (split; [discriminate|]); auto.
Qed.

Lemma report_pattern_In (oov_words : list string) (d : OOV.dict) (item : OOV.report_item) :
  In item (OOV.print_oov_report oov_words d) ->
  (match item with
   | OOV.PatternCount _ _ | OOV.PatternExamples _ => True
   | _ => False
   end) ->
  exists c label,
    In (c, label) Words.printed_categories
    /\ filter (OOV.rule c) oov_words <> []
    /\ (item = OOV.PatternCount label
                 (Z.of_nat (List.length (filter (OOV.rule c) oov_words)))
        \/ item = OOV.PatternExamples (firstn 5 (filter (OOV.rule c) oov_words))).
Proof.
  intros Hin Hkind. unfold OOV.print_oov_report in Hin. cbv zeta in Hin.
  assert (Hlist : forall l i total, ~ In item (OOV.unique_listing i total l)).
  { intros l. induction l as [|w l IH]; intros i total H; [destruct H|].
    cbn [OOV.unique_listing] in H. destruct H as [<-|H]; [exact Hkind|].
    destruct (50 <=? i); [destruct H as [<-|[]]; exact Hkind|now apply (IH (i + 1) total)]. }
  assert (Hfreq : ~ In item (map (fun wc => OOV.FrequentWord (fst wc) (snd wc))
                               (OOV.sorted_freqs d))).
  { intros H. apply in_map_iff in H as (wc & <- & _). exact Hkind. }
  assert (Hhead : forall a b, ~ In item [OOV.UniqueCount a; OOV.TotalOccurrences b]).
  { intros a b [<-|[<-|[]]]; exact Hkind. }
  assert (Hpat : forall ws,
    In item (OOV.pattern_items "Numbers/Digits"
               (OOV.numbers (OOV.analyze_oov_patterns ws))) \/
    In item (OOV.pattern_items "Contractions"
               (OOV.contractions (OOV.analyze_oov_patterns ws))) \/
    In item (OOV.pattern_items "Hyphenated words"
               (OOV.hyphenated (OOV.analyze_oov_patterns ws))) \/
    In item (OOV.pattern_items "Potential acronyms"
               (OOV.uppercase (OOV.analyze_oov_patterns ws))) ->
    exists c label,
      In (c, label) Words.printed_categories
      /\ filter (OOV.rule c) ws <> []
      /\ (item = OOV.PatternCount label
                   (Z.of_nat (List.length (filter (OOV.rule c) ws)))
          \/ item = OOV.PatternExamples (firstn 5 (filter (OOV.rule c) ws)))).
  { intros ws H.
    pose proof (analyze_bucket OOV.Numbers ws) as B1.
    pose proof (analyze_bucket OOV.Contractions ws) as B2.
    pose proof (analyze_bucket OOV.Hyphenated ws) as B3.
    pose proof (analyze_bucket OOV.Uppercase ws) as B4.
    cbn [OOV.bucket] in B1, B2, B3, B4. rewrite B1, B2, B3, B4 in H.
    destruct H as [H|[H|[H|H]]]; apply pattern_items_In in H as [Hne Hit].
    - exists OOV.Numbers, "Numbers/Digits". cbn. auto.
    - exists OOV.Contractions, "Contractions". cbn. auto.
    - exists OOV.Hyphenated, "Hyphenated words". cbn. auto.
    - exists OOV.Uppercase, "Potential acronyms". cbn. auto 6. }
  destruct oov_words as [|w ws], d as [|kv d'].
  - destruct Hin as [<-|[]]. destruct Hkind.
  - rewrite !in_app_iff in Hin. exfalso.
    destruct Hin as [H|[H|[H|H]]];
      [now apply Hhead in H|now apply Hfreq in H|now apply Hlist in H|destruct H].
  - rewrite !in_app_iff in Hin.
    destruct Hin as [H|[H|[H|H]]];
      [now apply Hhead in H|now apply Hfreq in H|now apply Hlist in H|now apply Hpat].
  - rewrite !in_app_iff in Hin.
    destruct Hin as [H|[H|[H|H]]];
      [now apply Hhead in H|now apply Hfreq in H|now apply Hlist in H|now apply Hpat].
Qed.

(** The pattern summary of the report covers four of the seven
    categories: numbers, contractions, hyphenated words and acronyms.
    A count that it prints is the number of words that carry the tag and
    is at least 1; the examples that it prints are the first five such
    words in the order of the word list, so there are at most five, each
    is one of the words and each carries the tag. *)
Theorem report_patterns_are_counts_and_first_five :
  forall (oov_words : list string) (word_frequencies : OOV.dict)
         (label : string) (n : Z) (examples : list string) (word : string),
    (In (OOV.PatternCount label n) (OOV.print_oov_report oov_words word_frequencies) ->
     exists c,
       In (c, label) Words.printed_categories
       /\ n = Z.of_nat (List.length (filter (OOV.rule c) oov_words))
       /\ 1 <= n)
    /\ (In (OOV.PatternExamples examples)
           (OOV.print_oov_report oov_words word_frequencies) ->
        (exists c label',
           In (c, label') Words.printed_categories
           /\ examples = firstn 5 (filter (OOV.rule c) oov_words)
           /\ (In word examples -> In word oov_words /\ OOV.classify word c = true))
        /\ (1 <= List.length examples <= 5)%nat).
Proof.
  intros ws d label n examples word. split.
  - intros Hin. destruct (report_pattern_In ws d _ Hin I) as (c & l & Hc & Hne & [H|H]);
      [|discriminate]. injection H as <- ->. exists c. split; [exact Hc|].
    split; [reflexivity|]. destruct (filter (OOV.rule c) ws); [congruence|cbn; lia].
  - intros Hin. destruct (report_pattern_In ws d _ Hin I) as (c & l & Hc & Hne & [H|H]);
      [discriminate|]. injection H as ->. split.
    + exists c, l. split; [exact Hc|]. split; [reflexivity|].
      intros Hw. apply (In_firstn 5 (filter (OOV.rule c) ws)) in Hw. apply filter_In in Hw as [Hw Hr].
      split; [exact Hw|]. now rewrite classify_rule.
    + pose proof (firstn_le_length 5 (filter (OOV.rule c) ws)).
      destruct (filter (OOV.rule c) ws); [congruence|]. cbn in *. lia.
Qed.

End ReportFacts.

(** * Further facts about the annotation parser and the summary *)

Section IntervalFacts.

Lemma kinds_intervals (rest before : list string) :
  Z.of_nat (List.length (filter TextGrid.is_interval_line rest)) =
  TextGrid.count_kind TextGrid.EmptyInterval (TextGrid.kinds before rest)
  + TextGrid.count_kind TextGrid.WordInterval (TextGrid.kinds before rest)
  + TextGrid.count_kind TextGrid.PhoneInterval (TextGrid.kinds before rest)
  + TextGrid.count_kind TextGrid.OtherInterval (TextGrid.kinds before rest).
Proof.
  revert before; induction rest as [|raw rest IH]; intros before; [reflexivity|].
  specialize (IH (before ++ [raw])). unfold TextGrid.count_kind in *.
  cbn [TextGrid.kinds filter]. unfold TextGrid.kind_of.
  destruct (TextGrid.is_interval_line raw);
    [destruct (TextGrid.has_empty_text raw);
     [|destruct (TextGrid.tier_in_force (before ++ [raw]))]|];
    cbn [TextGrid.kind_eqb List.length]; lia.
Qed.

Lemma no_declaration_no_tier (seen : list string) :
  (forall line, In line seen -> TextGrid.is_tier_declaration line = false) ->
  TextGrid.tier_in_force seen = TextGrid.NoTier.
Proof.
  intros H. unfold TextGrid.tier_in_force.
  destruct (find TextGrid.is_tier_declaration (rev seen)) as [raw|] eqn:Hf; [|reflexivity].
  apply find_some in Hf as [Hin Hd]. apply in_rev in Hin. rewrite (H raw Hin) in Hd.
  discriminate.
Qed.

Lemma kinds_without_declaration (rest before : list string) :
  (forall line, In line (before ++ rest) -> TextGrid.is_tier_declaration line = false) ->
  TextGrid.count_kind TextGrid.WordInterval (TextGrid.kinds before rest) = 0
  /\ TextGrid.count_kind TextGrid.PhoneInterval (TextGrid.kinds before rest) = 0.
Proof.
  revert before; induction rest as [|raw rest IH]; intros before H; [split; reflexivity|].
  assert (Ht : TextGrid.tier_in_force (before ++ [raw]) = TextGrid.NoTier).
  { apply no_declaration_no_tier. intros line Hl. apply H.
    rewrite in_app_iff in *. cbn. cbn in Hl. tauto. }
  destruct (IH (before ++ [raw])) as [Hw Hp].
  { intros line Hl. apply H. now rewrite <- app_assoc in Hl. }
  unfold TextGrid.count_kind in *. cbn [TextGrid.kinds filter].
  unfold TextGrid.kind_of. rewrite Ht.
  destruct (TextGrid.is_interval_line raw);
    [destruct (TextGrid.has_empty_text raw)|]; cbn [TextGrid.kind_eqb]; now split.
Qed.

(** Every interval is counted exactly once: the interval count is the sum
    of the empty intervals, the words, the phones and the intervals with
    content under no tier or an unknown one.  In a file without a line
    that declares a tier name, no word and no phone is counted, whatever
    its intervals hold. *)
Theorem intervals_are_partitioned :
  forall (float_of_str : string -> option PyFloat.float) (filepath content : string),
    TextGrid.interval_count (TextGrid.read_textgrid float_of_str filepath (Some content)) =
      TextGrid.empty_intervals (TextGrid.read_textgrid float_of_str filepath (Some content))
      + TextGrid.word_count (TextGrid.read_textgrid float_of_str filepath (Some content))
      + TextGrid.phone_count (TextGrid.read_textgrid float_of_str filepath (Some content))
      + TextGrid.count_kind TextGrid.OtherInterval
          (TextGrid.kinds [] (Py.splitlines content))
    /\ ((forall line, In line (Py.splitlines content) ->
           TextGrid.is_tier_declaration line = false) ->
        TextGrid.word_count
          (TextGrid.read_textgrid float_of_str filepath (Some content)) = 0
        /\ TextGrid.phone_count
             (TextGrid.read_textgrid float_of_str filepath (Some content)) = 0).
Proof.
  intros float_of_str filepath content.
  unfold TextGrid.read_textgrid, TextGrid.scan.
  change TextGrid.NoTier with (TextGrid.tier_in_force []).
  match goal with
  | |- context [fold_left _ ?ls (_, ?st0)] =>
      destruct (scan_counts ls [] st0) as (Hi & He & Hw & Hp & _)
  end.
  rewrite Hi, He, Hw, Hp. cbn [TextGrid.interval_count TextGrid.empty_intervals
    TextGrid.word_count TextGrid.phone_count TextGrid.set_total_duration
    TextGrid.initial_stats].
  split.
  - rewrite (kinds_intervals (Py.splitlines content) []). lia.
  - intros Hno. destruct (kinds_without_declaration (Py.splitlines content) [] Hno)
      as [-> ->]. split; reflexivity.
Qed.

End IntervalFacts.

Section DirectoryFacts.

Variable float_of_str : string -> option PyFloat.float.
Variable read : string -> option string.

Lemma read_textgrid_filename (filepath : string) (file : option string) :
  TextGrid.filename (TextGrid.read_textgrid float_of_str filepath file) =
  TextGrid.basename filepath
  /\ TextGrid.has_errors (TextGrid.read_textgrid float_of_str filepath file) =
     match file with Some _ => false | None => true end.
Proof.
  destruct file as [content|]; [|split; reflexivity].
  unfold TextGrid.read_textgrid, TextGrid.scan.
  change TextGrid.NoTier with (TextGrid.tier_in_force []).
  match goal with
  | |- context [fold_left _ ?ls (_, ?st0)] =>
      destruct (scan_counts ls [] st0) as (_ & _ & _ & _ & _ & He & Hf)
  end.
  rewrite He, Hf. split; reflexivity.
Qed.

Lemma analyze_directory_map (textgrid_files : list string) :
  Summary.analyze_directory float_of_str read textgrid_files =
  map (fun filepath => TextGrid.read_textgrid float_of_str filepath (read filepath))
      (OOV.sorted_str textgrid_files).
Proof. now destruct textgrid_files. Qed.

(** The analysis of a directory has one record for every file that was
    found, in the order of the paths, each named after the last part of
    its path.  The order in which the files were found has no part in
    it: two listings of the same files give the same analysis. *)
Theorem analyze_directory_is_independent_of_listing_order :
  forall textgrid_files other_listing : list string,
    Permutation textgrid_files other_listing ->
    Summary.analyze_directory float_of_str read textgrid_files =
      Summary.analyze_directory float_of_str read other_listing
    /\ List.length (Summary.analyze_directory float_of_str read textgrid_files) =
       List.length textgrid_files
    /\ map TextGrid.filename (Summary.analyze_directory float_of_str read textgrid_files) =
       map TextGrid.basename (OOV.sorted_str textgrid_files)
    /\ StronglySorted (fun a b => String.leb a b = true) (OOV.sorted_str textgrid_files).
Proof.
  intros files other Hp. rewrite !analyze_directory_map.
  split; [now rewrite (sorted_str_perm files other Hp)|].
  split; [now rewrite length_map, (Permutation_length (sorted_str_is_perm files))|].
  split; [|apply sorted_str_sorted].
  rewrite map_map. apply map_ext. intros p. apply read_textgrid_filename.
Qed.

End DirectoryFacts.

(** The hypothesis holds for two files found in either order. *)
Lemma analyze_directory_is_independent_of_listing_order_witness :
  Summary.analyze_directory PyFloat.of_str (fun _ => None) ["out/b.TextGrid"; "out/a.TextGrid"] =
    Summary.analyze_directory PyFloat.of_str (fun _ => None) ["out/a.TextGrid"; "out/b.TextGrid"]
  /\ List.length (Summary.analyze_directory PyFloat.of_str (fun _ => None)
                    ["out/b.TextGrid"; "out/a.TextGrid"]) = 2%nat
  /\ map TextGrid.filename (Summary.analyze_directory PyFloat.of_str (fun _ => None)
                              ["out/b.TextGrid"; "out/a.TextGrid"]) =
     map TextGrid.basename (OOV.sorted_str ["out/b.TextGrid"; "out/a.TextGrid"])
  /\ StronglySorted (fun a b => String.leb a b = true)
       (OOV.sorted_str ["out/b.TextGrid"; "out/a.TextGrid"]).
Proof.
  apply (analyze_directory_is_independent_of_listing_order PyFloat.of_str (fun _ => None)
           ["out/b.TextGrid"; "out/a.TextGrid"] ["out/a.TextGrid"; "out/b.TextGrid"]).
  apply perm_swap.
Defined.

Section SummaryFacts.

Variable float_of_str : string -> option PyFloat.float.
Variable read : string -> option string.
Variable float_sum : list PyFloat.float -> PyFloat.float.

Lemma sum_of_from (f : TextGrid.stats -> Z) (l : list TextGrid.stats) (start : Z) :
  fold_left (fun acc s => acc + f s) l start = start + Summary.sum_of f l.
Proof.
  unfold Summary.sum_of. revert start; induction l as [|s l IH]; intros start.
  - cbn. lia.
  - cbn [fold_left]. rewrite IH, (IH (0 + f s)). lia.
Qed.

Lemma sum_of_cons (f : TextGrid.stats -> Z) (s : TextGrid.stats) (l : list TextGrid.stats) :
  Summary.sum_of f (s :: l) = f s + Summary.sum_of f l.
Proof. unfold Summary.sum_of at 1. cbn [fold_left]. rewrite sum_of_from. lia. Qed.

Lemma sum_of_ones (l : list TextGrid.stats) :
  Summary.sum_of (fun _ => 1) l = Z.of_nat (List.length l).
Proof.
  induction l as [|s l IH]; [reflexivity|]. rewrite sum_of_cons, IH. cbn [List.length]. lia.
Qed.

Lemma float_div_int_nonzero (x : PyFloat.float) (n : Z) :
  n <> 0 -> Summary.float_div_int x n <> PyFloat.Raise PyFloat.ZeroDivisionError.
Proof.
  intros Hn. unfold Summary.float_div_int.
  replace (n =? 0) with false by (symmetry; now apply Z.eqb_neq).
  destruct (PyFloat.of_int n); discriminate.
Qed.

Lemma print_summary_no_zero_division (all_stats : list TextGrid.stats) :
  Summary.print_summary float_sum all_stats <> PyFloat.Raise PyFloat.ZeroDivisionError.
Proof.
  destruct all_stats as [|s l]; [discriminate|].
  unfold Summary.print_summary.
  set (total := float_sum _).
  pose proof (float_div_int_nonzero total 60 ltac:(lia)) as H60.
  pose proof (float_div_int_nonzero total (Z.of_nat (List.length (s :: l)))
                ltac:(cbn [List.length]; lia)) as Hn.
  destruct (Summary.float_div_int total 60) as [minutes|e];
    [|intros H; apply H60; congruence].
  destruct (Summary.float_div_int total (Z.of_nat (List.length (s :: l))))
    as [average|e]; [discriminate|intros H; apply Hn; congruence].
Qed.

Lemma analysis_totals (paths : list string) :
  Summary.sum_of TextGrid.word_count
    (map (fun p => TextGrid.read_textgrid float_of_str p (read p)) paths)
  + Summary.sum_of TextGrid.phone_count
      (map (fun p => TextGrid.read_textgrid float_of_str p (read p)) paths)
  + Summary.sum_of TextGrid.empty_intervals
      (map (fun p => TextGrid.read_textgrid float_of_str p (read p)) paths)
  <= Summary.sum_of TextGrid.interval_count
       (map (fun p => TextGrid.read_textgrid float_of_str p (read p)) paths)
  /\ 0 <= Summary.sum_of TextGrid.word_count
            (map (fun p => TextGrid.read_textgrid float_of_str p (read p)) paths)
  /\ 0 <= Summary.sum_of TextGrid.phone_count
            (map (fun p => TextGrid.read_textgrid float_of_str p (read p)) paths)
  /\ 0 <= Summary.sum_of TextGrid.empty_intervals
            (map (fun p => TextGrid.read_textgrid float_of_str p (read p)) paths).
Proof.
  induction paths as [|p paths IH]; [cbn; lia|].
  cbn [map]. rewrite !sum_of_cons.
  assert (W : within_counts (TextGrid.read_textgrid float_of_str p (read p))).
  { destruct (read p) as [content|].
    - unfold TextGrid.read_textgrid, TextGrid.scan. apply scan_within.
      unfold within_counts. cbn. lia.
    - unfold within_counts. cbn. lia. }
  unfold within_counts in W. lia.
Qed.

Lemma analysis_errors (paths : list string) :
  filter TextGrid.has_errors
    (map (fun p => TextGrid.read_textgrid float_of_str p (read p)) paths) =
  map (fun p => TextGrid.read_textgrid float_of_str p (read p))
      (filter (Words.unreadable read) paths).
Proof.
  induction paths as [|p paths IH]; [reflexivity|].
  cbn [map filter].
  destruct (read_textgrid_filename float_of_str p (read p)) as [_ He].
  rewrite He, IH. unfold Words.unreadable.
  destruct (read p) eqn:Hr; [reflexivity|]. cbn [map]. now rewrite Hr.
Qed.

(** The summary of a directory analysis never divides by zero: an
    analysis without a file is answered before the average is taken.
    Its totals are consistent: none is negative, the words, phones and
    empty intervals of all files together do not exceed the intervals,
    and the number of files with errors is the number of files that could
    not be read.  It prints one row per file, in the order of the
    analysis. *)
Theorem summary_totals_are_consistent :
  forall textgrid_files : list string,
    Summary.print_summary float_sum
      (Summary.analyze_directory float_of_str read textgrid_files)
      <> PyFloat.Raise PyFloat.ZeroDivisionError
    /\ Summary.print_summary float_sum (Summary.analyze_directory float_of_str read [])
       = PyFloat.Ok [Summary.NoTextGrids]
    /\ Summary.sum_of TextGrid.word_count
         (Summary.analyze_directory float_of_str read textgrid_files)
       + Summary.sum_of TextGrid.phone_count
           (Summary.analyze_directory float_of_str read textgrid_files)
       + Summary.sum_of TextGrid.empty_intervals
           (Summary.analyze_directory float_of_str read textgrid_files)
       <= Summary.sum_of TextGrid.interval_count
            (Summary.analyze_directory float_of_str read textgrid_files)
    /\ 0 <= Summary.sum_of TextGrid.word_count
              (Summary.analyze_directory float_of_str read textgrid_files)
    /\ 0 <= Summary.sum_of TextGrid.phone_count
              (Summary.analyze_directory float_of_str read textgrid_files)
    /\ 0 <= Summary.sum_of TextGrid.empty_intervals
              (Summary.analyze_directory float_of_str read textgrid_files)
    /\ Summary.sum_of (fun _ => 1)
         (filter TextGrid.has_errors
            (Summary.analyze_directory float_of_str read textgrid_files))
       = Z.of_nat (List.length (filter (Words.unreadable read) textgrid_files))
    /\ (forall items,
          Summary.print_summary float_sum
            (Summary.analyze_directory float_of_str read textgrid_files)
          = PyFloat.Ok items ->
          textgrid_files <> [] ->
          flat_map Words.row_of items =
          map Summary.file_row
              (Summary.analyze_directory float_of_str read textgrid_files)).
Proof.
  intros files.
  split; [apply print_summary_no_zero_division|]. split; [reflexivity|].
  rewrite analyze_directory_map.
  destruct (analysis_totals (OOV.sorted_str files)) as (H1 & H2 & H3 & H4).
  split; [exact H1|]. split; [exact H2|]. split; [exact H3|]. split; [exact H4|].
  split.
  - rewrite analysis_errors, sum_of_ones, length_map.
    assert (Hf : forall l l' : list string, Permutation l l' ->
              Permutation (filter (Words.unreadable read) l)
                          (filter (Words.unreadable read) l')).
    { induction 1 as [|x l1 l2 _ IH|x y l|l1 l2 l3 _ IH1 _ IH2].
      - constructor.
      - cbn. destruct (Words.unreadable read x); [now constructor|exact IH].
      - cbn. destruct (Words.unreadable read x), (Words.unreadable read y);
          try reflexivity. apply perm_swap.
      - now rewrite IH1. }
    f_equal. apply Permutation_length, Hf, sorted_str_is_perm.
  - intros items Hok Hne.
    set (all_stats := map _ (OOV.sorted_str files)) in *.
    unfold Summary.print_summary in Hok.
    destruct all_stats as [|s l] eqn:Hs.
    { exfalso. apply Hne. apply (f_equal (@List.length _)) in Hs.
      unfold all_stats in Hs. rewrite length_map in Hs.
      rewrite (Permutation_length (sorted_str_is_perm files)) in Hs.
      now destruct files. }
    destruct (Summary.float_div_int _ 60) as [minutes|e]; [|discriminate].
    destruct (Summary.float_div_int _ (Z.of_nat (List.length (s :: l))))
      as [average|e]; [|discriminate].
    injection Hok as <-.
    assert (Hrows : forall rows,
              flat_map Words.row_of (map Summary.file_row rows) =
              map Summary.file_row rows).
    { intros rows. induction rows as [|r rows IH]; [reflexivity|].
      cbn [map flat_map]. now rewrite IH. }
    cbn [app flat_map Words.row_of]. rewrite flat_map_app.
    change (Summary.file_row s :: map Summary.file_row l)
      with (map Summary.file_row (s :: l)).
    rewrite Hrows. now destruct (0 <? _).
Qed.

End SummaryFacts.

(** * The metrics report *)

Section MetricsReportFacts.

Lemma validation_items_filter (f : Report.metrics_item -> bool) (path : string)
      (log : Report.log_state) (st : Metrics.validation_stats) :
  (forall p, f (Report.LogPath p) = false) ->
  (forall n, f (Report.OOVOccurrences n) = false) ->
  (forall n, f (Report.UniqueOOVWords n) = false) ->
  (forall w, f (Report.OOVWord w) = false) ->
  (forall n, f (Report.ErrorsFound n) = false) ->
  (forall p, f (Report.LogNotFound p) = false) ->
  filter f (Report.validation_items path log st) = [].
Proof.
  intros H1 H2 H3 H4 H5 H6. unfold Report.validation_items.
  destruct (Report.log_exists log); [|cbn; now rewrite H6].
  rewrite !filter_app. cbn [filter]. rewrite H1, H2.
  assert (Hw : forall ws, filter f (map Report.OOVWord ws) = []).
  { induction ws as [|w ws IH]; [reflexivity|]. cbn. now rewrite H4, IH. }
  destruct (Metrics.oov_words st) as [|w ws].
  - cbn. destruct (0 <? Metrics.error_count st); cbn; now rewrite ?H5.
  - cbn [filter]. rewrite H3.
    destruct (Z.of_nat (List.length (w :: ws)) <=? 20); rewrite ?Hw;
      destruct (0 <? Metrics.error_count st); cbn; now rewrite ?H5.
Qed.

Lemma report_filter (f : Report.metrics_item -> bool) (wav lab tg : Z)
      (path : string) (log : Report.log_state) (coverage : PyFloat.float) :
  Metrics.calculate_coverage wav tg = PyFloat.Ok coverage ->
  (forall p, f (Report.LogPath p) = false) ->
  (forall n, f (Report.OOVOccurrences n) = false) ->
  (forall n, f (Report.UniqueOOVWords n) = false) ->
  (forall w, f (Report.OOVWord w) = false) ->
  (forall n, f (Report.ErrorsFound n) = false) ->
  (forall p, f (Report.LogNotFound p) = false) ->
  (forall n, f (Report.WavFiles n) = false) ->
  (forall n, f (Report.LabFiles n) = false) ->
  (forall n, f (Report.TextGridFiles n) = false) ->
  (forall c, f (Report.Coverage c) = false) ->
  exists items,
    Report.print_metrics_report wav lab tg path log = PyFloat.Ok items
    /\ In (Report.Coverage coverage) items
    /\ filter f items =
       filter f (if wav =? lab then [] else [Report.CountMismatch])
       ++ filter f (Report.summary_items tg coverage).
Proof.
  intros Hc H1 H2 H3 H4 H5 H6 H7 H8 H9 H10.
  unfold Report.print_metrics_report. rewrite Hc. eexists. split; [reflexivity|].
  split.
  - rewrite !in_app_iff. right. right. left. right. now left.
  - rewrite !filter_app, validation_items_filter by assumption.
    cbn [filter]. now rewrite H7, H8, H9, H10.
Qed.

(** When every audio file has its annotation file and there is at least
    one, the report gives a coverage of 100.0 and judges that all audio
    files were aligned; when there are audio files and no annotation file
    it gives a coverage of 0.0 and judges that none was generated.  Either
    way the warning about differing counts of audio and transcript files
    is printed exactly when the two counts differ, and the state of the
    validation log has no part in the judgement. *)
Theorem metrics_report_judges_full_and_empty_runs :
  forall (wav_count lab_count : Z) (validate_log : string) (log : Report.log_state),
    0 < wav_count ->
    (exists items,
       Report.print_metrics_report wav_count lab_count wav_count validate_log log
       = PyFloat.Ok items
       /\ In (Report.Coverage Metrics.float_100) items
       /\ filter Words.is_verdict items = [Report.AllAligned]
       /\ filter Words.is_mismatch items =
          (if wav_count =? lab_count then [] else [Report.CountMismatch]))
    /\ (exists items,
          Report.print_metrics_report wav_count lab_count 0 validate_log log
          = PyFloat.Ok items
          /\ In (Report.Coverage PyFloat.zero) items
          /\ filter Words.is_verdict items = [Report.NoTextGridGenerated]
          /\ filter Words.is_mismatch items =
             (if wav_count =? lab_count then [] else [Report.CountMismatch])).
Proof.
  intros wav lab path log Hw.
  assert (Hfull : Metrics.calculate_coverage wav wav = PyFloat.Ok Metrics.float_100).
  { destruct wav as [|p|p]; try lia.
    unfold Metrics.calculate_coverage. cbn [Z.eqb]. now rewrite truediv_same. }
  assert (Hnone : Metrics.calculate_coverage wav 0 = PyFloat.Ok PyFloat.zero).
  { destruct wav as [|p|p]; try lia. reflexivity. }
  assert (Hpos : (0 <? wav) = true) by (apply Z.ltb_lt; lia).
  split.
  - destruct (report_filter Words.is_verdict wav lab wav path log _ Hfull)
      as (items & Hok & Hin & Hv); try reflexivity.
    destruct (report_filter Words.is_mismatch wav lab wav path log _ Hfull)
      as (items' & Hok' & _ & Hm); try reflexivity.
    rewrite Hok in Hok'. injection Hok' as <-.
    exists items. split; [exact Hok|]. split; [exact Hin|]. split.
    + rewrite Hv. unfold Report.summary_items. rewrite Hpos.
      destruct (wav =? lab); reflexivity.
    + rewrite Hm. unfold Report.summary_items. rewrite Hpos.
      destruct (wav =? lab); reflexivity.
  - destruct (report_filter Words.is_verdict wav lab 0 path log _ Hnone)
      as (items & Hok & Hin & Hv); try reflexivity.
    destruct (report_filter Words.is_mismatch wav lab 0 path log _ Hnone)
      as (items' & Hok' & _ & Hm); try reflexivity.
    rewrite Hok in Hok'. injection Hok' as <-.
    exists items. split; [exact Hok|]. split; [exact Hin|]. split.
    + rewrite Hv. destruct (wav =? lab); reflexivity.
    + rewrite Hm. destruct (wav =? lab); reflexivity.
Qed.

(** The hypothesis holds for three audio files. *)
Lemma metrics_report_judges_full_and_empty_runs_witness :
  (exists items,
     Report.print_metrics_report 3 3 3 "logs/validate.txt" Report.LogMissing
     = PyFloat.Ok items
     /\ In (Report.Coverage Metrics.float_100) items
     /\ filter Words.is_verdict items = [Report.AllAligned]
     /\ filter Words.is_mismatch items = (if 3 =? 3 then [] else [Report.CountMismatch]))
  /\ (exists items,
        Report.print_metrics_report 3 3 0 "logs/validate.txt" Report.LogMissing
        = PyFloat.Ok items
        /\ In (Report.Coverage PyFloat.zero) items
        /\ filter Words.is_verdict items = [Report.NoTextGridGenerated]
        /\ filter Words.is_mismatch items = (if 3 =? 3 then [] else [Report.CountMismatch])).
Proof.
  apply (metrics_report_judges_full_and_empty_runs 3 3 "logs/validate.txt" Report.LogMissing).
  lia.
Defined.

End MetricsReportFacts.
